(** * Marathon training agent: fitness analysis and plan synthesis

    A shallow embedding of [src/marathon_agent.py] (class
    [StravaMarathonAgent]) and the properties of its analytical core:
    [analyze_strava_fitness] and [generate_training_plan] with their
    helpers.

    Conventions of the embedding.
    - A Python number (int or float) is modelled by its exact rational
      value in [Q]; the rounding error, overflow and signed zero of
      binary64 arithmetic are not modelled, so that [round] can fall on
      the other side of a tie than the code does; a property that
      depends on it is stated as an order or a bound.  The non-finite
      floats that [float()] can read from a goal-time string ([inf],
      [nan], a literal too large for binary64) are kept apart in
      [Py.pyfloat].
    - Text is a string of bytes.  [float()] and [strptime] are modelled
      on ASCII text, where they are exact about what is read; they also
      read decimal digits and white space beyond ASCII, which the model
      does not.
    - A Python call either returns or raises: [Py.outcome] carries the
      returned value or the class name of the exception.
    - Dictionaries with a fixed set of keys are records; a key that may
      be absent is an [option] field. *)

From Stdlib Require Import ZArith QArith Qround Qminmax List String Ascii Bool.
From Stdlib Require Import Lia Lqa Permutation Sorted DecimalString.
Import ListNotations.

Local Open Scope Z_scope.

(** ** Python builtins used by the agent *)

Module Py.

(** *** Returning and raising *)

Inductive outcome (A : Type) : Type :=
| Returned (v : A)
| Raised (exc : string).

Arguments Returned {A} v.
Arguments Raised {A} exc.

Definition bind {A B} (m : outcome A) (k : A -> outcome B) : outcome B :=
  match m with
  | Returned v => k v
  | Raised e => Raised e
  end.

Definition is_returned {A} (m : outcome A) : bool :=
  match m with Returned _ => true | Raised _ => false end.

(** [mapM]: evaluate a list comprehension whose body may raise; the
    first failing element decides the exception. *)
Fixpoint mapM {A B} (f : A -> outcome B) (l : list A) : outcome (list B) :=
  match l with
  | [] => Returned []
  | x :: l' =>
      bind (f x) (fun y => bind (mapM f l') (fun ys => Returned (y :: ys)))
  end.

(** *** Comparisons, [min], [max], [sum] on numbers *)

Definition leb (x y : Q) : bool := Qle_bool x y.
Definition ltb (x y : Q) : bool := negb (Qle_bool y x).
Definition geb (x y : Q) : bool := Qle_bool y x.
Definition gtb (x y : Q) : bool := negb (Qle_bool x y).

(** [min(a, b)] is [b] when [b < a], else [a]; [max(a, b)] is [b] when
    [b > a], else [a]. *)
Definition min (a b : Q) : Q := if ltb b a then b else a.
Definition max (a b : Q) : Q := if gtb b a then b else a.

Definition sum (l : list Q) : Q := fold_left Qplus l 0%Q.

Definition sumZ (l : list Z) : Z := fold_left Z.add l 0.

(** [range(n)] and [range(a, b, 2)]. *)
Definition range (n : Z) : list Z := map Z.of_nat (seq 0 (Z.to_nat n)).

Definition range_from (a b : Z) : list Z :=
  map (fun i => a + Z.of_nat i) (seq 0 (Z.to_nat (b - a))).

Definition range_step2 (b : Z) : list Z :=
  map (fun i => 2 * Z.of_nat i) (seq 0 (Z.to_nat ((b + 1) / 2))).

(** *** [round(x, ndigits)]: to the nearest multiple of [10^-ndigits],
    ties to the even one *)

Definition round_half_even (y : Q) : Z :=
  let f := Qfloor y in
  match Qcompare (y - inject_Z f) (1 # 2) with
  | Lt => f
  | Gt => f + 1
  | Eq => if Z.even f then f else f + 1
  end.

Definition round (x : Q) (ndigits : nat) : Q :=
  let s := inject_Z (10 ^ Z.of_nat ndigits) in
  (inject_Z (round_half_even (x * s)) / s)%Q.

(** [f"{x:.0f}"] *)
Definition format_0f (x : Q) : string :=
  NilZero.string_of_int (Z.to_int (round_half_even x)).

(** *** Floats read from text: finite, infinite or not a number *)

Inductive pyfloat : Type :=
| Fin (q : Q)
| Inf (negative : bool)
| NaN.

Definition fadd (a b : pyfloat) : pyfloat :=
  match a, b with
  | NaN, _ | _, NaN => NaN
  | Fin x, Fin y => Fin (x + y)
  | Inf s, Fin _ | Fin _, Inf s => Inf s
  | Inf s, Inf t => if Bool.eqb s t then Inf s else NaN
  end.

(** Multiplication and division by a positive finite constant. *)
Definition fscale (a : pyfloat) (c : Q) : pyfloat :=
  match a with
  | Fin x => Fin (x * c)
  | other => other
  end.

Definition fdiv (a : pyfloat) (c : Q) : pyfloat :=
  match a with
  | Fin x => Fin (x / c)
  | other => other
  end.

Definition fround (a : pyfloat) (ndigits : nat) : pyfloat :=
  match a with
  | Fin x => Fin (round x ndigits)
  | other => other
  end.

(** *** Characters *)

Definition is_digit (c : ascii) : bool :=
  let n := nat_of_ascii c in ((48 <=? n) && (n <=? 57))%nat.

Definition digit_val (c : ascii) : Z := Z.of_nat (nat_of_ascii c - 48).

(** The white space [float()] strips: tab, line feed, vertical tab, form
    feed, carriage return and space. *)
Definition is_space (c : ascii) : bool :=
  let n := nat_of_ascii c in
  (((9 <=? n) && (n <=? 13)) || (n =? 32))%nat.

Definition lower (c : ascii) : ascii :=
  let n := nat_of_ascii c in
  if ((65 <=? n) && (n <=? 90))%nat then ascii_of_nat (n + 32) else c.

Definition explode (s : string) : list ascii := list_ascii_of_string s.
Definition implode (l : list ascii) : string := string_of_list_ascii l.

Fixpoint lstrip (l : list ascii) : list ascii :=
  match l with
  | c :: l' => if is_space c then lstrip l' else l
  | [] => []
  end.

Definition strip (l : list ascii) : list ascii :=
  rev (lstrip (rev (lstrip l))).

(** *** [s.split(sep)] for a one-character separator *)

Fixpoint split_chars (sep : ascii) (cur : list ascii) (l : list ascii)
  : list string :=
  match l with
  | [] => [implode (rev cur)]
  | c :: l' =>
      if Ascii.eqb c sep then implode (rev cur) :: split_chars sep [] l'
      else split_chars sep (c :: cur) l'
  end.

Definition split (s : string) (sep : ascii) : list string :=
  split_chars sep [] (explode s).

(** *** [float(s)] on ASCII text

    [sign] ([inf] | [infinity] | [nan] | number), surrounded by optional
    white space; a number is [digits [. [digits]] | . digits] with an
    optional exponent, and one underscore may separate two digits. *)

(** Digits after a first digit has been read: value so far, number of
    digits so far. *)
Fixpoint digits_tail (l : list ascii) (v : Z) (n : nat)
  : Z * nat * list ascii :=
  match l with
  | c :: l' =>
      if is_digit c then digits_tail l' (10 * v + digit_val c) (S n)
      else if Ascii.eqb c "_" then
        match l' with
        | d :: l'' =>
            if is_digit d then digits_tail l'' (10 * v + digit_val d) (S n)
            else (v, n, l)
        | [] => (v, n, l)
        end
      else (v, n, l)
  | [] => (v, n, [])
  end.

Definition digitpart (l : list ascii) : option (Z * nat * list ascii) :=
  match l with
  | c :: l' => if is_digit c then Some (digits_tail l' (digit_val c) 1%nat)
               else None
  | [] => None
  end.

(** Mantissa: its digits as an integer and the number of fractional
    digits. *)
Definition mantissa (l : list ascii) : option (Z * nat * list ascii) :=
  match digitpart l with
  | Some (i, _, rest) =>
      match rest with
      | "."%char :: rest' =>
          match digitpart rest' with
          | Some (f, k, rest'') =>
              Some (i * 10 ^ Z.of_nat k + f, k, rest'')
          | None => Some (i, 0%nat, rest')
          end
      | _ => Some (i, 0%nat, rest)
      end
  | None =>
      match l with
      | "."%char :: rest' =>
          match digitpart rest' with
          | Some (f, k, rest'') => Some (f, k, rest'')
          | None => None
          end
      | _ => None
      end
  end.

Definition exponent (l : list ascii) : option (Z * list ascii) :=
  match l with
  | [] => Some (0, [])
  | c :: l' =>
      if Ascii.eqb (lower c) "e" then
        match l' with
        | "-"%char :: l'' =>
            match digitpart l'' with
            | Some (e, _, rest) => Some (- e, rest)
            | None => None
            end
        | "+"%char :: l'' =>
            match digitpart l'' with
            | Some (e, _, rest) => Some (e, rest)
            | None => None
            end
        | _ =>
            match digitpart l' with
            | Some (e, _, rest) => Some (e, rest)
            | None => None
            end
        end
      else None
  end.

(** From this value on a decimal literal rounds to infinity in binary64:
    the largest float and half a unit in its last place. *)
Definition overflow_threshold : Q := inject_Z (2 ^ 1024 - 2 ^ 970).

Definition of_literal (q : Q) : pyfloat :=
  if Qle_bool overflow_threshold q then Inf false else Fin q.

Definition unsigned_float (l : list ascii) : option pyfloat :=
  let word := implode (map lower l) in
  if String.eqb word "inf" || String.eqb word "infinity" then
    Some (Inf false)
  else if String.eqb word "nan" then Some NaN
  else
    match mantissa l with
    | Some (m, k, rest) =>
        match exponent rest with
        | Some (e, []) =>
            Some (of_literal (inject_Z m * Qpower 10 (e - Z.of_nat k)))
        | _ => None
        end
    | None => None
    end.

Definition fneg (a : pyfloat) : pyfloat :=
  match a with
  | Fin x => Fin (- x)
  | Inf s => Inf (negb s)
  | NaN => NaN
  end.

Definition parse_float (s : string) : option pyfloat :=
  match strip (explode s) with
  | "-"%char :: l => option_map fneg (unsigned_float l)
  | "+"%char :: l => unsigned_float l
  | l => unsigned_float l
  end.

(** [float(s)]: [ValueError] on text that is not a float literal. *)
Definition float (s : string) : outcome pyfloat :=
  match parse_float s with
  | Some v => Returned v
  | None => Raised "ValueError"
  end.

End Py.

Notation "x <- m ;; k" := (Py.bind m (fun x => k))
  (at level 61, m at next level, right associativity).

(** ** [datetime]: the dates of the run records *)

Module Datetime.
Import Py.

Record datetime : Type := mkDate { year : Z; month : Z; day : Z }.

Definition is_leap (y : Z) : bool :=
  (y mod 4 =? 0) && (negb (y mod 100 =? 0) || (y mod 400 =? 0)).

Definition days_in_month (y m : Z) : Z :=
  match m with
  | 2 => if is_leap y then 29 else 28
  | 4 | 6 | 9 | 11 => 30
  | _ => 31
  end.

Definition days_before_year (y : Z) : Z :=
  let p := y - 1 in
  p * 365 + p / 4 - p / 100 + p / 400.

Definition days_before_month (y m : Z) : Z :=
  nth (Z.to_nat m) [0; 0; 31; 59; 90; 120; 151; 181; 212; 243; 273; 304; 334] 0
  + (if (2 <? m) && is_leap y then 1 else 0).

Definition toordinal (d : datetime) : Z :=
  days_before_year (year d) + days_before_month (year d) (month d) + day d.

(** [(a - b).days] *)
Definition days_between (a b : datetime) : Z := toordinal a - toordinal b.

(** Ordering of [datetime] values: by year, then month, then day. *)
Definition le (a b : datetime) : bool :=
  (year a <? year b)
  || ((year a =? year b)
      && ((month a <? month b)
          || ((month a =? month b) && (day a <=? day b)))).

Definition lt (a b : datetime) : bool := negb (le b a).

(** A run of decimal digits, all of the text. *)
Definition all_digits (l : list ascii) : bool := forallb is_digit l.

Definition number (l : list ascii) : Z :=
  fold_left (fun v c => 10 * v + digit_val c) l 0.

(** The fields of the format [%Y-%m-%d]: four digits; one or two digits
    from 1 to 12; one or two digits from 1 to 31, or a space and a digit
    from 1 to 9. *)
Definition field_Y (s : string) : option Z :=
  let l := explode s in
  if all_digits l && (List.length l =? 4)%nat then Some (number l) else None.

Definition field_small (hi : Z) (l : list ascii) : option Z :=
  if all_digits l
     && ((List.length l =? 1) || (List.length l =? 2))%nat
     && (1 <=? number l) && (number l <=? hi)
  then Some (number l) else None.

Definition field_m (s : string) : option Z := field_small 12 (explode s).

Definition field_d (s : string) : option Z :=
  match explode s with
  | " "%char :: c :: [] =>
      if is_digit c && (1 <=? digit_val c) then Some (digit_val c) else None
  | l => field_small 31 l
  end.

(** [datetime.strptime(s, '%Y-%m-%d')]: [ValueError] when the text does
    not match the format or names no day of the calendar. *)
Definition strptime (s : string) : outcome datetime :=
  match split s "-" with
  | [fy; fm; fd] =>
      match field_Y fy, field_m fm, field_d fd with
      | Some y, Some m, Some d =>
          if (1 <=? y) && (d <=? days_in_month y m)
          then Returned (mkDate y m d)
          else Raised "ValueError"
      | _, _, _ => Raised "ValueError"
      end
  | _ => Raised "ValueError"
  end.

End Datetime.

(** ** Sorting as [list.sort] and [sorted] do: stable, by a key order *)

Section Sorting.
Context {A : Type} (le : A -> A -> bool).

(** [x] stood before every element of [l] in the input: it goes in
    front of the first element that may follow it. *)
Fixpoint insert (x : A) (l : list A) : list A :=
  match l with
  | [] => [x]
  | y :: l' => if le x y then x :: l else y :: insert x l'
  end.

Definition sort (l : list A) : list A := fold_right insert [] l.
End Sorting.

(** ** The agent *)

Module Agent.
Import Py Datetime.

Local Open Scope string_scope.
Local Open Scope list_scope.
Local Open Scope Q_scope.

(** *** Run records and the analysis result *)

(** The value under ['workout_type']: a label, a code or [None]. *)
Inductive workout_label : Type :=
| WStr (s : string)
| WInt (n : Z)
| WNone.

Definition workout_label_eqb (a b : workout_label) : bool :=
  match a, b with
  | WStr s, WStr t => String.eqb s t
  | WInt n, WInt m => Z.eqb n m
  | WNone, WNone => true
  | _, _ => false
  end.

Record run : Type := mkRun {
  distance : Q;
  pace_per_mile : Q;
  date : string;
  workout_type : option workout_label;
  average_heartrate : option Q
}.

(** What [analyze_strava_fitness] receives: the list of runs, or the
    error dictionary of a failed fetch. *)
Inductive runs_input : Type :=
| Runs (l : list run)
| FetchError (msg : string).

Record longest_run_info : Type := mkLongest {
  lr_distance : Q;
  lr_pace : Q;
  lr_date : string
}.

Record profile : Type := mkProfile {
  data_period_days : Z;
  total_runs : Z;
  total_distance : Q;
  weekly_mileage : Q;
  average_pace : Q;
  recent_pace_trend : Q;
  longest_run : longest_run_info;
  fitness_level : string;
  consistency_score : string;
  workout_distribution : list (workout_label * Z);
  profile_average_heartrate : option Q;
  training_recommendations : list string
}.

(** The dictionary returned by the analysis: a profile, or the single
    key ['error']. *)
Inductive analysis : Type :=
| Profile (p : profile)
| ErrorDict (msg : string).

(** *** Helpers of the analysis *)

Definition _calculate_consistency_score (avg_gap_days : Q) : string :=
  if leb avg_gap_days 1.5 then "Excellent (Daily runner)"
  else if leb avg_gap_days 2.5 then "Very Good (5-6 runs/week)"
  else if leb avg_gap_days 3.5 then "Good (4-5 runs/week)"
  else if leb avg_gap_days 5 then "Fair (3-4 runs/week)"
  else "Needs Improvement (Inconsistent)".

Definition _generate_recommendations (weekly_mileage longest_run avg_gap : Q)
  : list string :=
  let recommendations := [] in
  let recommendations :=
    if ltb weekly_mileage 20
    then recommendations
           ++ ["Focus on building base mileage gradually (10% rule)"]
    else recommendations in
  let recommendations :=
    if ltb longest_run 10
    then recommendations ++ ["Gradually increase long run distance"]
    else recommendations in
  let recommendations :=
    if gtb avg_gap 3
    then recommendations
           ++ ["Improve consistency - aim for at least 4 runs per week"]
    else recommendations in
  let recommendations :=
    if gtb weekly_mileage 50 && ltb longest_run 16
    then recommendations
           ++ ["Add more long runs to match your weekly volume"]
    else recommendations in
  recommendations.

Definition _determine_fitness_level (weekly_mileage longest_run avg_pace : Q)
  : string :=
  let base_level :=
    if geb weekly_mileage 50 && geb longest_run 20 then "Advanced"
    else if geb weekly_mileage 35 && geb longest_run 16 then "Intermediate+"
    else if geb weekly_mileage 25 && geb longest_run 12 then "Intermediate"
    else if geb weekly_mileage 15 && geb longest_run 8 then "Beginner+"
    else "Beginner" in
  if ltb avg_pace 7.0 then
    if existsb (String.eqb base_level) ["Beginner"; "Beginner+"]
    then "Intermediate" else base_level
  else if gtb avg_pace 10.0 then
    if existsb (String.eqb base_level) ["Advanced"; "Intermediate+"]
    then "Intermediate" else base_level
  else base_level.

(** [max(runs, key=distance)]: the first record of maximal distance. *)
Fixpoint max_by_distance (best : run) (l : list run) : run :=
  match l with
  | [] => best
  | r :: l' =>
      max_by_distance (if gtb (distance r) (distance best) then r else best) l'
  end.

Fixpoint max_date (best : datetime) (l : list datetime) : datetime :=
  match l with
  | [] => best
  | d :: l' => max_date (if Datetime.lt best d then d else best) l'
  end.

Fixpoint min_date (best : datetime) (l : list datetime) : datetime :=
  match l with
  | [] => best
  | d :: l' => min_date (if Datetime.lt d best then d else best) l'
  end.

(** [s[:n]] *)
Definition prefix_of (n : nat) (s : string) : string := substring 0 n s.

(** [l[:n]] *)
Definition take {A} (n : nat) (l : list A) : list A := firstn n l.

(** [workout_types[wtype] = workout_types.get(wtype, 0) + 1] on a
    dictionary that keeps the order of insertion. *)
Fixpoint count_up (k : workout_label) (d : list (workout_label * Z))
  : list (workout_label * Z) :=
  match d with
  | [] => [(k, 1%Z)]
  | (k', n) :: d' =>
      if workout_label_eqb k k' then (k', (n + 1)%Z) :: d'
      else (k', n) :: count_up k d'
  end.

(** Day gaps between consecutive dates, [run_dates[i] - run_dates[i-1]]
    for [i] from 1. *)
Fixpoint gaps_of (l : list datetime) : list Z :=
  match l with
  | a :: (b :: _) as l' => days_between b a :: gaps_of l'
  | _ => []
  end.

(** [sum(gaps) / len(gaps) if gaps else 0] *)
Definition average_gap (gaps : list Z) : Q :=
  match gaps with
  | [] => 0
  | _ => inject_Z (sumZ gaps) / inject_Z (Z.of_nat (List.length gaps))
  end.

Definition truthy (h : option Q) : bool :=
  match h with
  | Some q => negb (Qeq_bool q 0)
  | None => false
  end.

Definition heartrate_or_zero (h : option Q) : Q :=
  match h with Some q => q | None => 0 end.

(** The quantities the fitness level is computed from. *)
Definition weeks_of_data (l : list run) : Z :=
  Z.of_nat (List.length
              (nodup string_dec (map (fun r => prefix_of 7 (date r)) l))).

Definition raw_weekly_mileage (l : list run) : Q :=
  sum (map distance l) / inject_Z (Z.max (weeks_of_data l) 1).

Definition raw_average_pace (l : list run) : Q :=
  sum (map pace_per_mile l) / inject_Z (Z.of_nat (List.length l)).

(** *** [analyze_strava_fitness] *)

Definition analyze_strava_fitness (runs_data : runs_input)
  : outcome analysis :=
  match runs_data with
  | FetchError _ => Returned (ErrorDict "No valid running data available")
  | Runs [] => Returned (ErrorDict "No valid running data available")
  | Runs ((first :: others) as runs) =>
      let total_distance := sum (map distance runs) in
      let total_runs := Z.of_nat (List.length runs) in
      let avg_pace := sum (map pace_per_mile runs) / inject_Z total_runs in
      let weeks_of_data := weeks_of_data runs in
      let weekly_mileage := total_distance / inject_Z (Z.max weeks_of_data 1) in
      let longest_run := max_by_distance first others in
      let recent_runs :=
        take 10 (sort (fun a b => String.leb (date b) (date a)) runs) in
      let recent_avg_pace :=
        sum (map pace_per_mile recent_runs)
        / inject_Z (Z.of_nat (List.length recent_runs)) in
      let workout_types :=
        fold_left
          (fun d r =>
             count_up (match workout_type r with
                       | Some w => w
                       | None => WStr "Easy"
                       end) d)
          runs [] in
      let hr_runs := filter (fun r => truthy (average_heartrate r)) runs in
      let avg_hr :=
        match hr_runs with
        | [] => None
        | _ => Some (sum (map (fun r => heartrate_or_zero (average_heartrate r))
                            hr_runs)
                     / inject_Z (Z.of_nat (List.length hr_runs)))
        end in
      run_dates <- mapM (fun r => strptime (date r)) runs ;;
      let run_dates := sort Datetime.le run_dates in
      let gaps := gaps_of run_dates in
      let avg_gap := average_gap gaps in
      let fitness_level :=
        _determine_fitness_level weekly_mileage (distance longest_run) avg_pace in
      Returned (Profile {|
        data_period_days :=
          match run_dates with
          | [] => 0%Z
          | d :: ds => days_between (max_date d ds) (min_date d ds)
          end;
        total_runs := total_runs;
        total_distance := round total_distance 1;
        weekly_mileage := round weekly_mileage 1;
        average_pace := round avg_pace 2;
        recent_pace_trend := round recent_avg_pace 2;
        longest_run := {| lr_distance := distance longest_run;
                          lr_pace := pace_per_mile longest_run;
                          lr_date := date longest_run |};
        fitness_level := fitness_level;
        consistency_score := _calculate_consistency_score avg_gap;
        workout_distribution := workout_types;
        profile_average_heartrate :=
          match avg_hr with
          | Some h => if truthy (Some h) then Some (round h 0) else None
          | None => None
          end;
        training_recommendations :=
          _generate_recommendations weekly_mileage (distance longest_run) avg_gap
      |})
  end.

(** *** The plan and its parts *)

(** The dictionary [generate_training_plan] reads with [get]: each key
    may be absent, and so may ['distance'] under ['longest_run']. *)
Record fitness_data : Type := mkFitnessData {
  fd_weekly_mileage : option Q;
  fd_fitness_level : option string;
  fd_longest_run : option (option Q);
  fd_average_pace : option Q
}.

(** The analysis result seen as that dictionary. *)
Definition as_fitness_data (a : analysis) : fitness_data :=
  match a with
  | Profile p =>
      {| fd_weekly_mileage := Some (weekly_mileage p);
         fd_fitness_level := Some (fitness_level p);
         fd_longest_run := Some (Some (lr_distance (longest_run p)));
         fd_average_pace := Some (average_pace p) |}
  | ErrorDict _ =>
      {| fd_weekly_mileage := None;
         fd_fitness_level := None;
         fd_longest_run := None;
         fd_average_pace := None |}
  end.

Record phase : Type := mkPhase {
  phase_name : string;
  phase_weeks : string;
  phase_focus : string;
  mileage_range : string
}.

Record weekly_structure : Type := mkStructure {
  runs_per_week : Z;
  structure : list string
}.

Inductive key_workout_entry : Type :=
| WithProgression (type : string) (progression : list Q) (notes : string)
| WithExamples (type : string) (examples : list string) (notes : string).

Record pace_targets : Type := mkPaces {
  current_average_pace : Q;
  goal_marathon_pace : pyfloat;
  easy_pace : pyfloat;
  tempo_pace : pyfloat;
  interval_pace : pyfloat;
  long_run_pace : pyfloat
}.

Record week_entry : Type := mkWeek {
  week : Z;
  total_miles : Q;
  focus : string;
  key_workout : string
}.

Record training_plan : Type := mkPlan {
  timeline_weeks : Z;
  plan_fitness_level : string;
  current_weekly_mileage : Q;
  peak_weekly_mileage : Q;
  goal_marathon_time : option string;
  training_phases : list phase;
  plan_weekly_structure : weekly_structure;
  key_workouts : list key_workout_entry;
  plan_pace_targets : pace_targets;
  weekly_schedule : list week_entry
}.

(** *** Helpers of the plan *)

Definition _create_training_phases (weeks : Z) (base peak : Q) : list phase :=
  if (weeks =? 16)%Z then
    [ mkPhase "Base Building" "1-6" "Aerobic development"
        (format_0f base ++ "-" ++ format_0f (base * 1.3));
      mkPhase "Build Up" "7-12" "Speed & strength"
        (format_0f (base * 1.3) ++ "-" ++ format_0f peak);
      mkPhase "Peak" "13-14" "Race pace practice" (format_0f peak);
      mkPhase "Taper" "15-16" "Recovery & race prep"
        (format_0f (base * 0.6) ++ "-" ++ format_0f (base * 0.8)) ]
  else if (weeks =? 12)%Z then
    [ mkPhase "Base Building" "1-4" "Aerobic development"
        (format_0f base ++ "-" ++ format_0f (base * 1.2));
      mkPhase "Build Up" "5-9" "Speed & strength"
        (format_0f (base * 1.2) ++ "-" ++ format_0f peak);
      mkPhase "Peak" "10" "Race pace practice" (format_0f peak);
      mkPhase "Taper" "11-12" "Recovery & race prep"
        (format_0f (base * 0.7) ++ "-" ++ format_0f (base * 0.8)) ]
  else if (weeks =? 8)%Z then
    [ mkPhase "Build Up" "1-5" "Maintain & improve"
        (format_0f base ++ "-" ++ format_0f peak);
      mkPhase "Peak" "6" "Race pace practice" (format_0f peak);
      mkPhase "Taper" "7-8" "Recovery & race prep" (format_0f (base * 0.8)) ]
  else
    [ mkPhase "Maintain" "1-2" "Maintain fitness" (format_0f base);
      mkPhase "Taper" "3-4" "Recovery & race prep" (format_0f (base * 0.7)) ].

Definition structures : list (string * weekly_structure) :=
  [ ("Beginner",
     mkStructure 4 ["Easy Run"; "Rest"; "Easy Run"; "Rest"; "Tempo/Speed";
                    "Rest"; "Long Run"]);
    ("Beginner+",
     mkStructure 5 ["Easy Run"; "Tempo/Speed"; "Easy Run"; "Rest";
                    "Easy Run"; "Rest"; "Long Run"]);
    ("Intermediate",
     mkStructure 5 ["Easy Run"; "Speed Work"; "Easy Run"; "Tempo Run";
                    "Easy Run"; "Rest"; "Long Run"]);
    ("Intermediate+",
     mkStructure 6 ["Easy Run"; "Speed Work"; "Easy Run"; "Tempo Run";
                    "Easy Run"; "Recovery Run"; "Long Run"]);
    ("Advanced",
     mkStructure 6 ["Easy Run"; "Speed Work"; "Easy Run"; "Tempo Run";
                    "Easy Run"; "Recovery Run"; "Long Run"]) ].

(** [d.get(k, default)] on a dictionary given by its items. *)
Fixpoint dict_get {V} (d : list (string * V)) (k : string) (default : V) : V :=
  match d with
  | [] => default
  | (k', v) :: d' => if String.eqb k k' then v else dict_get d' k default
  end.

Definition beginner_structure : weekly_structure :=
  mkStructure 4 ["Easy Run"; "Rest"; "Easy Run"; "Rest"; "Tempo/Speed";
                 "Rest"; "Long Run"].

Definition _create_weekly_structure (fitness_level : string)
  : weekly_structure :=
  dict_get structures fitness_level
    (dict_get structures "Beginner" beginner_structure).

(** [l[:n]]: a negative [n] counts from the end. *)
Definition slice_to {A} (l : list A) (n : Z) : list A :=
  if (n <? 0)%Z then firstn (List.length l - Z.to_nat (- n)) l
  else firstn (Z.to_nat n) l.

(** One turn of the loop that builds the long runs of a long timeline:
    the state is [current] and the list built so far. *)
Definition long_run_step (st : Q * list Q) (i : Z) : Q * list Q :=
  let (current, long_runs) := st in
  let current :=
    if (i mod 2 =? 0)%Z && ltb current 20 then current + 2 else current in
  (current, long_runs ++ [min current 22]).

Definition long_runs_of (weeks : Z) (current_longest : Q) : list Q :=
  let start_long := max current_longest 8 in
  if (12 <=? weeks)%Z then
    let long_runs :=
      snd (fold_left long_run_step (range (weeks - 4)) (start_long, [])) in
    long_runs ++ [18; 12; 8; 6]
  else
    let long_runs :=
      map (fun i => start_long + inject_Z i)
        (range_step2 (Z.min (weeks - 2) 6)) in
    long_runs ++ [12; 8].

Definition beginner_speed : list string :=
  ["4x400m @ 5K pace"; "3x800m @ 5K pace"; "6x400m @ 5K pace";
   "4x800m @ 5K pace"].

Definition intermediate_speed : list string :=
  ["4x800m @ 5K pace"; "6x800m @ 5K pace"; "3x1600m @ 10K pace";
   "5x1000m @ 5K pace"; "8x400m @ Mile pace"].

Definition advanced_speed : list string :=
  ["6x800m @ 5K pace"; "4x1200m @ 5K pace"; "3x1600m @ 10K pace";
   "8x400m @ Mile pace"; "5x1000m @ 5K pace"; "2x3200m @ 10K pace"].

Definition speed_workouts_of (fitness_level : string) : list string :=
  if existsb (String.eqb fitness_level) ["Beginner"] then beginner_speed
  else if existsb (String.eqb fitness_level) ["Beginner+"; "Intermediate"]
  then intermediate_speed
  else advanced_speed.

Definition _generate_key_workouts (weeks : Z) (fitness_level : string)
           (current_longest : Q) : list key_workout_entry :=
  let workouts := [] in
  let long_runs := long_runs_of weeks current_longest in
  let workouts :=
    workouts ++ [WithProgression "Long Runs" (slice_to long_runs weeks)
                   "Build endurance gradually, practice race nutrition"] in
  let speed_workouts := speed_workouts_of fitness_level in
  let workouts :=
    workouts ++ [WithExamples "Speed Work" speed_workouts
                   "Improve VO2 max and running economy"] in
  workouts.

(** [time_parts[i]]: [IndexError] beyond the end. *)
Definition index {A} (l : list A) (i : nat) : outcome A :=
  match nth_error l i with
  | Some v => Returned v
  | None => Raised "IndexError"
  end.

(** A goal time is used when it is given and not the empty string. *)
Definition given (goal_time : option string) : option string :=
  match goal_time with
  | Some "" => None
  | other => other
  end.

Definition _calculate_pace_targets (fitness_data : fitness_data)
           (goal_time : option string) : outcome pace_targets :=
  let current_pace :=
    match fd_average_pace fitness_data with Some p => p | None => 9.0 end in
  goal_pace <-
    match given goal_time with
    | Some goal_time =>
        let time_parts := split goal_time ":" in
        p0 <- index time_parts 0 ;;
        h <- float p0 ;;
        p1 <- index time_parts 1 ;;
        m <- float p1 ;;
        p2 <- index time_parts 2 ;;
        s <- float p2 ;;
        let goal_hours := fadd (fadd h (fdiv m 60)) (fdiv s 3600) in
        Returned (fdiv (fscale goal_hours 60) 26.2)
    | None => Returned (Fin (current_pace * 0.95))
    end ;;
  Returned {|
    current_average_pace := current_pace;
    goal_marathon_pace := fround goal_pace 2;
    easy_pace := fround (fscale goal_pace 1.15) 2;
    tempo_pace := fround (fscale goal_pace 0.92) 2;
    interval_pace := fround (fscale goal_pace 0.85) 2;
    long_run_pace := fround (fscale goal_pace 1.10) 2
  |}.

Definition _get_week_focus (week_num total_weeks : Z) : string :=
  if (12 <=? total_weeks)%Z then
    if (week_num <=? 6)%Z then "Base building"
    else if (week_num <=? total_weeks - 4)%Z then "Speed & strength"
    else if (week_num <=? total_weeks - 2)%Z then "Race pace"
    else "Taper & recovery"
  else
    if (week_num <=? total_weeks - 2)%Z then "Maintain fitness"
    else "Taper & recovery".

Definition _get_key_workout (week_num total_weeks : Z)
           (fitness_level : string) : string :=
  if (total_weeks - 2 <? week_num)%Z then "Easy pace runs only"
  else
    let workout_cycle := ((week_num - 1) mod 3)%Z in
    let workouts :=
      if existsb (String.eqb fitness_level) ["Beginner"]
      then ["Tempo run"; "Fartlek"; "Hill repeats"]
      else ["Interval training"; "Tempo run"; "Long run with pickups"] in
    nth (Z.to_nat workout_cycle) workouts "".

Definition mileage_progression_of (weeks : Z) (base_mileage peak_mileage : Q)
  : list Q :=
  if (12 <=? weeks)%Z then
    let build_weeks := (weeks - 4)%Z in
    let increment := (peak_mileage - base_mileage) / inject_Z build_weeks in
    map (fun week => round (base_mileage + increment * inject_Z week) 1)
      (range build_weeks)
    ++ [ round (peak_mileage * 0.8) 1;
         round (peak_mileage * 0.6) 1;
         round (peak_mileage * 0.4) 1;
         round (peak_mileage * 0.3) 1 ]
  else
    map (fun _ => base_mileage) (range (weeks - 2))
    ++ [ round (base_mileage * 0.7) 1;
         round (base_mileage * 0.5) 1 ].

Definition _generate_weekly_schedule (weeks : Z)
           (base_mileage peak_mileage : Q) (fitness_level : string)
  : list week_entry :=
  let mileage_progression :=
    mileage_progression_of weeks base_mileage peak_mileage in
  map (fun week_num =>
         let weekly_miles :=
           if (week_num <=? Z.of_nat (List.length mileage_progression))%Z
           then nth (Z.to_nat (week_num - 1)) mileage_progression base_mileage
           else base_mileage in
         {| week := week_num;
            total_miles := weekly_miles;
            focus := _get_week_focus week_num weeks;
            key_workout := _get_key_workout week_num weeks fitness_level |})
    (range_from 1 (weeks + 1)).

(** *** [generate_training_plan] *)

Definition peak_multipliers (weeks : Z) : Q :=
  if (weeks =? 16)%Z then 1.8
  else if (weeks =? 12)%Z then 1.6
  else if (weeks =? 8)%Z then 1.4
  else if (weeks =? 4)%Z then 1.2
  else 1.5.

Definition max_safe_mileage (weeks : Z) (weekly_mileage : Q)
           (fitness_level : string) : Q :=
  let max_safe_mileage := min (weekly_mileage * peak_multipliers weeks) 70 in
  if String.eqb fitness_level "Beginner" then min max_safe_mileage 40
  else if String.eqb fitness_level "Beginner+" then min max_safe_mileage 50
  else max_safe_mileage.

Definition generate_training_plan (weeks : Z) (fitness_data : fitness_data)
           (goal_time : option string) : outcome training_plan :=
  let weekly_mileage :=
    match fd_weekly_mileage fitness_data with Some m => m | None => 20 end in
  let fitness_level :=
    match fd_fitness_level fitness_data with
    | Some l => l
    | None => "Beginner"
    end in
  let longest_run :=
    match fd_longest_run fitness_data with
    | Some (Some d) => d
    | Some None => 8
    | None => 8
    end in
  let max_safe_mileage := max_safe_mileage weeks weekly_mileage fitness_level in
  let training_phases :=
    _create_training_phases weeks weekly_mileage max_safe_mileage in
  let weekly_structure := _create_weekly_structure fitness_level in
  let key_workouts := _generate_key_workouts weeks fitness_level longest_run in
  pace_targets <- _calculate_pace_targets fitness_data goal_time ;;
  Returned {|
    timeline_weeks := weeks;
    plan_fitness_level := fitness_level;
    current_weekly_mileage := weekly_mileage;
    peak_weekly_mileage := round max_safe_mileage 1;
    goal_marathon_time := goal_time;
    training_phases := training_phases;
    plan_weekly_structure := weekly_structure;
    key_workouts := key_workouts;
    plan_pace_targets := pace_targets;
    weekly_schedule :=
      _generate_weekly_schedule weeks weekly_mileage max_safe_mileage
        fitness_level
  |}.

End Agent.

(** ** The tier rules and labels as the specification words them *)

Module Spec.
Import Py Agent.

Local Open Scope string_scope.
Local Open Scope list_scope.
Local Open Scope Q_scope.

(** The five fitness tiers, in ascending order. *)
Inductive tier : Type :=
| Beginner
| BeginnerPlus
| Intermediate
| IntermediatePlus
| Advanced.

Definition tier_label (t : tier) : string :=
  match t with
  | Beginner => "Beginner"
  | BeginnerPlus => "Beginner+"
  | Intermediate => "Intermediate"
  | IntermediatePlus => "Intermediate+"
  | Advanced => "Advanced"
  end.

Definition tier_rank (t : tier) : nat :=
  match t with
  | Beginner => 0
  | BeginnerPlus => 1
  | Intermediate => 2
  | IntermediatePlus => 3
  | Advanced => 4
  end.

Definition all_tiers : list tier :=
  [Beginner; BeginnerPlus; Intermediate; IntermediatePlus; Advanced].

Definition tier_of_label (s : string) : option tier :=
  find (fun t => String.eqb s (tier_label t)) all_tiers.

(** Stage 1: the descending cascade, first match wins. *)
Definition cascade : list (Q * Q * tier) :=
  [ (50, 20, Advanced);
    (35, 16, IntermediatePlus);
    (25, 12, Intermediate);
    (15, 8, BeginnerPlus) ].

Definition base_tier (weekly_mileage longest_run : Q) : tier :=
  match
    find (fun row => match row with
                     | (m, l, _) => geb weekly_mileage m && geb longest_run l
                     end) cascade
  with
  | Some (_, _, t) => t
  | None => Beginner
  end.

(** Stage 2: the pace adjustment. *)
Definition adjust (avg_pace : Q) (t : tier) : tier :=
  if ltb avg_pace 7.0 then
    match t with
    | Beginner | BeginnerPlus => Intermediate
    | other => other
    end
  else if gtb avg_pace 10.0 then
    match t with
    | Advanced | IntermediatePlus => Intermediate
    | other => other
    end
  else t.

Definition two_stage_tier (weekly_mileage longest_run avg_pace : Q) : tier :=
  adjust avg_pace (base_tier weekly_mileage longest_run).



(** *** The aggregates of the analysis, as the specification defines them *)

Definition total (l : list Q) : Q := fold_right Qplus 0 l.

Definition mean (l : list Q) : Q :=
  total l / inject_Z (Z.of_nat (List.length l)).

(** The year-month bucket of a run: the first seven characters of its
    date. *)
Definition month_bucket (r : run) : string :=
  implode (firstn 7 (explode (date r))).

(** The values of a list, each once. *)
Fixpoint distinct (l : list string) : list string :=
  match l with
  | [] => []
  | x :: l' =>
      if existsb (String.eqb x) l' then distinct l' else x :: distinct l'
  end.

Definition month_buckets (runs : list run) : nat :=
  List.length (distinct (map month_bucket runs)).

(** Weekly mileage: the total distance over the number of buckets, 1 at
    least. *)
Definition weekly_mileage_of (runs : list run) : Q :=
  total (map distance runs)
  / inject_Z (Z.of_nat (Nat.max (month_buckets runs) 1)).

(** Average pace: the mean of the paces of the records. *)
Definition average_pace_of (runs : list run) : Q :=
  mean (map pace_per_mile runs).

(** A record of maximal distance. *)
Definition is_longest (runs : list run) (r : run) : Prop :=
  In r runs /\ forall x, In x runs -> distance x <= distance r.




End Spec.

(** ** Observations on inputs and results, and closed forms of loops *)

Module Obs.
Import Py Datetime Agent.

Local Open Scope string_scope.
Local Open Scope list_scope.
Local Open Scope Q_scope.


(** The run dates as the analysis sorts them. *)
Definition sorted_dates (l : list run) : outcome (list datetime) :=
  ds <- mapM (fun r => strptime (date r)) l ;;
  Returned (sort Datetime.le ds).

Definition well_dated (r : run) : Prop :=
  is_returned (strptime (date r)) = true.

Definition no_data : analysis := ErrorDict "No valid running data available".


(** The first record of maximal distance. *)
Definition longest_of (l : list run) : option run :=
  match l with
  | [] => None
  | r :: l' => Some (max_by_distance r l')
  end.

(** A goal time in the shape hours:minutes:seconds: the first three
    fields between colons, each a float literal. *)
Definition goal_time_fields (s : string)
  : option (pyfloat * pyfloat * pyfloat) :=
  match split s ":" with
  | a :: b :: c :: _ =>
      match parse_float a, parse_float b, parse_float c with
      | Some h, Some m, Some sec => Some (h, m, sec)
      | _, _, _ => None
      end
  | _ => None
  end.

(** The long run of week [i] (from 0) of a long timeline, before the
    cap: two more than the week before on every even week while under
    20, week 0 included. *)
Fixpoint long_run_level (start : Q) (i : nat) : Q :=
  match i with
  | O => if ltb start 20 then start + 2 else start
  | S j =>
      let previous := long_run_level start j in
      if Nat.even (S j) && ltb previous 20 then previous + 2 else previous
  end.

Definition long_timeline_progression (weeks : Z) (longest : Q) : list Q :=
  map (fun i => min (long_run_level (max longest 8) i) 22)
    (seq 0 (Z.to_nat (weeks - 4)))
  ++ [18; 12; 8; 6].

(** A goal time the pace targets can be computed from: none, the empty
    string, or three leading float fields. *)
Definition goal_time_ok (goal_time : option string) : bool :=
  match given goal_time with
  | None => true
  | Some s =>
      match goal_time_fields s with Some _ => true | None => false end
  end.

(** The mileage of the week numbered [w]. *)
Definition miles_of_week (weeks : Z) (base peak : Q) (w : Z) : Q :=
  let progression := mileage_progression_of weeks base peak in
  if (w <=? Z.of_nat (List.length progression))%Z
  then nth (Z.to_nat (w - 1)) progression base
  else base.

(** The first week of the taper: the last four weeks of a timeline of
    12 weeks or more, the last two of a shorter one. *)
Definition taper_start (weeks : Z) : Z :=
  if (12 <=? weeks)%Z then (weeks - 4)%Z else (weeks - 2)%Z.

Definition is_taper_week (weeks : Z) (e : week_entry) : bool :=
  (taper_start weeks <? week e)%Z.

(** The mileage of the week of maximal mileage. *)
Definition peak_miles (s : list week_entry) : Q :=
  match s with
  | [] => 0
  | e :: s' => fold_left (fun m e' => max m (total_miles e')) s' (total_miles e)
  end.

Definition miles_nonnegative (s : list week_entry) : Prop :=
  forall e, In e s -> 0 <= total_miles e.

Definition taper_below_peak (weeks : Z) (s : list week_entry) : Prop :=
  forall e, In e s -> is_taper_week weeks e = true ->
            total_miles e < peak_miles s.

(** The long-run progression and the speed-work examples of a plan. *)
Definition long_run_progression (plan : training_plan) : list Q :=
  match key_workouts plan with
  | WithProgression _ progression _ :: _ => progression
  | _ => []
  end.

Definition speed_examples (plan : training_plan) : list string :=
  match key_workouts plan with
  | _ :: WithExamples _ examples _ :: _ => examples
  | _ => []
  end.

(** Text within ASCII, where the models of [float()] and [strptime] are
    exact. *)
Definition ascii_text (s : string) : bool :=
  forallb (fun c => (nat_of_ascii c <? 128)%nat) (explode s).

(** A field [float()] reads. *)
Definition float_literal (field : string) : bool :=
  match parse_float field with
  | Some _ => true
  | None => false
  end.

(** The fields of a goal time that the pace targets index: the first
    three at most. *)
Definition indexed_fields (s : string) : list string :=
  firstn 3 (split s ":").

(** The profile with 20, "Beginner" and 8 written in for the weekly
    mileage, the fitness level and the distance of the longest run where
    they are missing. *)
Definition filled_in (fd : fitness_data) : fitness_data :=
  {| fd_weekly_mileage :=
       Some (match fd_weekly_mileage fd with Some m => m | None => 20 end);
     fd_fitness_level :=
       Some (match fd_fitness_level fd with
             | Some l => l
             | None => "Beginner"
             end);
     fd_longest_run :=
       Some (Some (match fd_longest_run fd with
                   | Some (Some d) => d
                   | _ => 8
                   end));
     fd_average_pace := fd_average_pace fd |}.

(** Two calls that both return, or both raise the same exception. *)
Definition same_failure {A B} (a : outcome A) (b : outcome B) : Prop :=
  match a, b with
  | Returned _, Returned _ => True
  | Raised e, Raised e' => e = e'
  | _, _ => False
  end.

(** A plan with all its parts: a schedule of one entry per week, two to
    four phases, a template of seven sessions, the two key workouts with
    examples of speed work, and long runs when there is a week at all. *)
Definition complete (weeks : Z) (plan : training_plan) : Prop :=
  timeline_weeks plan = weeks
  /\ List.length (weekly_schedule plan) = Z.to_nat weeks
  /\ (2 <= List.length (training_phases plan) <= 4)%nat
  /\ List.length (structure (plan_weekly_structure plan)) = 7%nat
  /\ List.length (key_workouts plan) = 2%nat
  /\ (4 <= List.length (speed_examples plan))%nat
  /\ ((1 <= weeks)%Z -> (1 <= List.length (long_run_progression plan))%nat).

End Obs.

(** ** Sample inputs *)

Module Samples.
Import Py Agent.

Local Open Scope string_scope.
Local Open Scope Q_scope.

(** The profile of the example run of the module. *)
Definition sample_data : fitness_data :=
  {| fd_weekly_mileage := Some 35;
     fd_fitness_level := Some "Intermediate";
     fd_longest_run := Some (Some 14);
     fd_average_pace := None |}.

Definition empty_data : fitness_data :=
  {| fd_weekly_mileage := None;
     fd_fitness_level := None;
     fd_longest_run := None;
     fd_average_pace := None |}.

Definition elite_data : fitness_data :=
  {| fd_weekly_mileage := Some 60;
     fd_fitness_level := Some "Elite";
     fd_longest_run := Some (Some 22);
     fd_average_pace := Some 6.5 |}.

Definition tiny_data : fitness_data :=
  {| fd_weekly_mileage := Some 0.01;
     fd_fitness_level := Some "Beginner";
     fd_longest_run := Some (Some 1);
     fd_average_pace := Some 12 |}.

Definition low_data : fitness_data :=
  {| fd_weekly_mileage := Some 0.1;
     fd_fitness_level := Some "Beginner";
     fd_longest_run := Some (Some 1);
     fd_average_pace := Some 12 |}.

Definition run_a : run :=
  {| distance := 20; pace_per_mile := 10; date := "2024-01-01";
     workout_type := None; average_heartrate := None |}.

Definition run_b : run :=
  {| distance := 6; pace_per_mile := 25 / 3; date := "2024-01-08";
     workout_type := Some WNone; average_heartrate := Some 150 |}.

Definition sample_runs : list run := [run_a; run_b].

(** Two runs in one month whose total, 14.96, is reported as 15.0. *)
Definition threshold_runs : list run :=
  [ {| distance := 8; pace_per_mile := 9; date := "2024-01-01";
       workout_type := None; average_heartrate := None |};
    {| distance := 6.96; pace_per_mile := 9; date := "2024-01-08";
       workout_type := None; average_heartrate := None |} ].

End Samples.

(** ** Further observations: ranks, catalogues and counts *)

Module More.
Import Py Datetime Agent Spec Obs.

Local Open Scope string_scope.
Local Open Scope list_scope.
Local Open Scope Q_scope.

(** The consistency labels from the best to the worst. *)
Definition consistency_labels : list string :=
  [ "Excellent (Daily runner)";
    "Very Good (5-6 runs/week)";
    "Good (4-5 runs/week)";
    "Fair (3-4 runs/week)";
    "Needs Improvement (Inconsistent)" ].

(** The position of a value in a list of strings. *)
Fixpoint position (s : string) (l : list string) : option nat :=
  match l with
  | [] => None
  | x :: l' =>
      if String.eqb s x then Some O
      else match position s l' with
           | Some n => Some (S n)
           | None => None
           end
  end.

Definition consistency_rank (label : string) : option nat :=
  position label consistency_labels.

(** The four pieces of advice, in the order the code appends them. *)
Definition base_advice : string :=
  "Focus on building base mileage gradually (10% rule)".
Definition long_run_advice : string :=
  "Gradually increase long run distance".
Definition consistency_advice : string :=
  "Improve consistency - aim for at least 4 runs per week".
Definition volume_advice : string :=
  "Add more long runs to match your weekly volume".

(** The label a run is counted under. *)
Definition label_of (r : run) : workout_label :=
  match workout_type r with
  | Some w => w
  | None => WStr "Easy"
  end.

(** A day of the calendar, as [strptime] returns them. *)
Definition valid_date (d : datetime) : Prop :=
  (1 <= year d)%Z /\ (1 <= month d <= 12)%Z
  /\ (1 <= day d <= days_in_month (year d) (month d))%Z.

(** The outcome of the analysis of a list of runs, read as a profile. *)
Definition profile_of (runs : list run) : option profile :=
  match analyze_strava_fitness (Runs runs) with
  | Returned (Profile p) => Some p
  | _ => None
  end.

(** The cap the fitness level puts on the peak mileage. *)
Definition level_cap (fitness_level : string) : Q :=
  if String.eqb fitness_level "Beginner" then 40
  else if String.eqb fitness_level "Beginner+" then 50
  else 70.

(** The five pace zones from the fastest to the slowest, all finite. *)
Definition pace_zones_ordered (pt : pace_targets) : Prop :=
  match interval_pace pt, tempo_pace pt, goal_marathon_pace pt,
        long_run_pace pt, easy_pace pt with
  | Fin i, Fin t, Fin g, Fin l, Fin e => i <= t /\ t <= g /\ g <= l /\ l <= e
  | _, _, _, _, _ => False
  end.

(** The sessions of a weekly template that are runs. *)
Definition run_slots (ws : weekly_structure) : nat :=
  List.length (filter (fun s => negb (String.eqb s "Rest")) (structure ws)).

(** Analysis, then the plan from what the analysis returned. *)
Definition plan_from_runs (weeks : Z) (runs_data : runs_input)
           (goal_time : option string) : outcome training_plan :=
  a <- analyze_strava_fitness runs_data ;;
  generate_training_plan weeks (as_fitness_data a) goal_time.

(** The focus labels in the order of the phases; the first label of a
    long timeline and the first of a short one open the order. *)
Definition focus_rank (label : string) : option nat :=
  if String.eqb label "Base building" then Some 0%nat
  else if String.eqb label "Maintain fitness" then Some 0%nat
  else if String.eqb label "Speed & strength" then Some 1%nat
  else if String.eqb label "Race pace" then Some 2%nat
  else if String.eqb label "Taper & recovery" then Some 3%nat
  else None.

End More.

Module MoreSamples.
Import Py Agent.
Local Open Scope string_scope.
Local Open Scope Q_scope.

(** Three runs over twenty days, bunched at the start or evenly spread. *)
Definition run_on (day : string) : run :=
  {| distance := 5; pace_per_mile := 9; date := day;
     workout_type := None; average_heartrate := None |}.

Definition bunched_runs : list run :=
  [run_on "2024-03-01"; run_on "2024-03-02"; run_on "2024-03-21"].

Definition spread_runs : list run :=
  [run_on "2024-03-01"; run_on "2024-03-11"; run_on "2024-03-21"].

End MoreSamples.

(** * Properties *)

Module Facts.
Import Py Datetime Agent Spec Obs Samples.

Local Open Scope string_scope.
Local Open Scope list_scope.
Local Open Scope Q_scope.

(** ** Comparisons *)

Lemma leb_true x y : leb x y = true <-> x <= y.
Proof. unfold leb. apply Qle_bool_iff. Qed.

Lemma leb_false x y : leb x y = false <-> y < x.
Proof.
  unfold leb. split; intro H.
  - apply Qnot_le_lt. intro H'. apply Qle_bool_iff in H'. congruence.
  - destruct (Qle_bool x y) eqn:E; [|reflexivity].
    apply Qle_bool_iff in E. lra.
Qed.

Lemma geb_true x y : geb x y = true <-> y <= x.
Proof. unfold geb. apply Qle_bool_iff. Qed.

Lemma geb_false x y : geb x y = false <-> x < y.
Proof. unfold geb. apply (leb_false y x). Qed.

Lemma ltb_true x y : ltb x y = true <-> x < y.
Proof.
  unfold ltb. rewrite negb_true_iff. apply (leb_false y x).
Qed.

Lemma ltb_false x y : ltb x y = false <-> y <= x.
Proof.
  unfold ltb. rewrite negb_false_iff. apply Qle_bool_iff.
Qed.

Lemma gtb_true x y : gtb x y = true <-> y < x.
Proof.
  unfold gtb. rewrite negb_true_iff. apply (leb_false x y).
Qed.

Lemma gtb_false x y : gtb x y = false <-> x <= y.
Proof.
  unfold gtb. rewrite negb_false_iff. apply Qle_bool_iff.
Qed.

(** Case analysis on one comparison, with its meaning as a fact. *)
Ltac split_cmp c :=
  let E := fresh "E" in
  destruct c eqn:E;
  [ first [ apply leb_true in E | apply geb_true in E
          | apply ltb_true in E | apply gtb_true in E ]
  | first [ apply leb_false in E | apply geb_false in E
          | apply ltb_false in E | apply gtb_false in E ] ].

Ltac cmp_cases :=
  repeat match goal with
    | |- context [leb ?a ?b] => split_cmp (leb a b); try lra
    | |- context [geb ?a ?b] => split_cmp (geb a b); try lra
    | |- context [ltb ?a ?b] => split_cmp (ltb a b); try lra
    | |- context [gtb ?a ?b] => split_cmp (gtb a b); try lra
    end.

Lemma min_le_l a b : min a b <= a.
Proof. unfold min. cmp_cases. Qed.

Lemma min_le_r a b : min a b <= b.
Proof. unfold min. cmp_cases. Qed.

Lemma min_glb a b c : c <= a -> c <= b -> c <= min a b.
Proof. unfold min. intros. cmp_cases. Qed.

Lemma max_ge_l a b : a <= max a b.
Proof. unfold max. cmp_cases. Qed.

Lemma max_ge_r a b : b <= max a b.
Proof. unfold max. cmp_cases. Qed.

(** ** The fitness level *)

(** The nested conditionals of the code compute the two-stage rule. *)
Lemma determine_fitness_level_two_stage m l p :
  _determine_fitness_level m l p = tier_label (two_stage_tier m l p).
Proof.
  unfold _determine_fitness_level, two_stage_tier, adjust, base_tier, cascade.
  cbn [find].
  destruct (geb m 50), (geb l 20), (geb m 35), (geb l 16),
    (geb m 25), (geb l 12), (geb m 15), (geb l 8);
    cbn [andb];
    destruct (ltb p 7.0), (gtb p 10.0); reflexivity.
Qed.

Lemma tier_of_label_label t : tier_of_label (tier_label t) = Some t.
Proof. destruct t; reflexivity. Qed.

Lemma base_tier_monotone m1 m2 l :
  m1 <= m2 -> (tier_rank (base_tier m1 l) <= tier_rank (base_tier m2 l))%nat.
Proof.
  intros H. unfold base_tier, cascade. cbn [find].
  split_cmp (geb l 20); split_cmp (geb l 16); split_cmp (geb l 12);
    split_cmp (geb l 8); try lra;
    rewrite ?andb_true_r, ?andb_false_r;
    cmp_cases; cbn; lia.
Qed.

Lemma adjust_monotone p t1 t2 :
  (tier_rank t1 <= tier_rank t2)%nat ->
  (tier_rank (adjust p t1) <= tier_rank (adjust p t2))%nat.
Proof.
  unfold adjust. destruct (ltb p 7.0), (gtb p 10.0), t1, t2; cbn; lia.
Qed.

(** ** Lists built by comprehensions that may raise *)

Lemma mapM_returned {A B} (f : A -> outcome B) (l : list A) :
  Forall (fun x => is_returned (f x) = true) l ->
  exists ys, mapM f l = Returned ys /\ List.length ys = List.length l.
Proof.
  induction 1 as [|x l Hx _ IH]; cbn [mapM].
  - exists []. split; reflexivity.
  - destruct (f x) as [y|e]; [|discriminate].
    destruct IH as (ys & -> & Hlen). exists (y :: ys).
    cbn. split; [reflexivity | now rewrite Hlen].
Qed.


(** ** Sorting *)

Section SortFacts.
Context {A : Type} (le : A -> A -> bool).
Hypothesis le_total : forall a b, le a b = true \/ le b a = true.
Hypothesis le_trans :
  forall a b c, le a b = true -> le b c = true -> le a c = true.
Hypothesis le_antisym :
  forall a b, le a b = true -> le b a = true -> a = b.

Let R (a b : A) : Prop := le a b = true.

Lemma insert_permutation x l : Permutation (insert le x l) (x :: l).
Proof.
  induction l as [|y l IH]; cbn [insert].
  - reflexivity.
  - destruct (le x y); [reflexivity|].
    rewrite IH. apply perm_swap.
Qed.

Lemma sort_permutation l : Permutation (sort le l) l.
Proof.
  induction l as [|x l IH]; cbn [sort fold_right].
  - reflexivity.
  - fold (sort le l). rewrite insert_permutation. now constructor.
Qed.

Lemma insert_sorted x l :
  StronglySorted R l -> StronglySorted R (insert le x l).
Proof.
  induction 1 as [|y l Hs IH Hy]; cbn [insert].
  - repeat constructor.
  - destruct (le x y) eqn:E.
    + constructor; [now constructor|].
      constructor; [exact E|].
      eapply Forall_impl; [|exact Hy].
      intros z Hz. eapply le_trans; eassumption.
    + constructor; [exact IH|].
      assert (Hyx : R y x) by (destruct (le_total x y); [congruence|assumption]).
      eapply Permutation_Forall;
        [symmetry; apply insert_permutation|].
      now constructor.
Qed.

Lemma sort_sorted l : StronglySorted R (sort le l).
Proof.
  induction l as [|x l IH]; cbn [sort fold_right].
  - constructor.
  - apply insert_sorted. exact IH.
Qed.


End SortFacts.

Lemma datetime_le_total a b :
  Datetime.le a b = true \/ Datetime.le b a = true.
Proof.
  unfold Datetime.le. destruct a as [y m d], b as [y' m' d']; cbn.
  destruct (Z.ltb_spec y y'), (Z.ltb_spec y' y), (Z.eqb_spec y y'),
    (Z.eqb_spec y' y), (Z.ltb_spec m m'), (Z.ltb_spec m' m),
    (Z.eqb_spec m m'), (Z.eqb_spec m' m), (Z.leb_spec d d'),
    (Z.leb_spec d' d); cbn; auto; lia.
Qed.

Lemma datetime_le_antisym a b :
  Datetime.le a b = true -> Datetime.le b a = true -> a = b.
Proof.
  unfold Datetime.le. destruct a as [y m d], b as [y' m' d']; cbn.
  destruct (Z.ltb_spec y y'), (Z.ltb_spec y' y), (Z.eqb_spec y y'),
    (Z.eqb_spec y' y), (Z.ltb_spec m m'), (Z.ltb_spec m' m),
    (Z.eqb_spec m m'), (Z.eqb_spec m' m), (Z.leb_spec d d'),
    (Z.leb_spec d' d); cbn; intros; try discriminate; try lia;
    f_equal; lia.
Qed.

Lemma datetime_le_trans a b c :
  Datetime.le a b = true -> Datetime.le b c = true -> Datetime.le a c = true.
Proof.
  unfold Datetime.le.
  destruct a as [y m d], b as [y' m' d'], c as [y'' m'' d'']; cbn.
  rewrite !orb_true_iff, !andb_true_iff, !orb_true_iff, !andb_true_iff,
    !Z.ltb_lt, !Z.eqb_eq, !Z.leb_le.
  lia.
Qed.


(** ** The analysis *)

(** What the analysis of a non-empty list returns once every date has
    been read. *)
Lemma analyze_nonempty r rs ds :
  mapM (fun x => strptime (date x)) (r :: rs) = Returned ds ->
  exists p,
    analyze_strava_fitness (Runs (r :: rs)) = Returned (Profile p)
    /\ fitness_level p =
         _determine_fitness_level (raw_weekly_mileage (r :: rs))
           (distance (max_by_distance r rs)) (raw_average_pace (r :: rs))
    /\ consistency_score p =
         _calculate_consistency_score
           (average_gap (gaps_of (sort Datetime.le ds))).
Proof.
  intros Hds. unfold analyze_strava_fitness. rewrite Hds. cbn [bind].
  eexists. split; [reflexivity|]. split; reflexivity.
Qed.

Lemma analyze_raises r rs e :
  mapM (fun x => strptime (date x)) (r :: rs) = Raised e ->
  analyze_strava_fitness (Runs (r :: rs)) = Raised e.
Proof.
  intros Hds. unfold analyze_strava_fitness. rewrite Hds. reflexivity.
Qed.




(** C1, as the code has it: the analysis of an empty run sequence
    returns the dictionary whose only key is ['error'], with the message
    "No valid running data available"; nothing is raised and no profile
    is produced. *)
Theorem analyze_empty_returns_error_dict :
  analyze_strava_fitness (Runs []) = Returned no_data
  /\ (forall p, analyze_strava_fitness (Runs []) <> Returned (Profile p))
  /\ (forall e, analyze_strava_fitness (Runs []) <> Raised e).
Proof.
  repeat split; intros; discriminate.
Qed.

(** C1, as the claim states it, fails: on the empty run sequence the
    analysis does not raise [InsufficientDataError]. *)
Lemma analyze_empty_does_not_raise :
  analyze_strava_fitness (Runs []) <> Raised "InsufficientDataError".
Proof. discriminate. Qed.

(** C7: with the longest run and the average pace fixed, a larger
    weekly mileage never gives a lower tier, in the order Beginner <
    Beginner+ < Intermediate < Intermediate+ < Advanced. *)
Theorem fitness_level_monotone_in_mileage (m1 m2 l p : Q) :
  m1 <= m2 ->
  exists t1 t2,
    tier_of_label (_determine_fitness_level m1 l p) = Some t1
    /\ tier_of_label (_determine_fitness_level m2 l p) = Some t2
    /\ (tier_rank t1 <= tier_rank t2)%nat.
Proof.
  intros H. rewrite !determine_fitness_level_two_stage.
  exists (two_stage_tier m1 l p), (two_stage_tier m2 l p).
  rewrite !tier_of_label_label. repeat split.
  unfold two_stage_tier. apply adjust_monotone.
  now apply base_tier_monotone.
Qed.

(** ** Rounding *)

Lemma round_half_even_near y :
  y - (1 # 2) <= inject_Z (round_half_even y)
  /\ inject_Z (round_half_even y) <= y + (1 # 2).
Proof.
  unfold round_half_even.
  pose proof (Qfloor_le y) as Hlo. pose proof (Qlt_floor y) as Hhi.
  rewrite inject_Z_plus in Hhi. change (inject_Z 1) with 1 in Hhi.
  destruct (Qcompare_spec (y - inject_Z (Qfloor y)) (1 # 2)) as [E|E|E].
  - destruct (Z.even (Qfloor y)).
    + lra.
    + rewrite inject_Z_plus. change (inject_Z 1) with 1. lra.
  - lra.
  - rewrite inject_Z_plus. change (inject_Z 1) with 1. lra.
Qed.

Lemma round_half_even_monotone x y :
  x <= y -> (round_half_even x <= round_half_even y)%Z.
Proof.
  intros H. pose proof (Qfloor_resp_le x y H) as Hf.
  destruct (Z.eq_dec (Qfloor x) (Qfloor y)) as [E|NE].
  - unfold round_half_even. rewrite E.
    destruct (Qcompare_spec (x - inject_Z (Qfloor y)) (1 # 2)),
      (Qcompare_spec (y - inject_Z (Qfloor y)) (1 # 2));
      try destruct (Z.even (Qfloor y)); try lia; lra.
  - assert (Hlt : (Qfloor x + 1 <= Qfloor y)%Z) by lia.
    assert (Hx : (round_half_even x <= Qfloor x + 1)%Z).
    { unfold round_half_even.
      destruct (Qcompare (x - inject_Z (Qfloor x)) (1 # 2));
        try destruct (Z.even (Qfloor x)); lia. }
    assert (Hy : (Qfloor y <= round_half_even y)%Z).
    { unfold round_half_even.
      destruct (Qcompare (y - inject_Z (Qfloor y)) (1 # 2));
        try destruct (Z.even (Qfloor y)); lia. }
    lia.
Qed.

(** Rounding to one decimal, as a product. *)
Lemma round1_unfold x :
  round x 1 = inject_Z (round_half_even (x * 10)) * (1 # 10).
Proof. reflexivity. Qed.

Lemma round1_near x :
  x - (1 # 20) <= round x 1 /\ round x 1 <= x + (1 # 20).
Proof.
  rewrite round1_unfold.
  destruct (round_half_even_near (x * 10)) as [Hlo Hhi]. lra.
Qed.

Lemma round1_monotone x y : x <= y -> round x 1 <= round y 1.
Proof.
  intros H. rewrite !round1_unfold.
  assert (Hz : (round_half_even (x * 10) <= round_half_even (y * 10))%Z)
    by (apply round_half_even_monotone; lra).
  rewrite Zle_Qle in Hz. lra.
Qed.

Lemma round1_nonneg x : 0 <= x -> 0 <= round x 1.
Proof.
  intros H. apply Qle_trans with (round 0 1).
  - vm_compute. discriminate.
  - now apply round1_monotone.
Qed.

(** Two numbers more than a tenth apart round to different values. *)
Lemma round1_separates x y : x + (1 # 10) < y -> round x 1 < round y 1.
Proof.
  intros H. destruct (round1_near x), (round1_near y). lra.
Qed.

Lemma round2_unfold x :
  round x 2 = inject_Z (round_half_even (x * 100)) * (1 # 100).
Proof. reflexivity. Qed.

Lemma round2_near x :
  x - (1 # 200) <= round x 2 /\ round x 2 <= x + (1 # 200).
Proof.
  rewrite round2_unfold.
  destruct (round_half_even_near (x * 100)) as [Hlo Hhi]. lra.
Qed.

(** ** Pace targets and the goal time *)

Lemma pace_targets_without_goal fd goal :
  given goal = None ->
  exists pt,
    _calculate_pace_targets fd goal = Returned pt
    /\ goal_marathon_pace pt =
         Fin (round ((match fd_average_pace fd with
                      | Some p => p
                      | None => 9.0
                      end) * 0.95) 2).
Proof.
  intros H. unfold _calculate_pace_targets. rewrite H. cbn [bind].
  eexists. split; reflexivity.
Qed.

Lemma pace_targets_with_fields fd goal s h m sec :
  given goal = Some s ->
  goal_time_fields s = Some (h, m, sec) ->
  exists pt,
    _calculate_pace_targets fd goal = Returned pt
    /\ goal_marathon_pace pt =
         fround (fdiv (fscale (fadd (fadd h (fdiv m 60)) (fdiv sec 3600)) 60)
                   26.2) 2.
Proof.
  intros H Hf. unfold _calculate_pace_targets. rewrite H.
  unfold goal_time_fields in Hf.
  destruct (split s ":") as [|a [|b [|c rest]]]; try discriminate.
  cbn [index nth_error bind]. unfold float.
  destruct (parse_float a), (parse_float b), (parse_float c);
    try discriminate.
  injection Hf as -> -> ->. cbn [bind].
  eexists. split; reflexivity.
Qed.

Lemma pace_targets_malformed fd goal s :
  given goal = Some s ->
  goal_time_fields s = None ->
  _calculate_pace_targets fd goal = Raised "ValueError"
  \/ _calculate_pace_targets fd goal = Raised "IndexError".
Proof.
  intros H Hf. unfold _calculate_pace_targets. rewrite H.
  unfold goal_time_fields in Hf.
  destruct (split s ":") as [|a [|b [|c rest]]];
    cbn [index nth_error bind]; unfold float; auto;
    destruct (parse_float a); cbn [bind]; auto;
    destruct (parse_float b); cbn [bind]; auto;
    destruct (parse_float c); cbn [bind]; auto; discriminate.
Qed.

Lemma goal_time_ok_pace_targets fd goal :
  goal_time_ok goal = true ->
  exists pt, _calculate_pace_targets fd goal = Returned pt.
Proof.
  unfold goal_time_ok. intros H.
  destruct (given goal) as [s|] eqn:G.
  - destruct (goal_time_fields s) as [[[h m] sec]|] eqn:F; [|discriminate].
    destruct (pace_targets_with_fields fd goal s h m sec G F) as (pt & Hp & _).
    now exists pt.
  - destruct (pace_targets_without_goal fd goal G) as (pt & Hp & _).
    now exists pt.
Qed.

Lemma goal_time_bad_pace_targets fd goal :
  goal_time_ok goal = false ->
  _calculate_pace_targets fd goal = Raised "ValueError"
  \/ _calculate_pace_targets fd goal = Raised "IndexError".
Proof.
  unfold goal_time_ok. intros H.
  destruct (given goal) as [s|] eqn:G; [|discriminate].
  destruct (goal_time_fields s) eqn:F; [discriminate|].
  now apply pace_targets_malformed with s.
Qed.

(** ** The plan *)

Lemma generate_of_pace_targets weeks fd goal pt :
  _calculate_pace_targets fd goal = Returned pt ->
  exists plan,
    generate_training_plan weeks fd goal = Returned plan
    /\ plan_pace_targets plan = pt.
Proof.
  intros H. unfold generate_training_plan. rewrite H. cbn [bind].
  eexists. split; reflexivity.
Qed.

Lemma generate_raises weeks fd goal e :
  _calculate_pace_targets fd goal = Raised e ->
  generate_training_plan weeks fd goal = Raised e.
Proof.
  intros H. unfold generate_training_plan. now rewrite H.
Qed.

(** The parts of a returned plan. *)
Lemma generate_fields weeks fd goal plan :
  generate_training_plan weeks fd goal = Returned plan ->
  current_weekly_mileage plan =
    match fd_weekly_mileage fd with Some m => m | None => 20 end
  /\ plan_fitness_level plan =
       match fd_fitness_level fd with Some l => l | None => "Beginner" end
  /\ weekly_schedule plan =
       _generate_weekly_schedule weeks (current_weekly_mileage plan)
         (max_safe_mileage weeks (current_weekly_mileage plan)
            (plan_fitness_level plan))
         (plan_fitness_level plan)
  /\ key_workouts plan =
       _generate_key_workouts weeks (plan_fitness_level plan)
         match fd_longest_run fd with Some (Some d) => d | _ => 8 end
  /\ plan_weekly_structure plan =
       _create_weekly_structure (plan_fitness_level plan)
  /\ training_phases plan =
       _create_training_phases weeks (current_weekly_mileage plan)
         (max_safe_mileage weeks (current_weekly_mileage plan)
            (plan_fitness_level plan))
  /\ _calculate_pace_targets fd goal = Returned (plan_pace_targets plan).
Proof.
  unfold generate_training_plan.
  destruct (_calculate_pace_targets fd goal) as [pt|e]; cbn [bind];
    [|discriminate].
  intros H. injection H as <-.
  cbn [current_weekly_mileage plan_fitness_level weekly_schedule
         key_workouts plan_weekly_structure training_phases
         plan_pace_targets].
  repeat split.
Qed.

Lemma schedule_weeks weeks base peak level :
  map week (_generate_weekly_schedule weeks base peak level) =
  map Z.of_nat (seq 1 (Z.to_nat weeks)).
Proof.
  unfold _generate_weekly_schedule, range_from.
  rewrite !map_map. cbn [week].
  replace (weeks + 1 - 1)%Z with weeks by lia.
  rewrite <- seq_shift, map_map.
  apply map_ext. intros i. lia.
Qed.

Lemma schedule_length weeks base peak level :
  List.length (_generate_weekly_schedule weeks base peak level) =
  Z.to_nat weeks.
Proof.
  rewrite <- (length_map week), schedule_weeks, length_map.
  apply length_seq.
Qed.

(** C3: for a positive number of weeks, in or out of 4, 8, 12, 16,
    whatever the profile, a plan is returned exactly when the goal time
    can be read, and its weekly schedule has as many entries as there are
    weeks, numbered 1 to [weeks] in order. *)
Theorem weekly_schedule_has_weeks_entries
        (weeks : Z) (fd : fitness_data) (goal : option string) :
  (0 < weeks)%Z ->
  match generate_training_plan weeks fd goal with
  | Returned plan =>
      goal_time_ok goal = true
      /\ Z.of_nat (List.length (weekly_schedule plan)) = weeks
      /\ map week (weekly_schedule plan) =
           map Z.of_nat (seq 1 (Z.to_nat weeks))
  | Raised _ => goal_time_ok goal = false
  end.
Proof.
  intros Hw.
  destruct (goal_time_ok goal) eqn:G.
  - destruct (goal_time_ok_pace_targets fd goal G) as (pt & Hpt).
    destruct (generate_of_pace_targets weeks fd goal pt Hpt)
      as (plan & Hplan & _).
    rewrite Hplan.
    destruct (generate_fields weeks fd goal plan Hplan)
      as (_ & _ & -> & _).
    rewrite schedule_length, schedule_weeks. repeat split. lia.
  - destruct (goal_time_bad_pace_targets fd goal G) as [H|H];
      rewrite (generate_raises weeks fd goal _ H); reflexivity.
Qed.

Lemma weekly_schedule_has_weeks_entries_witness :
  (0 < 16)%Z
  /\ match generate_training_plan 16 sample_data (Some "3:45:00") with
     | Returned plan =>
         goal_time_ok (Some "3:45:00") = true
         /\ Z.of_nat (List.length (weekly_schedule plan)) = 16%Z
         /\ map week (weekly_schedule plan) =
              map Z.of_nat (seq 1 (Z.to_nat 16))
     | Raised _ => goal_time_ok (Some "3:45:00") = false
     end.
Proof.
  split; [reflexivity|].
  apply (weekly_schedule_has_weeks_entries 16 sample_data (Some "3:45:00")).
  reflexivity.
Defined.

(** The outcome of the pace targets by the first three fields of a goal
    time. *)
Lemma pace_targets_by_fields fd goal s :
  given goal = Some s ->
  (existsb (fun f => negb (float_literal f)) (indexed_fields s) = true ->
   _calculate_pace_targets fd goal = Raised "ValueError")
  /\ (forallb float_literal (indexed_fields s) = true ->
      (List.length (indexed_fields s) < 3)%nat ->
      _calculate_pace_targets fd goal = Raised "IndexError")
  /\ (forallb float_literal (indexed_fields s) = true ->
      List.length (indexed_fields s) = 3%nat ->
      exists pt, _calculate_pace_targets fd goal = Returned pt).
Proof.
  intros G. unfold _calculate_pace_targets, indexed_fields, float_literal.
  rewrite G.
  destruct (split s ":") as [|a [|b [|c rest]]];
    cbn [firstn existsb forallb List.length index nth_error bind];
    unfold float.
  - repeat split; intros; try discriminate; try reflexivity; lia.
  - destruct (parse_float a); cbn [bind negb orb andb];
      repeat split; intros; try discriminate; try reflexivity; lia.
  - destruct (parse_float a), (parse_float b); cbn [bind negb orb andb];
      repeat split; intros; try discriminate; try reflexivity; lia.
  - destruct (parse_float a), (parse_float b), (parse_float c);
      cbn [bind negb orb andb];
      repeat split; intros; try discriminate; try reflexivity; try lia.
    eexists. reflexivity.
Qed.

(** C5, as the code has it: a goal time that is given and not empty is
    cut at the colons and its first three fields go through [float()] in
    order, so that, for a goal time within ASCII, the plan fails with
    [ValueError] when one of the first three fields, as many as there
    are, is no float literal, with [IndexError] when they all are and
    there are fewer than three, and is returned when all three are;
    without a goal time (none, or the empty string) a plan is returned
    and its goal pace is a number less than 0.01 away from the current
    average pace, 9.0 when the profile has none, times 0.95. *)
Theorem goal_time_unreadable_or_absent
        (weeks : Z) (fd : fitness_data) (goal : option string) :
  (forall s,
     given goal = Some s ->
     ascii_text s = true ->
     (existsb (fun f => negb (float_literal f)) (indexed_fields s) = true ->
      generate_training_plan weeks fd goal = Raised "ValueError")
     /\ (forallb float_literal (indexed_fields s) = true ->
         (List.length (indexed_fields s) < 3)%nat ->
         generate_training_plan weeks fd goal = Raised "IndexError")
     /\ (forallb float_literal (indexed_fields s) = true ->
         List.length (indexed_fields s) = 3%nat ->
         exists plan, generate_training_plan weeks fd goal = Returned plan))
  /\ (given goal = None ->
      exists plan g,
        generate_training_plan weeks fd goal = Returned plan
        /\ goal_marathon_pace (plan_pace_targets plan) = Fin g
        /\ (match fd_average_pace fd with Some p => p | None => 9.0 end)
           * 0.95 - (1 # 100) < g
        /\ g < (match fd_average_pace fd with Some p => p | None => 9.0 end)
               * 0.95 + (1 # 100)).
Proof.
  split.
  - intros s G _.
    destruct (pace_targets_by_fields fd goal s G) as (Hv & Hi & Hr).
    repeat split.
    + intros H. apply generate_raises. now apply Hv.
    + intros H L. apply generate_raises. now apply Hi.
    + intros H L. destruct (Hr H L) as (pt & Hpt).
      destruct (generate_of_pace_targets weeks fd goal pt Hpt)
        as (plan & Hplan & _).
      now exists plan.
  - intros G.
    destruct (pace_targets_without_goal fd goal G) as (pt & Hpt & Hg).
    destruct (generate_of_pace_targets weeks fd goal pt Hpt)
      as (plan & Hplan & Hp).
    exists plan. eexists. split; [exact Hplan|].
    split; [rewrite Hp; exact Hg|].
    match goal with
    | |- _ < round ?x 2 /\ _ => destruct (round2_near x)
    end.
    split; lra.
Qed.

Lemma goal_time_unreadable_or_absent_witness :
  generate_training_plan 16 sample_data (Some "3:x") = Raised "ValueError"
  /\ generate_training_plan 16 sample_data (Some "3:45") = Raised "IndexError"
  /\ (exists plan,
        generate_training_plan 16 sample_data (Some "3:45:00")
        = Returned plan)
  /\ (exists plan g,
        generate_training_plan 16 sample_data None = Returned plan
        /\ goal_marathon_pace (plan_pace_targets plan) = Fin g
        /\ 9.0 * 0.95 - (1 # 100) < g
        /\ g < 9.0 * 0.95 + (1 # 100)).
Proof.
  split; [|split; [|split]].
  - apply (proj1 (goal_time_unreadable_or_absent 16 sample_data (Some "3:x"))
             "3:x" eq_refl eq_refl).
    reflexivity.
  - apply (proj1 (goal_time_unreadable_or_absent 16 sample_data (Some "3:45"))
             "3:45" eq_refl eq_refl).
    + reflexivity.
    + cbn. lia.
  - apply (proj1 (goal_time_unreadable_or_absent 16 sample_data
                    (Some "3:45:00"))
             "3:45:00" eq_refl eq_refl); reflexivity.
  - apply (proj2 (goal_time_unreadable_or_absent 16 sample_data None)).
    reflexivity.
Defined.

(** C5, as the claim states it, fails: "abc" is no hours:minutes:seconds
    triple, and the plan fails with [ValueError], not with
    [MalformedGoalTimeError]. *)
Lemma malformed_goal_time_is_value_error :
  goal_time_fields "abc" = None
  /\ generate_training_plan 16 sample_data (Some "abc") = Raised "ValueError"
  /\ generate_training_plan 16 sample_data (Some "abc")
     <> Raised "MalformedGoalTimeError".
Proof.
  split; [reflexivity|]. split; [reflexivity|].
  vm_compute. discriminate.
Qed.

(** The empty string is taken as no goal. *)
Lemma empty_goal_time_takes_default :
  given (Some "") = None
  /\ exists plan,
       generate_training_plan 16 sample_data (Some "") = Returned plan.
Proof.
  split; [reflexivity|].
  destruct (pace_targets_without_goal sample_data (Some "") eq_refl)
    as (pt & Hpt & _).
  destruct (generate_of_pace_targets 16 sample_data (Some "") pt Hpt)
    as (plan & Hplan & _).
  now exists plan.
Qed.

(** ** Lookups by fitness level *)

Lemma speed_workouts_of_other level :
  level <> "Beginner" -> level <> "Beginner+" -> level <> "Intermediate" ->
  speed_workouts_of level = advanced_speed.
Proof.
  intros H1 H2 H3. unfold speed_workouts_of. cbn [existsb].
  apply String.eqb_neq in H1, H2, H3. now rewrite H1, H2, H3.
Qed.

Lemma weekly_structure_of_unknown level :
  tier_of_label level = None ->
  _create_weekly_structure level = _create_weekly_structure "Beginner".
Proof.
  unfold tier_of_label, all_tiers. cbn [find tier_label].
  unfold _create_weekly_structure, structures. cbn [dict_get].
  destruct (String.eqb level "Beginner"); [discriminate|].
  destruct (String.eqb level "Beginner+"); [discriminate|].
  destruct (String.eqb level "Intermediate"); [discriminate|].
  destruct (String.eqb level "Intermediate+"); [discriminate|].
  destruct (String.eqb level "Advanced"); [discriminate|].
  reflexivity.
Qed.

(** C9: in a returned plan, a fitness level other than Beginner,
    Beginner+ and Intermediate, a label that names no tier included,
    gets the Advanced list of speed work, which is not the Beginner list;
    for a label that names no tier the weekly structure is nevertheless
    the Beginner template. *)
Theorem other_levels_get_advanced_speed_work
        (weeks : Z) (fd : fitness_data) (goal : option string)
        (plan : training_plan) (level : string) :
  generate_training_plan weeks fd goal = Returned plan ->
  fd_fitness_level fd = Some level ->
  level <> "Beginner" -> level <> "Beginner+" -> level <> "Intermediate" ->
  speed_examples plan = advanced_speed
  /\ speed_examples plan <> speed_workouts_of "Beginner"
  /\ (tier_of_label level = None ->
      plan_weekly_structure plan = _create_weekly_structure "Beginner"
      /\ runs_per_week (plan_weekly_structure plan) = 4%Z).
Proof.
  intros Hplan Hl H1 H2 H3.
  destruct (generate_fields weeks fd goal plan Hplan)
    as (_ & Hlevel & _ & Hk & Hs & _).
  rewrite Hl in Hlevel.
  assert (Hsp : speed_examples plan = advanced_speed).
  { unfold speed_examples. rewrite Hk, Hlevel.
    unfold _generate_key_workouts. cbn [app].
    now apply speed_workouts_of_other. }
  split; [exact Hsp|]. split.
  - rewrite Hsp. discriminate.
  - intros Hu. rewrite Hs, Hlevel.
    rewrite (weekly_structure_of_unknown level Hu). split; reflexivity.
Qed.

Lemma other_levels_get_advanced_speed_work_witness :
  exists plan,
    generate_training_plan 12 elite_data None = Returned plan
    /\ speed_examples plan = advanced_speed
    /\ speed_examples plan <> speed_workouts_of "Beginner"
    /\ (tier_of_label "Elite" = None ->
        plan_weekly_structure plan = _create_weekly_structure "Beginner"
        /\ runs_per_week (plan_weekly_structure plan) = 4%Z).
Proof.
  eexists. split; [reflexivity|].
  eapply (other_levels_get_advanced_speed_work 12 elite_data None _ "Elite");
    [reflexivity | reflexivity | discriminate | discriminate | discriminate].
Defined.

(** ** Profiles with missing fields *)

(** Whether the pace targets fail, and how, is settled by the goal time. *)
Lemma pace_targets_failure_of_goal fd fd' goal :
  same_failure (_calculate_pace_targets fd goal)
    (_calculate_pace_targets fd' goal).
Proof.
  unfold _calculate_pace_targets.
  destruct (given goal) as [s|]; [|exact I].
  destruct (split s ":") as [|a [|b [|c rest]]];
    cbn [index nth_error bind]; unfold float; try reflexivity;
    destruct (parse_float a); cbn [bind]; try reflexivity;
    destruct (parse_float b); cbn [bind]; try reflexivity;
    destruct (parse_float c); cbn [bind]; try reflexivity; exact I.
Qed.

Lemma generate_failure_of_goal weeks fd fd' goal :
  same_failure (generate_training_plan weeks fd goal)
    (generate_training_plan weeks fd' goal).
Proof.
  pose proof (pace_targets_failure_of_goal fd fd' goal) as H.
  unfold generate_training_plan.
  destruct (_calculate_pace_targets fd goal),
    (_calculate_pace_targets fd' goal); exact H.
Qed.

Lemma generate_filled_in weeks fd goal :
  generate_training_plan weeks (filled_in fd) goal =
  generate_training_plan weeks fd goal.
Proof.
  destruct fd as [m l lr ap].
  destruct m, l, lr as [[d|]|]; reflexivity.
Qed.

Lemma create_weekly_structure_slots level :
  List.length (structure (_create_weekly_structure level)) = 7%nat.
Proof.
  unfold _create_weekly_structure, structures. cbn [dict_get].
  destruct (String.eqb level "Beginner"); [reflexivity|].
  destruct (String.eqb level "Beginner+"); [reflexivity|].
  destruct (String.eqb level "Intermediate"); [reflexivity|].
  destruct (String.eqb level "Intermediate+"); [reflexivity|].
  destruct (String.eqb level "Advanced"); reflexivity.
Qed.

Lemma create_training_phases_count weeks base peak :
  (2 <= List.length (_create_training_phases weeks base peak) <= 4)%nat.
Proof.
  unfold _create_training_phases.
  destruct (weeks =? 16)%Z; [cbn; lia|].
  destruct (weeks =? 12)%Z; [cbn; lia|].
  destruct (weeks =? 8)%Z; cbn; lia.
Qed.

Lemma speed_workouts_count level :
  (4 <= List.length (speed_workouts_of level))%nat.
Proof.
  unfold speed_workouts_of.
  destruct (existsb (String.eqb level) ["Beginner"]); [cbn; lia|].
  destruct (existsb (String.eqb level) ["Beginner+"; "Intermediate"]);
    cbn; lia.
Qed.

Lemma long_runs_count weeks longest :
  (2 <= List.length (long_runs_of weeks longest))%nat.
Proof.
  unfold long_runs_of.
  destruct (12 <=? weeks)%Z; rewrite length_app; cbn [List.length]; lia.
Qed.

Lemma long_run_slice_nonempty weeks longest :
  (1 <= weeks)%Z ->
  (1 <= List.length (slice_to (long_runs_of weeks longest) weeks))%nat.
Proof.
  intros H. unfold slice_to.
  destruct (Z.ltb_spec weeks 0); [lia|].
  pose proof (long_runs_count weeks longest).
  rewrite length_firstn. lia.
Qed.

Lemma generate_complete weeks fd goal plan :
  generate_training_plan weeks fd goal = Returned plan ->
  complete weeks plan.
Proof.
  intros Hplan.
  destruct (generate_fields weeks fd goal plan Hplan)
    as (_ & _ & Hs & Hk & Hw & Hp & _).
  assert (Ht : timeline_weeks plan = weeks).
  { unfold generate_training_plan in Hplan.
    destruct (_calculate_pace_targets fd goal); cbn [bind] in Hplan;
      [|discriminate].
    injection Hplan as <-. reflexivity. }
  unfold complete, speed_examples, long_run_progression.
  rewrite Hs, Hk, Hw, Hp. unfold _generate_key_workouts. cbn [app].
  split; [exact Ht|].
  split; [apply schedule_length|].
  split; [apply create_training_phases_count|].
  split; [apply create_weekly_structure_slots|].
  split; [reflexivity|].
  split; [apply speed_workouts_count|].
  apply long_run_slice_nonempty.
Qed.

(** C10, as the code has it: whether the plan fails, and with which
    exception, does not depend on the profile, so that a profile that
    lacks the weekly mileage, the fitness level or the distance of the
    longest run fails exactly where a full one does, on a goal time that
    cannot be read, and never without a goal time; when a plan is
    returned it is the plan of the profile with 20, "Beginner" and 8
    written in for what is missing, these are the values it echoes and
    builds its long runs from, and it has all its parts. *)
Theorem missing_fields_take_defaults
        (weeks : Z) (fd : fitness_data) (goal : option string) :
  (forall fd',
     same_failure (generate_training_plan weeks fd goal)
       (generate_training_plan weeks fd' goal))
  /\ (given goal = None ->
      exists plan, generate_training_plan weeks fd goal = Returned plan)
  /\ (forall plan,
        generate_training_plan weeks fd goal = Returned plan ->
        generate_training_plan weeks (filled_in fd) goal = Returned plan
        /\ (fd_weekly_mileage fd = None -> current_weekly_mileage plan = 20)
        /\ (fd_fitness_level fd = None ->
            plan_fitness_level plan = "Beginner")
        /\ (fd_longest_run fd = None \/ fd_longest_run fd = Some None ->
            key_workouts plan =
              _generate_key_workouts weeks (plan_fitness_level plan) 8)
        /\ complete weeks plan).
Proof.
  split; [|split].
  - intros fd'. apply generate_failure_of_goal.
  - intros G.
    destruct (pace_targets_without_goal fd goal G) as (pt & Hpt & _).
    destruct (generate_of_pace_targets weeks fd goal pt Hpt)
      as (plan & Hplan & _).
    now exists plan.
  - intros plan Hplan.
    destruct (generate_fields weeks fd goal plan Hplan)
      as (Hm & Hl & _ & Hk & _).
    split; [now rewrite generate_filled_in|].
    split; [intros E; now rewrite Hm, E|].
    split; [intros E; now rewrite Hl, E|].
    split; [intros [E|E]; now rewrite Hk, E|].
    now apply generate_complete with fd goal.
Qed.

Lemma missing_fields_take_defaults_witness :
  exists plan,
    generate_training_plan 12 empty_data None = Returned plan
    /\ generate_training_plan 12 (filled_in empty_data) None = Returned plan
    /\ current_weekly_mileage plan = 20
    /\ plan_fitness_level plan = "Beginner"
    /\ key_workouts plan = _generate_key_workouts 12 "Beginner" 8
    /\ complete 12 plan.
Proof.
  destruct (missing_fields_take_defaults 12 empty_data None)
    as (_ & Hret & Hparts).
  destruct (Hret eq_refl) as (plan & Hplan).
  destruct (Hparts plan Hplan) as (Hf & Hm & Hl & Hk & Hc).
  exists plan. split; [exact Hplan|].
  split; [exact Hf|].
  split; [exact (Hm eq_refl)|].
  split; [exact (Hl eq_refl)|].
  split; [|exact Hc].
  rewrite <- (Hl eq_refl). exact (Hk (or_introl eq_refl)).
Defined.

(** C10, as the claim states it, fails: the profile that lacks every
    field does not get a plan when the goal time cannot be read; the
    plan fails with [ValueError], as it does for a full profile. *)
Lemma missing_fields_fail_on_unreadable_goal_time :
  fd_weekly_mileage empty_data = None
  /\ fd_fitness_level empty_data = None
  /\ fd_longest_run empty_data = None
  /\ generate_training_plan 12 empty_data (Some "abc") = Raised "ValueError"
  /\ generate_training_plan 12 sample_data (Some "abc") = Raised "ValueError".
Proof. repeat split. Qed.

(** ** The long runs of a long timeline *)

Lemma even_week i : (Z.of_nat i mod 2 =? 0)%Z = Nat.even i.
Proof.
  rewrite <- Zeven_mod.
  enough (H : Z.even (Z.of_nat i) = Nat.even i
              /\ Z.even (Z.of_nat (S i)) = Nat.even (S i)) by apply H.
  induction i as [|i [IH1 IH2]]; [split; reflexivity|].
  split; [exact IH2|].
  rewrite !Nat2Z.inj_succ, Z.even_succ_succ. exact IH1.
Qed.

Lemma range_of_nat n : range (Z.of_nat n) = map Z.of_nat (seq 0 n).
Proof. unfold range. now rewrite Nat2Z.id. Qed.

(** The loop leaves the level of the last week in [current] and has
    appended the capped level of every week. *)
Lemma long_run_loop start n :
  fold_left long_run_step (range (Z.of_nat n)) (start, []) =
  (match n with O => start | S k => long_run_level start k end,
   map (fun i => min (long_run_level start i) 22) (seq 0 n)).
Proof.
  rewrite range_of_nat.
  induction n as [|n IH]; [reflexivity|].
  rewrite seq_S, !map_app, fold_left_app, IH. cbn [map fold_left Nat.add].
  unfold long_run_step. rewrite even_week.
  destruct n as [|k]; reflexivity.
Qed.

Lemma long_runs_of_long_timeline weeks longest :
  (12 <= weeks)%Z ->
  long_runs_of weeks longest = long_timeline_progression weeks longest.
Proof.
  intros H. unfold long_runs_of, long_timeline_progression.
  destruct (Z.leb_spec 12 weeks) as [_|]; [|lia].
  rewrite <- (Z2Nat.id (weeks - 4)) at 1 by lia.
  now rewrite long_run_loop.
Qed.

Lemma long_timeline_progression_length weeks longest :
  (12 <= weeks)%Z ->
  List.length (long_timeline_progression weeks longest) = Z.to_nat weeks.
Proof.
  intros H. unfold long_timeline_progression.
  rewrite length_app, length_map, length_seq. cbn [List.length]. lia.
Qed.

Lemma slice_to_all {A} (l : list A) n :
  List.length l = Z.to_nat n -> (0 <= n)%Z -> slice_to l n = l.
Proof.
  intros Hl Hn. unfold slice_to.
  destruct (Z.ltb_spec n 0); [lia|].
  rewrite <- Hl. apply firstn_all.
Qed.

(** What the loop computes: for 12 weeks or more the long runs are, week
    by week from week 0, the level of the week capped at 22, for
    [weeks - 4] weeks, followed by 18, 12, 8, 6, which makes [weeks]
    entries, none cut off; the level is raised on every even week while
    it is under 20, week 0 included. *)
Lemma long_timeline_long_runs
      (weeks : Z) (fd : fitness_data) (goal : option string)
      (plan : training_plan) :
  generate_training_plan weeks fd goal = Returned plan ->
  (12 <= weeks)%Z ->
  let longest :=
    match fd_longest_run fd with Some (Some d) => d | _ => 8 end in
  let start := max longest 8 in
  long_run_progression plan = long_timeline_progression weeks longest
  /\ Z.of_nat (List.length (long_run_progression plan)) = weeks
  /\ hd_error (long_run_progression plan) =
       Some (min (if ltb start 20 then start + 2 else start) 22).
Proof.
  intros Hplan Hw longest start.
  destruct (generate_fields weeks fd goal plan Hplan)
    as (_ & _ & _ & Hk & _).
  assert (Hp : long_run_progression plan =
               long_timeline_progression weeks longest).
  { unfold long_run_progression. rewrite Hk.
    unfold _generate_key_workouts. cbn [app].
    rewrite long_runs_of_long_timeline by exact Hw.
    apply slice_to_all; [|lia].
    now apply long_timeline_progression_length. }
  rewrite Hp. split; [reflexivity|]. split.
  - rewrite long_timeline_progression_length by exact Hw. lia.
  - unfold long_timeline_progression.
    destruct (Z.to_nat (weeks - 4)) as [|n] eqn:E; [lia|].
    reflexivity.
Qed.

(** C6: the long branch does not start from the longest run. With a
    longest run of 14 the long runs of a 16-week plan are 16, 16, 18, 18,
    20 and so on: the loop raises the level before it appends the first
    entry, so that no entry is [max 14 8], the start that the claim, the
    comment above the loop and the name [start_long] announce, and from
    which the short branch does start: the long runs of an 8-week plan
    for the same profile are 14, 16, 18, 12, 8. *)
Theorem long_branch_raises_before_first_entry :
  exists plan short_plan,
    generate_training_plan 16 sample_data None = Returned plan
    /\ fd_longest_run sample_data = Some (Some 14)
    /\ long_run_progression plan =
         [16; 16; 18; 18; 20; 20; 20; 20; 20; 20; 20; 20; 18; 12; 8; 6]
    /\ Forall (fun x => ~ x == max 14 8) (long_run_progression plan)
    /\ generate_training_plan 8 sample_data None = Returned short_plan
    /\ long_run_progression short_plan = [14; 16; 18; 12; 8]
    /\ hd_error (long_run_progression short_plan) = Some (max 14 8).
Proof.
  destruct (pace_targets_without_goal sample_data None eq_refl)
    as (pt & Hpt & _).
  destruct (generate_of_pace_targets 16 sample_data None pt Hpt)
    as (plan & Hplan & _).
  destruct (generate_of_pace_targets 8 sample_data None pt Hpt)
    as (short_plan & Hshort & _).
  destruct (generate_fields 16 sample_data None plan Hplan)
    as (_ & _ & _ & Hk & _).
  destruct (generate_fields 8 sample_data None short_plan Hshort)
    as (_ & _ & _ & Hk' & _).
  assert (E : long_run_progression plan =
              [16; 16; 18; 18; 20; 20; 20; 20; 20; 20; 20; 20; 18; 12; 8; 6]).
  { unfold long_run_progression. rewrite Hk. vm_compute. reflexivity. }
  assert (E' : long_run_progression short_plan = [14; 16; 18; 12; 8]).
  { unfold long_run_progression. rewrite Hk'. vm_compute. reflexivity. }
  exists plan, short_plan.
  split; [exact Hplan|]. split; [reflexivity|]. split; [exact E|].
  split.
  - rewrite E.
    repeat (apply Forall_cons; [vm_compute; discriminate|]).
    apply Forall_nil.
  - split; [exact Hshort|]. split; [exact E'|].
    rewrite E'. vm_compute. reflexivity.
Qed.

(** ** The weekly schedule *)

Lemma in_range_from a b w : In w (range_from a b) <-> (a <= w < b)%Z.
Proof.
  unfold range_from. rewrite in_map_iff. split.
  - intros (i & <- & Hi). apply in_seq in Hi. lia.
  - intros H. exists (Z.to_nat (w - a)). split; [lia|].
    apply in_seq. lia.
Qed.

Lemma nth_map_range {B} (f : Z -> B) n i d :
  (i < n)%nat -> nth i (map f (range (Z.of_nat n))) d = f (Z.of_nat i).
Proof.
  intros H. rewrite range_of_nat, map_map.
  rewrite (nth_indep _ d (f (Z.of_nat 0))) by (now rewrite length_map, length_seq).
  rewrite (map_nth (fun j => f (Z.of_nat j))).
  now rewrite seq_nth.
Qed.

Lemma in_schedule weeks base peak level e :
  In e (_generate_weekly_schedule weeks base peak level) ->
  (1 <= week e <= weeks)%Z
  /\ total_miles e = miles_of_week weeks base peak (week e).
Proof.
  unfold _generate_weekly_schedule. rewrite in_map_iff.
  intros (w & <- & Hw). apply in_range_from in Hw.
  cbn [week total_miles]. split; [lia|reflexivity].
Qed.

Lemma schedule_has_week weeks base peak level w :
  (1 <= w <= weeks)%Z ->
  exists e,
    In e (_generate_weekly_schedule weeks base peak level)
    /\ total_miles e = miles_of_week weeks base peak w.
Proof.
  intros Hw. eexists. split.
  - unfold _generate_weekly_schedule. apply in_map_iff.
    exists w. split; [reflexivity|]. apply in_range_from. lia.
  - reflexivity.
Qed.

Lemma peak_miles_fold_ge l a :
  a <= fold_left (fun m e' => max m (total_miles e')) l a
  /\ forall e, In e l ->
       total_miles e <= fold_left (fun m e' => max m (total_miles e')) l a.
Proof.
  revert a. induction l as [|x l IH]; intros a; cbn [fold_left].
  - split; [lra|]. intros e [].
  - destruct (IH (max a (total_miles x))) as [H1 H2].
    pose proof (max_ge_l a (total_miles x)).
    pose proof (max_ge_r a (total_miles x)).
    split; [lra|].
    intros e [<-|Hin]; [lra|]. now apply H2.
Qed.

Lemma peak_miles_ge s e : In e s -> total_miles e <= peak_miles s.
Proof.
  destruct s as [|x s]; [intros []|]. unfold peak_miles.
  destruct (peak_miles_fold_ge s (total_miles x)) as [H1 H2].
  intros [<-|Hin]; [exact H1|]. now apply H2.
Qed.

Lemma peak_multipliers_pos weeks : 0 < peak_multipliers weeks.
Proof.
  unfold peak_multipliers.
  destruct (weeks =? 16)%Z, (weeks =? 12)%Z, (weeks =? 8)%Z, (weeks =? 4)%Z;
    reflexivity.
Qed.

Lemma max_safe_mileage_nonneg weeks m level :
  0 <= m -> 0 <= max_safe_mileage weeks m level.
Proof.
  intros H. pose proof (peak_multipliers_pos weeks) as Hm.
  assert (H0 : 0 <= m * peak_multipliers weeks)
    by (apply Qmult_le_0_compat; lra).
  unfold max_safe_mileage.
  destruct (String.eqb level "Beginner"); [|destruct (String.eqb level "Beginner+")];
    repeat apply min_glb; lra.
Qed.

(** A week of the build-up lies between the base and the peak. *)
Lemma build_week_nonneg base peak n k :
  0 <= base -> 0 <= peak -> (0 <= k < n)%Z ->
  0 <= base + (peak - base) / inject_Z n * inject_Z k.
Proof.
  intros Hb Hp Hk.
  assert (HN : 0 < inject_Z n) by (change 0 with (inject_Z 0); rewrite <- Zlt_Qlt; lia).
  assert (HK : 0 <= inject_Z k) by (change 0 with (inject_Z 0); rewrite <- Zle_Qle; lia).
  assert (HKN : inject_Z k <= inject_Z n) by (rewrite <- Zle_Qle; lia).
  set (N := inject_Z n) in *. set (K := inject_Z k) in *.
  assert (Hi : 0 < / N) by now apply Qinv_lt_0_compat.
  assert (HNi : N * / N == 1) by (apply Qmult_inv_r; lra).
  set (t := K * / N).
  assert (Ht0 : 0 <= t) by (apply Qmult_le_0_compat; lra).
  assert (Ht1 : t <= 1).
  { unfold t. rewrite <- HNi. apply Qmult_le_compat_r; lra. }
  assert (E : base + (peak - base) / N * K == base * (1 - t) + peak * t)
    by (unfold t, Qdiv; ring).
  rewrite E.
  assert (0 <= base * (1 - t)) by (apply Qmult_le_0_compat; lra).
  assert (0 <= peak * t) by (apply Qmult_le_0_compat; lra).
  lra.
Qed.

Lemma progression_nonneg weeks base peak :
  0 <= base -> 0 <= peak ->
  Forall (fun x => 0 <= x) (mileage_progression_of weeks base peak).
Proof.
  intros Hb Hp. unfold mileage_progression_of.
  destruct (Z.leb_spec 12 weeks).
  - apply Forall_app. split.
    + apply Forall_forall. intros x Hx. apply in_map_iff in Hx.
      destruct Hx as (k & <- & Hk).
      unfold range in Hk. apply in_map_iff in Hk.
      destruct Hk as (i & <- & Hi). apply in_seq in Hi.
      apply round1_nonneg. apply build_week_nonneg; try assumption. lia.
    + repeat constructor; apply round1_nonneg; lra.
  - apply Forall_app. split.
    + apply Forall_forall. intros x Hx. apply in_map_iff in Hx.
      now destruct Hx as (k & <- & _).
    + repeat constructor; apply round1_nonneg; lra.
Qed.

Lemma miles_of_week_nonneg weeks base peak w :
  0 <= base -> 0 <= peak -> 0 <= miles_of_week weeks base peak w.
Proof.
  intros Hb Hp. unfold miles_of_week.
  destruct (w <=? _)%Z; [|exact Hb].
  pose proof (progression_nonneg weeks base peak Hb Hp) as H.
  rewrite Forall_forall in H.
  destruct (nth_in_or_default (Z.to_nat (w - 1))
              (mileage_progression_of weeks base peak) base) as [Hin| ->].
  - now apply H.
  - exact Hb.
Qed.

Lemma length_range n : List.length (range n) = Z.to_nat n.
Proof. unfold range. now rewrite length_map, length_seq. Qed.

Lemma progression_length weeks base peak :
  (2 <= weeks)%Z ->
  List.length (mileage_progression_of weeks base peak) = Z.to_nat weeks.
Proof.
  intros H. unfold mileage_progression_of.
  destruct (Z.leb_spec 12 weeks);
    rewrite length_app, length_map, length_range; cbn [List.length]; lia.
Qed.

Lemma miles_of_build_week weeks base peak w :
  (12 <= weeks)%Z -> (1 <= w <= weeks - 4)%Z ->
  miles_of_week weeks base peak w =
  round (base + (peak - base) / inject_Z (weeks - 4) * inject_Z (w - 1)) 1.
Proof.
  intros Hw Hk. unfold miles_of_week.
  rewrite progression_length by lia.
  destruct (Z.leb_spec w (Z.of_nat (Z.to_nat weeks))); [|lia].
  unfold mileage_progression_of.
  destruct (Z.leb_spec 12 weeks); [|lia].
  rewrite app_nth1 by (rewrite length_map, length_range; lia).
  assert (R : range (weeks - 4) = range (Z.of_nat (Z.to_nat (weeks - 4))))
    by (now rewrite Z2Nat.id by lia).
  rewrite R, nth_map_range by lia.
  now rewrite Z2Nat.id by lia.
Qed.

Lemma miles_of_taper_week_long weeks base peak w :
  (12 <= weeks)%Z -> (weeks - 4 < w <= weeks)%Z -> 0 <= peak ->
  miles_of_week weeks base peak w <= round (peak * 0.8) 1.
Proof.
  intros Hw Hk Hp. unfold miles_of_week.
  rewrite progression_length by lia.
  destruct (Z.leb_spec w (Z.of_nat (Z.to_nat weeks))); [|lia].
  unfold mileage_progression_of.
  destruct (Z.leb_spec 12 weeks); [|lia].
  rewrite app_nth2 by (rewrite length_map, length_range; lia).
  rewrite length_map, length_range.
  destruct (Z.to_nat (w - 1) - Z.to_nat (weeks - 4))%nat
    as [|[|[|[|j]]]] eqn:E; cbn [nth]; try lia;
    apply round1_monotone; lra.
Qed.

Lemma miles_of_flat_week weeks base peak w :
  (2 <= weeks < 12)%Z -> (1 <= w <= weeks - 2)%Z ->
  miles_of_week weeks base peak w = base.
Proof.
  intros Hw Hk. unfold miles_of_week.
  rewrite progression_length by lia.
  destruct (Z.leb_spec w (Z.of_nat (Z.to_nat weeks))); [|lia].
  unfold mileage_progression_of.
  destruct (Z.leb_spec 12 weeks); [lia|].
  rewrite app_nth1 by (rewrite length_map, length_range; lia).
  assert (R : range (weeks - 2) = range (Z.of_nat (Z.to_nat (weeks - 2))))
    by (now rewrite Z2Nat.id by lia).
  now rewrite R, nth_map_range by lia.
Qed.

Lemma miles_of_taper_week_short weeks base peak w :
  (2 <= weeks < 12)%Z -> (weeks - 2 < w <= weeks)%Z -> 0 <= base ->
  miles_of_week weeks base peak w <= round (base * 0.7) 1.
Proof.
  intros Hw Hk Hb. unfold miles_of_week.
  rewrite progression_length by lia.
  destruct (Z.leb_spec w (Z.of_nat (Z.to_nat weeks))); [|lia].
  unfold mileage_progression_of.
  destruct (Z.leb_spec 12 weeks); [lia|].
  rewrite app_nth2 by (rewrite length_map, length_range; lia).
  rewrite length_map, length_range.
  destruct (Z.to_nat (w - 1) - Z.to_nat (weeks - 2))%nat
    as [|[|j]] eqn:E; cbn [nth]; try lia;
    apply round1_monotone; lra.
Qed.

(** On a long timeline some week of the build-up rounds above the first
    taper week: the first week when the peak does not exceed the base,
    the last week of the build-up otherwise. *)
Lemma build_week_above_taper weeks base peak :
  (12 <= weeks)%Z -> (1 # 2) < base -> 0 <= peak ->
  exists w, (1 <= w <= weeks - 4)%Z
            /\ round (peak * 0.8) 1 < miles_of_week weeks base peak w.
Proof.
  intros Hw Hb Hp.
  assert (HN : 8 <= inject_Z (weeks - 4))
    by (change 8 with (inject_Z 8); rewrite <- Zle_Qle; lia).
  set (N := inject_Z (weeks - 4)) in *.
  assert (HNi : N * / N == 1) by (apply Qmult_inv_r; lra).
  assert (Hi : 0 < / N) by (apply Qinv_lt_0_compat; lra).
  destruct (Qlt_le_dec base peak) as [Hlt|Hle].
  - exists (weeks - 4)%Z. split; [lia|].
    rewrite miles_of_build_week by lia.
    apply round1_separates. fold N.
    replace (weeks - 4 - 1)%Z with (weeks - 4 + -1)%Z by lia.
    rewrite inject_Z_plus. fold N. change (inject_Z (-1)) with (-1 # 1).
    set (inc := (peak - base) * / N).
    assert (Hinc : 0 <= inc) by (apply Qmult_le_0_compat; lra).
    assert (HincN : inc * N == peak - base)
      by (unfold inc; rewrite <- Qmult_assoc, (Qmult_comm (/ N)), HNi; ring).
    assert (H8 : inc * 8 <= inc * N)
      by (rewrite !(Qmult_comm inc); apply Qmult_le_compat_r; lra).
    assert (E : base + (peak - base) / N * (N + (-1 # 1))
                == base + inc * N - inc)
      by (unfold inc, Qdiv; ring).
    rewrite E. lra.
  - exists 1%Z. split; [lia|].
    rewrite miles_of_build_week by lia.
    apply round1_separates. change (inject_Z (1 - 1)) with 0.
    lra.
Qed.

(** C4, as the code has it: with a non-negative weekly mileage no week
    of a returned plan has negative mileage; and every taper week is
    strictly below the week of maximal mileage when there are at least
    3 weeks and the weekly mileage is above 1/2 on a timeline of 12
    weeks or more, above 1/10 on a shorter one. *)
Theorem schedule_miles_nonnegative_taper_below_peak
        (weeks : Z) (fd : fitness_data) (goal : option string)
        (plan : training_plan) :
  generate_training_plan weeks fd goal = Returned plan ->
  0 <= current_weekly_mileage plan ->
  miles_nonnegative (weekly_schedule plan)
  /\ ((3 <= weeks)%Z ->
      (if (12 <=? weeks)%Z then 1 # 2 else 1 # 10)
      < current_weekly_mileage plan ->
      taper_below_peak weeks (weekly_schedule plan)).
Proof.
  intros Hplan Hb.
  destruct (generate_fields weeks fd goal plan Hplan)
    as (_ & _ & Hs & _).
  set (base := current_weekly_mileage plan) in *.
  set (level := plan_fitness_level plan) in *.
  pose proof (max_safe_mileage_nonneg weeks base level Hb) as Hp.
  set (peak := max_safe_mileage weeks base level) in *.
  rewrite Hs. split.
  - intros e He. apply in_schedule in He. destruct He as [_ ->].
    now apply miles_of_week_nonneg.
  - intros Hw Hm e He Ht.
    apply in_schedule in He. destruct He as [Hwk ->].
    unfold is_taper_week, taper_start in Ht. apply Z.ltb_lt in Ht.
    destruct (Z.leb_spec 12 weeks) as [H12|H12].
    + destruct (build_week_above_taper weeks base peak H12 Hm Hp)
        as (w & Hwb & Hlt).
      destruct (schedule_has_week weeks base peak level w) as (e' & Hin & He');
        [lia|].
      apply peak_miles_ge in Hin. rewrite He' in Hin.
      assert (Hle : miles_of_week weeks base peak (week e)
                    <= round (peak * 0.8) 1)
        by (apply miles_of_taper_week_long; [lia | lia | exact Hp]).
      lra.
    + destruct (schedule_has_week weeks base peak level 1) as (e' & Hin & He');
        [lia|].
      apply peak_miles_ge in Hin. rewrite He' in Hin.
      rewrite miles_of_flat_week in Hin by lia.
      assert (Hle : miles_of_week weeks base peak (week e)
                    <= round (base * 0.7) 1)
        by (apply miles_of_taper_week_short; [lia | lia | exact Hb]).
      destruct (Qlt_le_dec (1 # 6) base) as [Hhi|Hlo].
      * destruct (round1_near (base * 0.7)). lra.
      * assert (Hr : round (base * 0.7) 1 <= round (3 # 25) 1)
          by (apply round1_monotone; lra).
        assert (Hc : round (3 # 25) 1 == 1 # 10) by reflexivity.
        lra.
Qed.


Lemma schedule_miles_nonnegative_taper_below_peak_witness :
  exists plan,
    generate_training_plan 16 sample_data None = Returned plan
    /\ miles_nonnegative (weekly_schedule plan)
    /\ taper_below_peak 16 (weekly_schedule plan).
Proof.
  eexists. split; [reflexivity|].
  destruct (schedule_miles_nonnegative_taper_below_peak
              16 sample_data None _ eq_refl) as [Hn Ht].
  - vm_compute. discriminate.
  - split; [exact Hn|]. apply Ht; [discriminate | reflexivity].
Defined.

(** C4, as the claim states it, fails: in a 2-week plan both weeks are
    taper weeks, and the first of them is the week of maximal mileage. *)
Lemma two_week_taper_holds_the_peak :
  exists plan,
    generate_training_plan 2 sample_data None = Returned plan
    /\ 0 < current_weekly_mileage plan
    /\ ~ taper_below_peak 2 (weekly_schedule plan).
Proof.
  eexists. split; [reflexivity|]. split; [reflexivity|].
  intros H. unfold taper_below_peak in H. vm_compute in H.
  specialize (H _ (or_introl eq_refl) eq_refl). discriminate.
Qed.

(** At a very low mileage the rounding to one decimal levels a long
    timeline: every week of the plan, taper included, has mileage 0. *)
Lemma tiny_mileage_levels_the_schedule :
  exists plan,
    generate_training_plan 12 tiny_data None = Returned plan
    /\ 0 < current_weekly_mileage plan
    /\ ~ taper_below_peak 12 (weekly_schedule plan).
Proof.
  eexists. split; [reflexivity|]. split; [reflexivity|].
  intros H. unfold taper_below_peak in H. vm_compute in H.
  specialize (H _ (or_intror (or_intror (or_intror (or_intror (or_intror
                (or_intror (or_intror (or_intror (or_introl eq_refl)))))))))
                eq_refl).
  discriminate.
Qed.

(** On a short timeline a weekly mileage of one tenth is not enough:
    seven tenths of it round back to one tenth, the mileage of the weeks
    before the taper. *)
Lemma tenth_of_a_mile_taper_reaches_the_peak :
  exists plan,
    generate_training_plan 4 low_data None = Returned plan
    /\ 0 < current_weekly_mileage plan
    /\ ~ taper_below_peak 4 (weekly_schedule plan).
Proof.
  eexists. split; [reflexivity|]. split; [reflexivity|].
  intros H. unfold taper_below_peak in H. vm_compute in H.
  specialize (H _ (or_intror (or_intror (or_introl eq_refl))) eq_refl).
  discriminate.
Qed.

(** ** Instances on the sample inputs *)

Lemma fitness_level_monotone_in_mileage_witness :
  exists t1 t2,
    tier_of_label (_determine_fitness_level 20 18 9) = Some t1
    /\ tier_of_label (_determine_fitness_level 40 18 9) = Some t2
    /\ (tier_rank t1 <= tier_rank t2)%nat.
Proof.
  apply (fitness_level_monotone_in_mileage 20 40 18 9).
  vm_compute. discriminate.
Defined.

(** ** The aggregates of the analysis and those of the specification *)

Lemma fold_left_total l a : fold_left Qplus l a == a + total l.
Proof.
  revert a. induction l as [|x l IH]; intros a; cbn [fold_left total fold_right].
  - lra.
  - rewrite IH. unfold total. lra.
Qed.

Lemma sum_total l : sum l == total l.
Proof. unfold sum. rewrite fold_left_total. lra. Qed.



Lemma prefix_of_firstn n s : prefix_of n s = implode (firstn n (explode s)).
Proof.
  unfold prefix_of, implode, explode. revert s.
  induction n as [|n IH]; intros [|c s]; cbn; try reflexivity.
  now rewrite IH.
Qed.

Lemma existsb_eqb_in x l : existsb (String.eqb x) l = true <-> In x l.
Proof.
  rewrite existsb_exists. split.
  - intros (y & Hy & E). apply String.eqb_eq in E. now subst.
  - intros H. exists x. split; [exact H|]. apply String.eqb_refl.
Qed.

Lemma length_nodup_distinct l :
  List.length (nodup string_dec l) = List.length (distinct l).
Proof.
  induction l as [|x l IH]; [reflexivity|]. cbn [nodup distinct].
  destruct (in_dec string_dec x l) as [H|H].
  - apply existsb_eqb_in in H. now rewrite H.
  - destruct (existsb (String.eqb x) l) eqn:E.
    + apply existsb_eqb_in in E. contradiction.
    + cbn [List.length]. now rewrite IH.
Qed.

Lemma weeks_of_data_buckets runs :
  weeks_of_data runs = Z.of_nat (month_buckets runs).
Proof.
  unfold weeks_of_data, month_buckets. rewrite length_nodup_distinct.
  do 3 f_equal. apply map_ext. intros r. apply prefix_of_firstn.
Qed.

Lemma raw_weekly_mileage_spec runs :
  raw_weekly_mileage runs == weekly_mileage_of runs.
Proof.
  unfold raw_weekly_mileage, weekly_mileage_of.
  rewrite weeks_of_data_buckets, sum_total.
  replace (Z.max (Z.of_nat (month_buckets runs)) 1)
    with (Z.of_nat (Nat.max (month_buckets runs) 1)) by lia.
  reflexivity.
Qed.

Lemma raw_average_pace_spec runs :
  raw_average_pace runs == average_pace_of runs.
Proof.
  unfold raw_average_pace, average_pace_of, mean.
  now rewrite sum_total, length_map.
Qed.

Lemma max_by_distance_longest best l :
  is_longest (best :: l) (max_by_distance best l).
Proof.
  revert best. induction l as [|r l IH]; intros best; cbn [max_by_distance].
  - split; [now left|]. intros x [<-|[]]. lra.
  - destruct (IH (if gtb (distance r) (distance best) then r else best))
      as [Hin Hmax].
    split.
    + destruct Hin as [<-|Hin].
      * destruct (gtb (distance r) (distance best));
          [right; now left | now left].
      * right. now right.
    + intros x [<-|[<-|Hx]].
      * destruct (gtb (distance r) (distance best)) eqn:E.
        -- apply gtb_true in E.
           apply Qle_trans with (distance r); [lra|]. apply Hmax. now left.
        -- apply Hmax. now left.
      * destruct (gtb (distance r) (distance best)) eqn:E.
        -- apply Hmax. now left.
        -- apply gtb_false in E.
           apply Qle_trans with (distance best); [exact E|].
           apply Hmax. now left.
      * apply Hmax. now right.
Qed.

Lemma longest_distance_unique runs a b :
  is_longest runs a -> is_longest runs b -> distance a == distance b.
Proof.
  intros [Ha Hma] [Hb Hmb]. apply Qle_antisym; auto.
Qed.

Lemma two_stage_tier_compat m m' l l' p p' :
  m == m' -> l == l' -> p == p' ->
  two_stage_tier m l p = two_stage_tier m' l' p'.
Proof.
  intros Hm Hl Hp.
  assert (Em : forall c, Qle_bool c m = Qle_bool c m')
    by (intros c; now rewrite Hm).
  assert (El : forall c, Qle_bool c l = Qle_bool c l')
    by (intros c; now rewrite Hl).
  assert (Ep : forall c, Qle_bool c p = Qle_bool c p')
    by (intros c; now rewrite Hp).
  assert (Ep' : forall c, Qle_bool p c = Qle_bool p' c)
    by (intros c; now rewrite Hp).
  unfold two_stage_tier, base_tier, adjust, cascade, geb, ltb, gtb.
  cbn [find fst snd].
  now rewrite !Em, !El, !Ep, !Ep'.
Qed.

(** What the analysis reports of the weekly mileage and of the average
    pace. *)
Lemma analyze_reports r rs p :
  analyze_strava_fitness (Runs (r :: rs)) = Returned (Profile p) ->
  weekly_mileage p = round (raw_weekly_mileage (r :: rs)) 1
  /\ average_pace p = round (raw_average_pace (r :: rs)) 2
  /\ lr_distance (longest_run p) = distance (max_by_distance r rs).
Proof.
  unfold analyze_strava_fitness.
  destruct (mapM (fun x => strptime (date x)) (r :: rs)); cbn [bind];
    [|discriminate].
  intros H. injection H as <-. repeat split.
Qed.

(** C2, as the code has it: for a non-empty sequence of runs with
    readable dates the analysis returns a profile; its fitness level is
    the label of the two-stage rule (the descending cascade on weekly
    mileage and longest run, then the pace adjustment) at the weekly
    mileage and the average pace before they are rounded, that is, the
    total distance over the number of distinct year-month buckets, 1 at
    least, and the mean of the paces, and at the distance of a longest
    run, which is the distance the profile reports; the weekly mileage
    and the average pace the profile reports are less than 0.1 and 0.01
    away from the unrounded ones. *)
Theorem analyze_fitness_level_two_stage (runs : list run) :
  runs <> [] ->
  Forall well_dated runs ->
  exists p,
    analyze_strava_fitness (Runs runs) = Returned (Profile p)
    /\ (exists longest,
          is_longest runs longest
          /\ lr_distance (longest_run p) = distance longest)
    /\ (forall longest,
          is_longest runs longest ->
          fitness_level p =
            tier_label
              (two_stage_tier (weekly_mileage_of runs) (distance longest)
                 (average_pace_of runs)))
    /\ weekly_mileage_of runs - (1 # 10) < weekly_mileage p
       /\ weekly_mileage p < weekly_mileage_of runs + (1 # 10)
    /\ average_pace_of runs - (1 # 100) < average_pace p
       /\ average_pace p < average_pace_of runs + (1 # 100).
Proof.
  intros Hne Hd. destruct runs as [|r rs]; [congruence|].
  destruct (mapM_returned (fun x => strptime (date x)) (r :: rs) Hd)
    as (ds & Hds & _).
  destruct (analyze_nonempty r rs ds Hds) as (p & Hp & Hf & _).
  destruct (analyze_reports r rs p Hp) as (Hm & Ha & Hl).
  pose proof (max_by_distance_longest r rs) as Hmax.
  pose proof (raw_weekly_mileage_spec (r :: rs)) as Em.
  pose proof (raw_average_pace_spec (r :: rs)) as Ea.
  exists p. split; [exact Hp|]. split; [|split].
  - exists (max_by_distance r rs). now split.
  - intros longest Hlong.
    rewrite Hf, determine_fitness_level_two_stage. f_equal.
    apply two_stage_tier_compat; [exact Em | | exact Ea].
    now apply longest_distance_unique with (r :: rs).
  - rewrite Hm, Ha.
    destruct (round1_near (raw_weekly_mileage (r :: rs))),
      (round2_near (raw_average_pace (r :: rs))).
    repeat split; lra.
Qed.

Lemma analyze_fitness_level_two_stage_witness :
  exists p,
    analyze_strava_fitness (Runs sample_runs) = Returned (Profile p)
    /\ (exists longest,
          is_longest sample_runs longest
          /\ lr_distance (longest_run p) = distance longest)
    /\ (forall longest,
          is_longest sample_runs longest ->
          fitness_level p =
            tier_label
              (two_stage_tier (weekly_mileage_of sample_runs)
                 (distance longest) (average_pace_of sample_runs)))
    /\ weekly_mileage_of sample_runs - (1 # 10) < weekly_mileage p
       /\ weekly_mileage p < weekly_mileage_of sample_runs + (1 # 10)
    /\ average_pace_of sample_runs - (1 # 100) < average_pace p
       /\ average_pace p < average_pace_of sample_runs + (1 # 100).
Proof.
  apply (analyze_fitness_level_two_stage sample_runs).
  - discriminate.
  - repeat constructor.
Defined.

(** C2, as the claim states it, fails on the numbers the profile reports:
    runs of 8 and 6.96 miles at a pace of 9 in one month are reported
    with a weekly mileage of 15.0, a longest run of 8 and an average pace
    of 9 at the level Beginner, where the rule at 15, 8 and 9 gives
    Beginner+. *)
Lemma reported_mileage_gives_another_tier :
  exists p,
    analyze_strava_fitness (Runs threshold_runs) = Returned (Profile p)
    /\ weekly_mileage p == 15
    /\ lr_distance (longest_run p) == 8
    /\ average_pace p == 9
    /\ fitness_level p = "Beginner"
    /\ tier_label
         (two_stage_tier (weekly_mileage p) (lr_distance (longest_run p))
            (average_pace p)) = "Beginner+".
Proof.
  eexists. split; [reflexivity|].
  repeat split; vm_compute; reflexivity.
Qed.

(** ** The day gaps of the analysis and those of the specification *)






End Facts.

(** * Further properties of the analysis and of the plan *)

Module MoreFacts.
Import Py Datetime Agent Spec Obs Samples Facts More MoreSamples.

Local Open Scope string_scope.
Local Open Scope list_scope.
Local Open Scope Q_scope.

(** ** The fitness level in the longest run and in the pace *)

Lemma base_tier_monotone_in_longest_run m l1 l2 :
  l1 <= l2 -> (tier_rank (base_tier m l1) <= tier_rank (base_tier m l2))%nat.
Proof.
  intros H. unfold base_tier, cascade. cbn [find].
  split_cmp (geb m 50); split_cmp (geb m 35); split_cmp (geb m 25);
    split_cmp (geb m 15); try lra;
    rewrite ?andb_true_l, ?andb_false_l;
    cmp_cases; cbn; lia.
Qed.

Lemma adjust_antitone_in_pace p1 p2 t :
  p1 <= p2 -> (tier_rank (adjust p2 t) <= tier_rank (adjust p1 t))%nat.
Proof.
  intros H. unfold adjust.
  split_cmp (ltb p1 7.0); split_cmp (ltb p2 7.0);
    split_cmp (gtb p1 10.0); split_cmp (gtb p2 10.0);
    try lra; destruct t; cbn; lia.
Qed.

(** X1: with the weekly mileage and the average pace fixed, a longer
    longest run never gives a lower tier. *)
Theorem fitness_level_monotone_in_longest_run (m l1 l2 p : Q) :
  l1 <= l2 ->
  exists t1 t2,
    tier_of_label (_determine_fitness_level m l1 p) = Some t1
    /\ tier_of_label (_determine_fitness_level m l2 p) = Some t2
    /\ (tier_rank t1 <= tier_rank t2)%nat.
Proof.
  intros H. rewrite !determine_fitness_level_two_stage.
  exists (two_stage_tier m l1 p), (two_stage_tier m l2 p).
  rewrite !tier_of_label_label. repeat split.
  unfold two_stage_tier. apply adjust_monotone.
  now apply base_tier_monotone_in_longest_run.
Qed.

Lemma fitness_level_monotone_in_longest_run_witness :
  exists t1 t2,
    tier_of_label (_determine_fitness_level 40 10 9) = Some t1
    /\ tier_of_label (_determine_fitness_level 40 18 9) = Some t2
    /\ (tier_rank t1 <= tier_rank t2)%nat.
Proof.
  apply (fitness_level_monotone_in_longest_run 40 10 18 9).
  vm_compute. discriminate.
Defined.

(** X2: with the weekly mileage and the longest run fixed, a faster
    average pace (fewer minutes per mile) never gives a lower tier. *)
Theorem fitness_level_antitone_in_pace (m l p1 p2 : Q) :
  p1 <= p2 ->
  exists t1 t2,
    tier_of_label (_determine_fitness_level m l p1) = Some t1
    /\ tier_of_label (_determine_fitness_level m l p2) = Some t2
    /\ (tier_rank t2 <= tier_rank t1)%nat.
Proof.
  intros H. rewrite !determine_fitness_level_two_stage.
  exists (two_stage_tier m l p1), (two_stage_tier m l p2).
  rewrite !tier_of_label_label. repeat split.
  unfold two_stage_tier. now apply adjust_antitone_in_pace.
Qed.

Lemma fitness_level_antitone_in_pace_witness :
  exists t1 t2,
    tier_of_label (_determine_fitness_level 10 5 6.5) = Some t1
    /\ tier_of_label (_determine_fitness_level 10 5 11) = Some t2
    /\ (tier_rank t2 <= tier_rank t1)%nat.
Proof.
  apply (fitness_level_antitone_in_pace 10 5 6.5 11).
  vm_compute. discriminate.
Defined.

(** X3: the pace bounds the tier whatever the mileage and the longest
    run: under 7 minutes per mile the level is Intermediate or higher,
    over 10 it is Intermediate or lower, and from 7 to 10 it is the tier
    of the cascade unchanged. *)
Theorem pace_bounds_the_fitness_level (m l p : Q) :
  exists t,
    tier_of_label (_determine_fitness_level m l p) = Some t
    /\ (p < 7 -> (tier_rank Intermediate <= tier_rank t)%nat)
    /\ (10 < p -> (tier_rank t <= tier_rank Intermediate)%nat)
    /\ (7 <= p <= 10 -> t = base_tier m l).
Proof.
  rewrite determine_fitness_level_two_stage, tier_of_label_label.
  eexists. split; [reflexivity|].
  unfold two_stage_tier, adjust.
  split_cmp (ltb p 7.0); split_cmp (gtb p 10.0);
    repeat split; intros; try lra; try reflexivity;
    destruct (base_tier m l); cbn; lia.
Qed.

Lemma pace_bounds_the_fitness_level_witness :
  exists t,
    tier_of_label (_determine_fitness_level 5 3 6) = Some t
    /\ (tier_rank Intermediate <= tier_rank t)%nat.
Proof.
  destruct (pace_bounds_the_fitness_level 5 3 6) as (t & Ht & Hfast & _).
  exists t. split; [exact Ht|]. apply Hfast. reflexivity.
Defined.

(** ** The consistency score and the advice *)

(** X4: a larger average gap never gives a better consistency label:
    the labels are met in the order Excellent, Very Good, Good, Fair,
    Needs Improvement as the gap grows. *)
Theorem consistency_score_monotone_in_gap (g1 g2 : Q) :
  g1 <= g2 ->
  exists r1 r2,
    consistency_rank (_calculate_consistency_score g1) = Some r1
    /\ consistency_rank (_calculate_consistency_score g2) = Some r2
    /\ (r1 <= r2)%nat.
Proof.
  intros H. unfold _calculate_consistency_score.
  split_cmp (leb g1 1.5); split_cmp (leb g1 2.5); split_cmp (leb g1 3.5);
    split_cmp (leb g1 5); try lra;
    split_cmp (leb g2 1.5); split_cmp (leb g2 2.5); split_cmp (leb g2 3.5);
    split_cmp (leb g2 5); try lra;
    do 2 eexists; (split; [reflexivity|]); (split; [reflexivity|]); lia.
Qed.

Lemma consistency_score_monotone_in_gap_witness :
  exists r1 r2,
    consistency_rank (_calculate_consistency_score 2) = Some r1
    /\ consistency_rank (_calculate_consistency_score 4) = Some r2
    /\ (r1 <= r2)%nat.
Proof.
  apply (consistency_score_monotone_in_gap 2 4).
  vm_compute. discriminate.
Defined.

(** X5: the advice is a selection of the four fixed sentences in their
    fixed order, without repetition; the advice to build base mileage
    (mileage under 20) and the advice to add long runs (mileage over 50)
    never come together, so at most three sentences are returned. *)
Theorem recommendations_at_most_three (m l g : Q) :
  let advice := _generate_recommendations m l g in
  (List.length advice <= 3)%nat
  /\ ~ (In base_advice advice /\ In volume_advice advice)
  /\ exists b1 b2 b3 b4 : bool,
       advice =
         (if b1 then [base_advice] else [])
         ++ (if b2 then [long_run_advice] else [])
         ++ (if b3 then [consistency_advice] else [])
         ++ (if b4 then [volume_advice] else []).
Proof.
  unfold _generate_recommendations.
  split_cmp (ltb m 20); split_cmp (gtb m 50); try lra;
    destruct (ltb l 10), (ltb l 16), (gtb g 3); cbn [andb app List.length];
    (split; [lia|]);
    (split;
     [ intros [H1 H2]; cbn in H1, H2;
       repeat match goal with
         | H : _ \/ _ |- _ => destruct H
         | H : False |- _ => destruct H
         | H : _ = _ |- _ => discriminate H
         end
     | ]).
  all: first
    [ exists true, true, true, true; reflexivity
    | exists true, true, true, false; reflexivity
    | exists true, true, false, true; reflexivity
    | exists true, true, false, false; reflexivity
    | exists true, false, true, true; reflexivity
    | exists true, false, true, false; reflexivity
    | exists true, false, false, true; reflexivity
    | exists true, false, false, false; reflexivity
    | exists false, true, true, true; reflexivity
    | exists false, true, true, false; reflexivity
    | exists false, true, false, true; reflexivity
    | exists false, true, false, false; reflexivity
    | exists false, false, true, true; reflexivity
    | exists false, false, true, false; reflexivity
    | exists false, false, false, true; reflexivity
    | exists false, false, false, false; reflexivity ].
Qed.

(** ** The outcome of the analysis *)

Lemma strptime_raises s e : strptime s = Raised e -> e = "ValueError".
Proof.
  unfold strptime.
  destruct (split s "-") as [|fy [|fm [|fd [|x l]]]]; try (now intros [= <-]).
  destruct (field_Y fy), (field_m fm), (field_d fd); try (now intros [= <-]).
  destruct (_ && _)%bool; [discriminate|now intros [= <-]].
Qed.

Lemma mapM_returned_all {A B} (f : A -> outcome B) (l : list A) ys :
  mapM f l = Returned ys -> Forall (fun x => is_returned (f x) = true) l.
Proof.
  revert ys. induction l as [|x l IH]; intros ys H; [constructor|].
  cbn [mapM] in H. destruct (f x) eqn:E; cbn [bind] in H; [|discriminate].
  destruct (mapM f l) eqn:E'; cbn [bind] in H; [|discriminate].
  constructor; [now rewrite E|]. now apply (IH v0).
Qed.

Lemma mapM_raised {A B} (f : A -> outcome B) (l : list A) e :
  mapM f l = Raised e -> exists x, In x l /\ f x = Raised e.
Proof.
  induction l as [|x l IH]; cbn [mapM]; [discriminate|].
  destruct (f x) eqn:E; cbn [bind].
  - destruct (mapM f l); cbn [bind]; [discriminate|].
    intros [= <-]. destruct (IH eq_refl) as (y & Hy & Hf).
    exists y. split; [now right|exact Hf].
  - intros [= <-]. exists x. split; [now left|exact E].
Qed.

(** The fields of the profile of a non-empty list whose dates are read. *)
Lemma analyze_profile r rs ds :
  mapM (fun x => strptime (date x)) (r :: rs) = Returned ds ->
  exists p,
    analyze_strava_fitness (Runs (r :: rs)) = Returned (Profile p)
    /\ total_runs p = Z.of_nat (List.length (r :: rs))
    /\ total_distance p = round (sum (map distance (r :: rs))) 1
    /\ weekly_mileage p = round (raw_weekly_mileage (r :: rs)) 1
    /\ longest_run p =
         {| lr_distance := distance (max_by_distance r rs);
            lr_pace := pace_per_mile (max_by_distance r rs);
            lr_date := date (max_by_distance r rs) |}
    /\ workout_distribution p =
         fold_left (fun d x => count_up (label_of x) d) (r :: rs) []
    /\ data_period_days p =
         match sort Datetime.le ds with
         | [] => 0%Z
         | d :: ds' => days_between (max_date d ds') (min_date d ds')
         end
    /\ fitness_level p =
         _determine_fitness_level (raw_weekly_mileage (r :: rs))
           (distance (max_by_distance r rs)) (raw_average_pace (r :: rs)).
Proof.
  intros Hds. unfold analyze_strava_fitness. rewrite Hds. cbn [bind].
  eexists. split; [reflexivity|]. repeat split.
Qed.

Lemma profile_of_inv runs p :
  profile_of runs = Some p ->
  exists r rs ds,
    runs = r :: rs
    /\ mapM (fun x => strptime (date x)) (r :: rs) = Returned ds
    /\ analyze_strava_fitness (Runs runs) = Returned (Profile p).
Proof.
  unfold profile_of. destruct runs as [|r rs]; [discriminate|].
  destruct (mapM (fun x => strptime (date x)) (r :: rs)) as [ds|e] eqn:E.
  - destruct (analyze_nonempty r rs ds E) as (q & Hq & _).
    rewrite Hq. intros [= <-]. now exists r, rs, ds.
  - now rewrite (analyze_raises r rs e E).
Qed.

(** X6: the analysis of a non-empty list of runs never returns the error
    dictionary: it returns a profile, which counts every run, when every
    date is read, and it raises [ValueError] when some date is not. *)
Theorem analyze_nonempty_outcome (r : run) (rs : list run) :
  match analyze_strava_fitness (Runs (r :: rs)) with
  | Returned (Profile p) =>
      Forall well_dated (r :: rs)
      /\ total_runs p = Z.of_nat (List.length (r :: rs))
  | Returned (ErrorDict _) => False
  | Raised e =>
      e = "ValueError" /\ exists x, In x (r :: rs) /\ ~ well_dated x
  end.
Proof.
  destruct (mapM (fun x => strptime (date x)) (r :: rs)) as [ds|e] eqn:E.
  - destruct (analyze_profile r rs ds E) as (p & -> & Hn & _).
    split; [|exact Hn]. exact (mapM_returned_all _ _ _ E).
  - rewrite (analyze_raises r rs e E).
    destruct (mapM_raised _ _ _ E) as (x & Hin & Hx).
    split; [exact (strptime_raises _ _ Hx)|].
    exists x. split; [exact Hin|]. unfold well_dated. now rewrite Hx.
Qed.

(** ** The workout distribution *)

Lemma workout_label_eqb_eq a b : workout_label_eqb a b = true <-> a = b.
Proof.
  destruct a, b; cbn; try (split; [discriminate|congruence]).
  - rewrite String.eqb_eq. split; congruence.
  - rewrite Z.eqb_eq. split; congruence.
  - tauto.
Qed.

Lemma sumZ_cons x l : sumZ (x :: l) = (x + sumZ l)%Z.
Proof.
  unfold sumZ. cbn [fold_left].
  assert (H : forall l a, fold_left Z.add l a = (a + fold_left Z.add l 0)%Z).
  { clear. induction l as [|y l IH]; intros a; cbn [fold_left]; [lia|].
    rewrite (IH (a + y)%Z), (IH (0 + y)%Z). lia. }
  rewrite (H l (0 + x)%Z). lia.
Qed.

Lemma count_up_total k d :
  sumZ (map snd (count_up k d)) = (sumZ (map snd d) + 1)%Z.
Proof.
  induction d as [|[k' n] d IH]; cbn [count_up map snd].
  - reflexivity.
  - destruct (workout_label_eqb k k'); cbn [map snd];
      rewrite !sumZ_cons; [lia|]. rewrite IH. lia.
Qed.

Lemma count_up_keys k d :
  map fst (count_up k d) =
  if existsb (workout_label_eqb k) (map fst d) then map fst d
  else map fst d ++ [k].
Proof.
  induction d as [|[k' n] d IH]; cbn [count_up map fst existsb app].
  - reflexivity.
  - destruct (workout_label_eqb k k'); cbn [orb map fst]; [reflexivity|].
    rewrite IH. now destruct (existsb _ _).
Qed.

Lemma count_up_positive k d :
  Forall (fun kn => (1 <= snd kn)%Z) d ->
  Forall (fun kn => (1 <= snd kn)%Z) (count_up k d).
Proof.
  induction 1 as [|[k' n] d Hn Hd IH]; cbn [count_up].
  - constructor; [cbn; lia|constructor].
  - cbn [snd] in Hn. destruct (workout_label_eqb k k');
      constructor; cbn [snd]; try assumption; try lia.
Qed.

Lemma count_up_nodup k d :
  NoDup (map fst d) -> NoDup (map fst (count_up k d)).
Proof.
  intros H. rewrite count_up_keys.
  destruct (existsb (workout_label_eqb k) (map fst d)) eqn:E; [exact H|].
  apply NoDup_app; [exact H|repeat constructor; intros []|].
  intros x Hx [Hk|[]]. subst x.
  assert (existsb (workout_label_eqb k) (map fst d) = true); [|congruence].
  apply existsb_exists. exists k. split; [exact Hx|].
  now apply workout_label_eqb_eq.
Qed.

Lemma count_all_invariant runs d :
  let d' := fold_left (fun d x => count_up (label_of x) d) runs d in
  sumZ (map snd d') = (sumZ (map snd d) + Z.of_nat (List.length runs))%Z
  /\ (NoDup (map fst d) -> NoDup (map fst d'))
  /\ (Forall (fun kn => (1 <= snd kn)%Z) d ->
      Forall (fun kn => (1 <= snd kn)%Z) d')
  /\ (forall k, In k (map fst d') <->
                In k (map fst d) \/ In k (map label_of runs)).
Proof.
  revert d. induction runs as [|x runs IH]; intros d; cbn [fold_left].
  - cbn. repeat split; try tauto; lia.
  - destruct (IH (count_up (label_of x) d)) as (H1 & H2 & H3 & H4).
    cbn zeta in *. repeat split.
    + rewrite H1, count_up_total. cbn [List.length]. lia.
    + intros H. apply H2. now apply count_up_nodup.
    + intros H. apply H3. now apply count_up_positive.
    + intros Hk. apply H4 in Hk. rewrite count_up_keys in Hk.
      cbn [map In]. destruct (existsb _ _); [tauto|].
      destruct Hk as [Hk|Hk]; [|tauto].
      apply in_app_or in Hk. destruct Hk as [Hk|[<-|[]]]; tauto.
    + intros Hk. apply H4. rewrite count_up_keys. cbn [map In] in Hk.
      destruct (existsb (workout_label_eqb (label_of x)) (map fst d)) eqn:E.
      * destruct Hk as [Hk|[<-|Hk]]; try tauto.
        left. apply existsb_exists in E. destruct E as (y & Hy & Ey).
        apply workout_label_eqb_eq in Ey. now subst.
      * rewrite in_app_iff. cbn [In]. tauto.
Qed.

(** X7: in a profile the workout distribution counts every run once:
    its counts add up to the number of runs, each label appears under one
    key, every count is at least 1, and the keys are the labels of the
    runs, a run without a workout type counting under Easy. *)
Theorem workout_distribution_counts_every_run (runs : list run) (p : profile) :
  profile_of runs = Some p ->
  sumZ (map snd (workout_distribution p)) = total_runs p
  /\ total_runs p = Z.of_nat (List.length runs)
  /\ NoDup (map fst (workout_distribution p))
  /\ Forall (fun kn => (1 <= snd kn)%Z) (workout_distribution p)
  /\ (forall k, In k (map fst (workout_distribution p)) <->
                In k (map label_of runs)).
Proof.
  intros H. destruct (profile_of_inv runs p H) as (r & rs & ds & -> & Hds & Hp).
  destruct (analyze_profile r rs ds Hds) as (q & Hq & Hn & _ & _ & _ & Hw & _).
  rewrite Hp in Hq. injection Hq as <-.
  destruct (count_all_invariant (r :: rs) []) as (H1 & H2 & H3 & H4).
  cbn zeta in *. rewrite Hw, Hn. repeat split.
  - rewrite H1. reflexivity.
  - apply H2. constructor.
  - apply H3. constructor.
  - intros Hk. apply H4 in Hk. destruct Hk as [[]|Hk]. exact Hk.
  - intros Hk. apply H4. now right.
Qed.

Lemma workout_distribution_counts_every_run_witness :
  exists p,
    profile_of sample_runs = Some p
    /\ sumZ (map snd (workout_distribution p)) = total_runs p
    /\ total_runs p = 2%Z.
Proof.
  eexists. split; [reflexivity|].
  destruct (workout_distribution_counts_every_run sample_runs _ eq_refl)
    as (H1 & H2 & _).
  split; [exact H1|exact H2].
Defined.

(** ** The longest run *)

Lemma max_by_distance_first_longest best l :
  exists before after,
    best :: l = before ++ max_by_distance best l :: after
    /\ (forall x, In x before ->
                  distance x < distance (max_by_distance best l))
    /\ (forall x, In x after ->
                  distance x <= distance (max_by_distance best l)).
Proof.
  revert best. induction l as [|r l IH]; intros best; cbn [max_by_distance].
  - exists [], []. repeat split; intros x [].
  - split_cmp (gtb (distance r) (distance best)).
    + destruct (IH r) as (b & a & Heq & Hb & Ha).
      exists (best :: b), a. split; [cbn [app]; f_equal; exact Heq|].
      split; [|exact Ha].
      intros x [<-|Hx]; [|now apply Hb].
      destruct b as [|r' b]; cbn [app] in Heq.
      * injection Heq as Hr _. rewrite <- Hr. exact E.
      * injection Heq as <- _.
        assert (distance r < distance (max_by_distance r l))
          by (apply Hb; now left).
        lra.
    + destruct (IH best) as (b & a & Heq & Hb & Ha).
      destruct b as [|b0 b]; cbn [app] in Heq.
      * injection Heq as Hbest Hl.
        exists [], (r :: a). split; [cbn [app]; congruence|].
        split; [intros x []|].
        intros x [<-|Hx]; [|now apply Ha].
        rewrite <- Hbest. exact E.
      * injection Heq as <- Hl.
        exists (best :: r :: b), a.
        split; [cbn [app]; do 2 f_equal; exact Hl|].
        split; [|exact Ha].
        assert (Hbest : distance best < distance (max_by_distance best l))
          by (apply Hb; now left).
        intros x [<-|[<-|Hx]]; [exact Hbest|lra|].
        apply Hb. now right.
Qed.

(** X8: the longest run of a profile is one of the runs, the first in
    the order of the input among those of maximal distance: every run
    before it is strictly shorter and no run after it is longer; its
    distance, pace and date are reported as they are in the record. *)
Theorem longest_run_is_first_of_maximal_distance
        (runs : list run) (p : profile) :
  profile_of runs = Some p ->
  exists before r after,
    runs = before ++ r :: after
    /\ lr_distance (longest_run p) = distance r
    /\ lr_pace (longest_run p) = pace_per_mile r
    /\ lr_date (longest_run p) = date r
    /\ (forall x, In x before -> distance x < distance r)
    /\ (forall x, In x after -> distance x <= distance r).
Proof.
  intros H. destruct (profile_of_inv runs p H) as (r & rs & ds & -> & Hds & Hp).
  destruct (analyze_profile r rs ds Hds) as (q & Hq & _ & _ & _ & Hl & _).
  rewrite Hp in Hq. injection Hq as <-.
  destruct (max_by_distance_first_longest r rs) as (b & a & Heq & Hb & Ha).
  exists b, (max_by_distance r rs), a. rewrite Hl. cbn.
  repeat split; assumption.
Qed.

Lemma longest_run_is_first_of_maximal_distance_witness :
  exists p before r after,
    profile_of sample_runs = Some p
    /\ sample_runs = before ++ r :: after
    /\ lr_distance (longest_run p) = distance r
    /\ (forall x, In x after -> distance x <= distance r).
Proof.
  eexists.
  destruct (longest_run_is_first_of_maximal_distance sample_runs _ eq_refl)
    as (b & r & a & H1 & H2 & _ & _ & _ & H6).
  exists b, r, a. split; [reflexivity|]. split; [exact H1|].
  split; [exact H2|exact H6].
Defined.

(** ** Totals *)

Lemma sum_from l a : fold_left Qplus l a == a + sum l.
Proof.
  unfold sum. revert a. induction l as [|x l IH]; intros a; cbn [fold_left].
  - lra.
  - rewrite (IH (a + x)), (IH (0 + x)). lra.
Qed.

Lemma sum_nonneg l : Forall (fun x => 0 <= x) l -> 0 <= sum l.
Proof.
  induction 1 as [|x l Hx _ IH]; [unfold sum; cbn; lra|].
  unfold sum. cbn [fold_left]. rewrite sum_from. lra.
Qed.

Lemma weeks_of_data_positive r rs : (1 <= weeks_of_data (r :: rs))%Z.
Proof.
  unfold weeks_of_data.
  assert (Hin : In (prefix_of 7 (date r))
                  (nodup string_dec (map (fun x => prefix_of 7 (date x)) (r :: rs))))
    by (apply nodup_In; now left).
  destruct (nodup string_dec _) as [|s l]; [destruct Hin|].
  cbn [List.length]. lia.
Qed.

Lemma weeks_of_data_at_most_runs l :
  (weeks_of_data l <= Z.of_nat (List.length l))%Z.
Proof.
  unfold weeks_of_data.
  pose proof (NoDup_incl_length
                (NoDup_nodup string_dec (map (fun x => prefix_of 7 (date x)) l))
                (fun s H => proj1 (nodup_In string_dec _ s) H)) as H.
  rewrite length_map in H. lia.
Qed.

Lemma raw_weekly_mileage_at_most_total l :
  Forall (fun r => 0 <= distance r) l ->
  0 <= raw_weekly_mileage l /\ raw_weekly_mileage l <= sum (map distance l).
Proof.
  intros H.
  assert (Ht : 0 <= sum (map distance l)).
  { apply sum_nonneg. apply Forall_forall. intros x Hx.
    apply in_map_iff in Hx. destruct Hx as (r & <- & Hr).
    rewrite Forall_forall in H. now apply H. }
  unfold raw_weekly_mileage.
  assert (HN : 1 <= inject_Z (Z.max (weeks_of_data l) 1))
    by (change 1 with (inject_Z 1); rewrite <- Zle_Qle; lia).
  set (N := inject_Z (Z.max (weeks_of_data l) 1)) in *.
  set (T := sum (map distance l)) in *.
  assert (Hi : 0 < / N) by (apply Qinv_lt_0_compat; lra).
  assert (HNi : N * / N == 1) by (apply Qmult_inv_r; lra).
  assert (Hi1 : / N <= 1).
  { rewrite <- HNi. rewrite <- (Qmult_1_l (/ N)) at 1.
    apply Qmult_le_compat_r; lra. }
  unfold Qdiv. split.
  - apply Qmult_le_0_compat; lra.
  - rewrite <- (Qmult_1_r T) at 2.
    rewrite !(Qmult_comm T). apply Qmult_le_compat_r; lra.
Qed.

(** X9: when no run has a negative distance, the weekly mileage of the
    profile is non-negative and is at most its total distance: the number
    of year-month buckets the total is divided by is at least 1 and at
    most the number of runs. *)
Theorem weekly_mileage_at_most_total_distance
        (runs : list run) (p : profile) :
  profile_of runs = Some p ->
  Forall (fun r => 0 <= distance r) runs ->
  0 <= weekly_mileage p
  /\ weekly_mileage p <= total_distance p
  /\ (1 <= weeks_of_data runs <= total_runs p)%Z.
Proof.
  intros H Hd.
  destruct (profile_of_inv runs p H) as (r & rs & ds & -> & Hds & Hp).
  destruct (analyze_profile r rs ds Hds) as (q & Hq & Hn & Ht & Hw & _).
  rewrite Hp in Hq. injection Hq as <-.
  destruct (raw_weekly_mileage_at_most_total (r :: rs) Hd) as [H0 H1].
  rewrite Hw, Ht, Hn. repeat split.
  - now apply round1_nonneg.
  - now apply round1_monotone.
  - apply weeks_of_data_positive.
  - apply weeks_of_data_at_most_runs.
Qed.

Lemma weekly_mileage_at_most_total_distance_witness :
  exists p,
    profile_of sample_runs = Some p
    /\ weekly_mileage p <= total_distance p.
Proof.
  eexists. split; [reflexivity|].
  apply (weekly_mileage_at_most_total_distance sample_runs _ eq_refl).
  repeat constructor; vm_compute; discriminate.
Defined.

(** ** The calendar *)

Lemma is_digit_val c : is_digit c = true -> (0 <= digit_val c <= 9)%Z.
Proof.
  unfold is_digit, digit_val. intros H.
  apply andb_true_iff in H. destruct H as [H1 H2].
  apply Nat.leb_le in H1, H2. lia.
Qed.

Lemma field_small_range hi l v :
  field_small hi l = Some v -> (1 <= v <= hi)%Z.
Proof.
  unfold field_small.
  destruct (all_digits l && _ && (1 <=? number l)%Z && (number l <=? hi)%Z)%bool
    eqn:E; [|discriminate].
  intros [= <-]. apply andb_true_iff in E. destruct E as [E E2].
  apply andb_true_iff in E. destruct E as [_ E1].
  apply Z.leb_le in E1, E2. lia.
Qed.

Lemma strptime_valid s d : strptime s = Returned d -> valid_date d.
Proof.
  unfold strptime, valid_date.
  destruct (split s "-") as [|fy [|fm [|fd [|x l]]]]; try discriminate.
  destruct (field_Y fy) as [y|] eqn:EY; [|discriminate].
  destruct (field_m fm) as [m|] eqn:EM; [|discriminate].
  destruct (field_d fd) as [dd|] eqn:ED; [|discriminate].
  destruct ((1 <=? y)%Z && (dd <=? days_in_month y m)%Z)%bool eqn:E;
    [|discriminate].
  intros [= <-]. cbn [year month day].
  apply andb_true_iff in E. destruct E as [E1 E2].
  apply Z.leb_le in E1, E2.
  apply field_small_range in EM.
  assert (1 <= dd)%Z.
  { unfold field_d in ED.
    destruct (explode fd) as [|c1 l];
      [apply field_small_range in ED; lia|].
    destruct c1 as [[] [] [] [] [] [] [] []];
      try (apply field_small_range in ED; lia).
    destruct l as [|c2 [|c3 l3]];
      try (apply field_small_range in ED; lia).
    destruct (is_digit c2 && (1 <=? digit_val c2)%Z)%bool eqn:E3;
      [|discriminate].
    injection ED as <-. apply andb_true_iff in E3. destruct E3 as [_ E3].
    now apply Z.leb_le in E3. }
  lia.
Qed.

Lemma month_cases m :
  (1 <= m <= 12)%Z ->
  m = 1%Z \/ m = 2%Z \/ m = 3%Z \/ m = 4%Z \/ m = 5%Z \/ m = 6%Z \/ m = 7%Z
  \/ m = 8%Z \/ m = 9%Z \/ m = 10%Z \/ m = 11%Z \/ m = 12%Z.
Proof. lia. Qed.

Ltac each_month H :=
  apply month_cases in H;
  repeat (destruct H as [H|H]); subst.

Lemma days_in_year_bound y m :
  (1 <= m <= 12)%Z ->
  (0 <= days_before_month y m
   /\ days_before_month y m + days_in_month y m
      <= 365 + (if is_leap y then 1 else 0))%Z.
Proof.
  intros H. each_month H; unfold days_before_month, days_in_month;
    destruct (is_leap y); vm_compute; split; discriminate.
Qed.

Lemma days_before_later_month y m m' :
  (1 <= m <= 12)%Z -> (1 <= m' <= 12)%Z -> (m < m')%Z ->
  (days_before_month y m + days_in_month y m <= days_before_month y m')%Z.
Proof.
  intros H H' Hlt. each_month H; each_month H'; try lia;
    unfold days_before_month, days_in_month; destruct (is_leap y);
    vm_compute; discriminate.
Qed.

Lemma days_before_next_year y :
  (days_before_year (y + 1)
   = days_before_year y + 365 + (if is_leap y then 1 else 0))%Z.
Proof.
  unfold days_before_year, is_leap.
  replace (y + 1 - 1)%Z with y by lia.
  destruct (Z.eqb_spec (y mod 4) 0), (Z.eqb_spec (y mod 100) 0),
    (Z.eqb_spec (y mod 400) 0); cbn [andb orb negb];
    Z.div_mod_to_equations; lia.
Qed.

Lemma days_before_year_monotone y y' :
  (y <= y')%Z -> (days_before_year y <= days_before_year y')%Z.
Proof.
  intros H. unfold days_before_year. Z.div_mod_to_equations. lia.
Qed.

(** A later date has a larger ordinal. *)
Lemma toordinal_monotone a b :
  valid_date a -> valid_date b -> Datetime.le a b = true ->
  (toordinal a <= toordinal b)%Z.
Proof.
  unfold valid_date, Datetime.le, toordinal.
  destruct a as [y m d], b as [y' m' d']. cbn [year month day].
  intros (Hy & Hm & Hd) (Hy' & Hm' & Hd').
  rewrite !orb_true_iff, !andb_true_iff, !orb_true_iff, !andb_true_iff,
    !Z.ltb_lt, !Z.eqb_eq, !Z.leb_le.
  intros [Hlt|[-> [Hlt|[-> Hle]]]].
  - pose proof (days_in_year_bound y m Hm) as [_ Hb].
    pose proof (days_in_year_bound y' m' Hm') as [Hb' _].
    pose proof (days_before_next_year y) as Hn.
    pose proof (days_before_year_monotone (y + 1) y' ltac:(lia)).
    lia.
  - pose proof (days_before_later_month y' m m' Hm Hm' Hlt). lia.
  - lia.
Qed.

(** ** The data period and the gaps *)

Lemma last_cons {A} (e : A) ds d : last (e :: ds) d = last ds e.
Proof.
  revert e d. induction ds as [|x ds IH]; intros e d; [reflexivity|].
  change (last (e :: x :: ds) d) with (last (x :: ds) d).
  now rewrite (IH x d), (IH x e).
Qed.

Lemma gaps_telescope d ds :
  sumZ (gaps_of (d :: ds)) = days_between (last ds d) d.
Proof.
  revert d. induction ds as [|e ds IH]; intros d.
  - cbn. unfold days_between. lia.
  - change (gaps_of (d :: e :: ds))
      with (days_between e d :: gaps_of (e :: ds)).
    rewrite sumZ_cons, IH, last_cons.
    unfold days_between. lia.
Qed.

(** On a sorted list the scan for the minimum keeps the first date and
    the scan for the maximum ends on the last one. *)
Lemma min_date_sorted d ds :
  StronglySorted (fun a b => Datetime.le a b = true) (d :: ds) ->
  min_date d ds = d.
Proof.
  intros H. apply StronglySorted_inv in H. destruct H as [_ H].
  induction ds as [|e ds IH]; [reflexivity|].
  cbn [min_date]. inversion H as [|? ? He Hds]; subst.
  unfold Datetime.lt. rewrite He. cbn [negb]. now apply IH.
Qed.

Lemma max_date_sorted d ds :
  StronglySorted (fun a b => Datetime.le a b = true) (d :: ds) ->
  max_date d ds = last ds d.
Proof.
  revert d. induction ds as [|e ds IH]; intros d H; [reflexivity|].
  cbn [max_date]. rewrite last_cons.
  apply StronglySorted_inv in H. destruct H as [Hs H].
  inversion H as [|? ? He Hds]; subst.
  unfold Datetime.lt. destruct (Datetime.le e d) eqn:E; cbn [negb].
  - assert (e = d) as -> by now apply datetime_le_antisym.
    now apply IH.
  - now apply IH.
Qed.

Lemma gaps_nonneg ds :
  StronglySorted (fun a b => Datetime.le a b = true) ds ->
  Forall valid_date ds ->
  Forall (fun g => (0 <= g)%Z) (gaps_of ds).
Proof.
  induction 1 as [|d ds Hs IH Hd]; intros Hv; [constructor|].
  destruct ds as [|e ds]; [constructor|].
  change (gaps_of (d :: e :: ds)) with (days_between e d :: gaps_of (e :: ds)).
  inversion Hv as [|? ? Hvd Hve]; subst.
  constructor; [|now apply IH].
  inversion Hd as [|? ? Hde _]; subst. inversion Hve; subst.
  pose proof (toordinal_monotone d e Hvd ltac:(assumption) Hde).
  unfold days_between. lia.
Qed.

Lemma sumZ_nonneg l : Forall (fun g => (0 <= g)%Z) l -> (0 <= sumZ l)%Z.
Proof.
  induction 1 as [|x l Hx _ IH]; [reflexivity|]. rewrite sumZ_cons. lia.
Qed.

Lemma mapM_strptime_valid l ds :
  mapM (fun x : run => strptime (date x)) l = Returned ds ->
  Forall valid_date ds.
Proof.
  revert ds. induction l as [|x l IH]; intros ds; cbn [mapM].
  - intros [= <-]. constructor.
  - destruct (strptime (date x)) as [d|] eqn:E; cbn [bind]; [|discriminate].
    destruct (mapM _ l) as [ds'|]; cbn [bind]; [|discriminate].
    intros [= <-]. constructor; [now apply strptime_valid with (date x)|].
    now apply IH.
Qed.

Lemma data_period_sum (runs : list run) (p : profile) :
  profile_of runs = Some p ->
  exists ds,
    sorted_dates runs = Returned ds
    /\ data_period_days p = sumZ (gaps_of ds).
Proof.
  intros H. destruct (profile_of_inv runs p H) as (r & rs & ds & -> & Hds & Hp).
  destruct (analyze_profile r rs ds Hds)
    as (q & Hq & _ & _ & _ & _ & _ & Hd & _).
  rewrite Hp in Hq. injection Hq as <-.
  exists (sort Datetime.le ds). unfold sorted_dates. rewrite Hds. cbn [bind].
  split; [reflexivity|].
  pose proof (sort_sorted Datetime.le datetime_le_total datetime_le_trans ds)
    as Hs.
  rewrite Hd. destruct (sort Datetime.le ds) as [|d ds'] eqn:E;
    [reflexivity|].
  rewrite gaps_telescope, min_date_sorted, max_date_sorted by exact Hs.
  reflexivity.
Qed.

Lemma sorted_dates_valid (runs : list run) ds :
  sorted_dates runs = Returned ds ->
  StronglySorted (fun a b => Datetime.le a b = true) ds
  /\ Forall valid_date ds.
Proof.
  unfold sorted_dates.
  destruct (mapM (fun x : run => strptime (date x)) runs) as [l|] eqn:E;
    cbn [bind]; [|discriminate].
  intros [= <-]. split.
  - apply sort_sorted; [exact datetime_le_total|exact datetime_le_trans].
  - eapply Permutation_Forall; [symmetry; apply sort_permutation|].
    now apply mapM_strptime_valid with runs.
Qed.

(** X10: the data period of a profile is the sum of the day gaps between
    consecutive sorted dates, that is the days from the earliest to the
    latest run; no gap is negative, nor the period, nor the average gap. *)
Theorem data_period_is_sum_of_gaps (runs : list run) (p : profile) :
  profile_of runs = Some p ->
  exists ds,
    sorted_dates runs = Returned ds
    /\ data_period_days p = sumZ (gaps_of ds)
    /\ Forall (fun g => (0 <= g)%Z) (gaps_of ds)
    /\ (0 <= data_period_days p)%Z
    /\ 0 <= average_gap (gaps_of ds).
Proof.
  intros H. destruct (data_period_sum runs p H) as (ds & Hs & Hsum).
  exists ds. split; [exact Hs|]. split; [exact Hsum|].
  destruct (sorted_dates_valid runs ds Hs) as [Hsorted Hv].
  pose proof (gaps_nonneg _ Hsorted Hv) as Hg.
  pose proof (sumZ_nonneg _ Hg) as H0.
  split; [exact Hg|]. split; [lia|].
  unfold average_gap. destruct (gaps_of ds) as [|g gs] eqn:E; [lra|].
  apply Qle_shift_div_l.
  - change 0 with (inject_Z 0). rewrite <- Zlt_Qlt. cbn [List.length]. lia.
  - rewrite Qmult_0_l. change 0 with (inject_Z 0). now rewrite <- Zle_Qle.
Qed.

Lemma data_period_is_sum_of_gaps_witness :
  exists p ds,
    profile_of sample_runs = Some p
    /\ sorted_dates sample_runs = Returned ds
    /\ data_period_days p = sumZ (gaps_of ds)
    /\ (0 <= data_period_days p)%Z.
Proof.
  eexists.
  destruct (data_period_is_sum_of_gaps sample_runs _ eq_refl)
    as (ds & H1 & H2 & _ & H4 & _).
  exists ds. split; [reflexivity|]. split; [exact H1|].
  split; [exact H2|exact H4].
Defined.

(** ** The peak mileage *)

Lemma max_safe_mileage_capped weeks m level :
  max_safe_mileage weeks m level <= level_cap level
  /\ max_safe_mileage weeks m level <= m * peak_multipliers weeks.
Proof.
  unfold max_safe_mileage, level_cap.
  pose proof (min_le_l (m * peak_multipliers weeks) 70).
  pose proof (min_le_r (m * peak_multipliers weeks) 70).
  destruct (String.eqb level "Beginner");
    [|destruct (String.eqb level "Beginner+")].
  - pose proof (min_le_l (min (m * peak_multipliers weeks) 70) 40).
    pose proof (min_le_r (min (m * peak_multipliers weeks) 70) 40). lra.
  - pose proof (min_le_l (min (m * peak_multipliers weeks) 70) 50).
    pose proof (min_le_r (min (m * peak_multipliers weeks) 70) 50). lra.
  - lra.
Qed.

Lemma peak_multipliers_above_one weeks : 1 < peak_multipliers weeks.
Proof.
  unfold peak_multipliers.
  destruct (weeks =? 16)%Z, (weeks =? 12)%Z, (weeks =? 8)%Z, (weeks =? 4)%Z;
    reflexivity.
Qed.

Lemma max_safe_mileage_against_base weeks m level :
  0 <= m ->
  (m <= level_cap level -> m <= max_safe_mileage weeks m level)
  /\ (level_cap level < m -> max_safe_mileage weeks m level < m).
Proof.
  intros Hm. pose proof (peak_multipliers_above_one weeks) as H1.
  assert (Hmul : m <= m * peak_multipliers weeks).
  { rewrite <- (Qmult_1_r m) at 1. rewrite !(Qmult_comm m).
    apply Qmult_le_compat_r; lra. }
  pose proof (max_safe_mileage_capped weeks m level) as [Hc _].
  split; [|lra].
  unfold max_safe_mileage, level_cap.
  destruct (String.eqb level "Beginner");
    [|destruct (String.eqb level "Beginner+")];
    intros; repeat apply min_glb; lra.
Qed.

Lemma level_cap_at_most_70 level : level_cap level <= 70.
Proof.
  unfold level_cap.
  destruct (String.eqb level "Beginner");
    [|destruct (String.eqb level "Beginner+")]; lra.
Qed.

Lemma round1_of_cap level : round (level_cap level) 1 == level_cap level.
Proof.
  unfold level_cap.
  destruct (String.eqb level "Beginner");
    [|destruct (String.eqb level "Beginner+")]; reflexivity.
Qed.

Lemma generate_peak weeks fd goal plan :
  generate_training_plan weeks fd goal = Returned plan ->
  peak_weekly_mileage plan =
    round (max_safe_mileage weeks (current_weekly_mileage plan)
             (plan_fitness_level plan)) 1
  /\ timeline_weeks plan = weeks
  /\ goal_marathon_time plan = goal.
Proof.
  unfold generate_training_plan.
  destruct (_calculate_pace_targets fd goal) as [pt|e]; cbn [bind];
    [|discriminate].
  intros H. injection H as <-. repeat split.
Qed.

(** X11: the peak weekly mileage of a plan never exceeds the cap of the
    fitness level, 40 for Beginner, 50 for Beginner+ and 70 otherwise;
    for a non-negative current mileage it is not negative, and the peak
    the schedule is built on is at least the current mileage exactly when
    the current mileage is within the cap: a runner above the cap is given
    a peak below the current mileage. *)
Theorem peak_mileage_is_capped
        (weeks : Z) (fd : fitness_data) (goal : option string)
        (plan : training_plan) :
  generate_training_plan weeks fd goal = Returned plan ->
  let base := current_weekly_mileage plan in
  let level := plan_fitness_level plan in
  peak_weekly_mileage plan <= level_cap level
  /\ level_cap level <= 70
  /\ (0 <= base ->
      0 <= peak_weekly_mileage plan
      /\ (base <= level_cap level -> base <= max_safe_mileage weeks base level)
      /\ (level_cap level < base -> max_safe_mileage weeks base level < base)).
Proof.
  intros Hplan base level.
  destruct (generate_peak weeks fd goal plan Hplan) as (Hp & _).
  fold base level in Hp. rewrite Hp.
  pose proof (max_safe_mileage_capped weeks base level) as [Hc _].
  split.
  - rewrite <- (round1_of_cap level). now apply round1_monotone.
  - split; [apply level_cap_at_most_70|].
    intros Hb. split.
    + apply round1_nonneg. now apply max_safe_mileage_nonneg.
    + now apply max_safe_mileage_against_base.
Qed.

Lemma peak_mileage_is_capped_witness :
  exists plan,
    generate_training_plan 16 sample_data None = Returned plan
    /\ peak_weekly_mileage plan <= level_cap (plan_fitness_level plan)
    /\ 0 <= peak_weekly_mileage plan.
Proof.
  eexists. split; [reflexivity|].
  destruct (peak_mileage_is_capped 16 sample_data None _ eq_refl)
    as (H1 & _ & H3).
  split; [exact H1|].
  destruct H3 as (H3 & _); [vm_compute; discriminate|exact H3].
Defined.

(** ** The pace zones *)

Lemma round_monotone n x y : x <= y -> round x n <= round y n.
Proof.
  intros H. unfold round.
  assert (Hs : 0 < inject_Z (10 ^ Z.of_nat n)).
  { change 0 with (inject_Z 0). rewrite <- Zlt_Qlt.
    apply Z.pow_pos_nonneg; lia. }
  set (s := inject_Z (10 ^ Z.of_nat n)) in *.
  assert (Hz : (round_half_even (x * s) <= round_half_even (y * s))%Z).
  { apply round_half_even_monotone. apply Qmult_le_compat_r; lra. }
  rewrite Zle_Qle in Hz. unfold Qdiv.
  apply Qmult_le_compat_r; [exact Hz|].
  apply Qlt_le_weak. now apply Qinv_lt_0_compat.
Qed.

Lemma Qdiv_nonneg a c : 0 <= a -> 0 < c -> 0 <= a / c.
Proof.
  intros Ha Hc. unfold Qdiv. apply Qmult_le_0_compat; [exact Ha|].
  apply Qlt_le_weak. now apply Qinv_lt_0_compat.
Qed.

Lemma Qplus_nonneg a b : 0 <= a -> 0 <= b -> 0 <= a + b.
Proof. intros. lra. Qed.

Lemma pace_zones_of_goal_pace g :
  0 <= g ->
  round (g * 0.85) 2 <= round (g * 0.92) 2
  /\ round (g * 0.92) 2 <= round g 2
  /\ round g 2 <= round (g * 1.10) 2
  /\ round (g * 1.10) 2 <= round (g * 1.15) 2.
Proof.
  intros H. repeat split; apply round_monotone; lra.
Qed.

(** X12: the pace zones of a plan are ordered, interval, tempo, goal,
    long run, easy from the fastest to the slowest, when the goal pace
    they are derived from is finite and not negative: without a goal
    time, when the current average pace is not negative; with a goal
    time, when its three fields are finite and not negative. *)
Theorem pace_zones_are_ordered
        (weeks : Z) (fd : fitness_data) (goal : option string)
        (plan : training_plan) :
  generate_training_plan weeks fd goal = Returned plan ->
  (given goal = None ->
   0 <= match fd_average_pace fd with Some p => p | None => 9.0 end ->
   pace_zones_ordered (plan_pace_targets plan))
  /\ (forall s h m sec,
        given goal = Some s ->
        goal_time_fields s = Some (Fin h, Fin m, Fin sec) ->
        0 <= h -> 0 <= m -> 0 <= sec ->
        pace_zones_ordered (plan_pace_targets plan)).
Proof.
  intros Hplan.
  destruct (generate_fields weeks fd goal plan Hplan)
    as (_ & _ & _ & _ & _ & _ & Hpt).
  split.
  - intros G Hc. unfold _calculate_pace_targets in Hpt. rewrite G in Hpt.
    cbn [bind] in Hpt. injection Hpt as <-.
    unfold pace_zones_ordered.
    cbn [interval_pace tempo_pace goal_marathon_pace long_run_pace easy_pace
           fround fscale].
    apply pace_zones_of_goal_pace.
    apply Qmult_le_0_compat; [exact Hc|discriminate].
  - intros s h m sec G F Hh Hm Hs.
    unfold _calculate_pace_targets in Hpt. rewrite G in Hpt.
    unfold goal_time_fields in F.
    destruct (split s ":") as [|a [|b [|c rest]]]; try discriminate.
    cbn [index nth_error bind] in Hpt. unfold float in Hpt.
    destruct (parse_float a), (parse_float b), (parse_float c);
      try discriminate.
    injection F as -> -> ->. cbn [bind] in Hpt. injection Hpt as <-.
    unfold pace_zones_ordered.
    cbn [interval_pace tempo_pace goal_marathon_pace long_run_pace easy_pace
           fround fscale fdiv fadd].
    apply pace_zones_of_goal_pace.
    repeat first [ apply Qdiv_nonneg; [|reflexivity]
                 | apply Qmult_le_0_compat; [|discriminate]
                 | apply Qplus_nonneg ];
      assumption.
Qed.

Lemma pace_zones_are_ordered_witness :
  exists plan,
    generate_training_plan 16 sample_data (Some "3:45:00") = Returned plan
    /\ pace_zones_ordered (plan_pace_targets plan).
Proof.
  eexists. split; [reflexivity|].
  apply (proj2 (pace_zones_are_ordered 16 sample_data (Some "3:45:00") _ eq_refl)
           "3:45:00" 3 45 0);
    try reflexivity; vm_compute; discriminate.
Defined.

(** ** The fields of the goal time *)

Lemma explode_append s t : explode (s ++ t)%string = explode s ++ explode t.
Proof.
  unfold explode. induction s as [|c s IH]; [reflexivity|].
  cbn. now rewrite IH.
Qed.

Lemma split_chars_separator sep cur l1 l2 :
  split_chars sep cur (l1 ++ sep :: l2) =
  split_chars sep cur l1 ++ split_chars sep [] l2.
Proof.
  revert cur. induction l1 as [|c l1 IH]; intros cur; cbn [app split_chars].
  - now rewrite Ascii.eqb_refl.
  - destruct (Ascii.eqb c sep); cbn [app]; now rewrite IH.
Qed.

Lemma split_append s t :
  split (s ++ ":" ++ t)%string ":" = split s ":" ++ split t ":".
Proof.
  unfold split. rewrite explode_append.
  change (explode (":" ++ t)%string) with (":"%char :: explode t).
  apply split_chars_separator.
Qed.

Lemma split_nonempty_string s :
  (2 <= List.length (split s ":"))%nat -> s <> ""%string.
Proof. intros H ->. cbn in H. lia. Qed.

(** X13: only the first three fields of a goal time are read: whatever
    follows a third colon changes neither the pace targets nor the
    failure. *)
Theorem goal_time_extra_fields_are_ignored
        (fd : fitness_data) (s t : string) :
  (3 <= List.length (split s ":"))%nat ->
  _calculate_pace_targets fd (Some (s ++ ":" ++ t)%string) =
  _calculate_pace_targets fd (Some s).
Proof.
  intros H.
  assert (Hs : s <> ""%string) by (apply split_nonempty_string; lia).
  assert (Hst : (s ++ ":" ++ t)%string <> ""%string)
    by (destruct s; [congruence|discriminate]).
  unfold _calculate_pace_targets.
  replace (given (Some (s ++ ":" ++ t)%string))
    with (Some (s ++ ":" ++ t)%string)
    by (unfold given; destruct (s ++ ":" ++ t)%string; congruence).
  replace (given (Some s)) with (Some s)
    by (unfold given; destruct s; congruence).
  rewrite split_append.
  destruct (split s ":") as [|a [|b [|c rest]]]; cbn [List.length] in H;
    try lia.
  reflexivity.
Qed.

Lemma goal_time_extra_fields_are_ignored_witness :
  _calculate_pace_targets sample_data (Some ("3:45:00" ++ ":" ++ "99")%string) =
  _calculate_pace_targets sample_data (Some "3:45:00").
Proof.
  apply (goal_time_extra_fields_are_ignored sample_data "3:45:00" "99").
  vm_compute. lia.
Defined.

(** ** Week by week *)

Lemma in_schedule_labels weeks base peak level e :
  In e (_generate_weekly_schedule weeks base peak level) ->
  focus e = _get_week_focus (week e) weeks
  /\ key_workout e = _get_key_workout (week e) weeks level.
Proof.
  unfold _generate_weekly_schedule. rewrite in_map_iff.
  intros (w & <- & _). split; reflexivity.
Qed.

Lemma progression_length_any weeks base peak :
  (Z.to_nat weeks <= List.length (mileage_progression_of weeks base peak))%nat.
Proof.
  destruct (Z.le_gt_cases 2 weeks) as [H|H].
  - rewrite progression_length by exact H. lia.
  - unfold mileage_progression_of.
    destruct (Z.leb_spec 12 weeks); [lia|].
    rewrite length_app. cbn [List.length]. lia.
Qed.

(** X14: every week of a schedule takes its mileage from the mileage
    progression, at the position of its number: the progression never
    runs out, so the current mileage is never used as a stand-in. *)
Theorem schedule_reads_the_progression
        (weeks : Z) (base peak : Q) (level : string) (e : week_entry) :
  In e (_generate_weekly_schedule weeks base peak level) ->
  (week e <= Z.of_nat (List.length (mileage_progression_of weeks base peak)))%Z
  /\ nth_error (mileage_progression_of weeks base peak)
       (Z.to_nat (week e - 1)) = Some (total_miles e).
Proof.
  intros He. apply in_schedule in He. destruct He as [Hw ->].
  pose proof (progression_length_any weeks base peak) as Hl.
  split; [lia|].
  unfold miles_of_week.
  destruct (Z.leb_spec (week e)
              (Z.of_nat (List.length (mileage_progression_of weeks base peak))));
    [|lia].
  apply nth_error_nth'. lia.
Qed.

Lemma schedule_reads_the_progression_witness :
  exists e,
    In e (_generate_weekly_schedule 4 20 24 "Beginner")
    /\ nth_error (mileage_progression_of 4 20 24) (Z.to_nat (week e - 1))
       = Some (total_miles e).
Proof.
  eexists. split; [left; reflexivity|].
  eapply (schedule_reads_the_progression 4 20 24 "Beginner").
  left. reflexivity.
Defined.

(** X15: in every schedule the weeks after week [weeks - 2], the last
    two, and only they, have the focus "Taper & recovery" and the key
    workout "Easy pace runs only". *)
Theorem last_two_weeks_are_easy
        (weeks : Z) (base peak : Q) (level : string) (e : week_entry) :
  In e (_generate_weekly_schedule weeks base peak level) ->
  if (weeks - 2 <? week e)%Z
  then focus e = "Taper & recovery" /\ key_workout e = "Easy pace runs only"
  else focus e <> "Taper & recovery" /\ key_workout e <> "Easy pace runs only".
Proof.
  intros He. destruct (in_schedule_labels _ _ _ _ _ He) as [-> ->].
  apply in_schedule in He. destruct He as [Hw _].
  unfold _get_week_focus, _get_key_workout.
  destruct (Z.ltb_spec (weeks - 2) (week e)) as [Hlate|Hearly].
  - split; [|reflexivity].
    destruct (Z.leb_spec 12 weeks).
    + destruct (Z.leb_spec (week e) 6); [lia|].
      destruct (Z.leb_spec (week e) (weeks - 4)); [lia|].
      destruct (Z.leb_spec (week e) (weeks - 2)); [lia|]. reflexivity.
    + destruct (Z.leb_spec (week e) (weeks - 2)); [lia|]. reflexivity.
  - split.
    + destruct (Z.leb_spec 12 weeks).
      * destruct (Z.leb_spec (week e) 6); [discriminate|].
        destruct (Z.leb_spec (week e) (weeks - 4)); [discriminate|].
        destruct (Z.leb_spec (week e) (weeks - 2)); [discriminate|lia].
      * destruct (Z.leb_spec (week e) (weeks - 2)); [discriminate|lia].
    + assert (Hm : (0 <= (week e - 1) mod 3 < 3)%Z)
        by (apply Z.mod_pos_bound; lia).
      assert (Hc : ((week e - 1) mod 3 = 0 \/ (week e - 1) mod 3 = 1
                    \/ (week e - 1) mod 3 = 2)%Z) by lia.
      destruct (existsb (String.eqb level) ["Beginner"]);
        destruct Hc as [-> | [-> | ->]]; discriminate.
Qed.

Lemma last_two_weeks_are_easy_witness :
  exists e,
    In e (_generate_weekly_schedule 4 20 24 "Beginner")
    /\ focus e = "Taper & recovery" /\ key_workout e = "Easy pace runs only".
Proof.
  exists {| week := 4; total_miles := round (20 * 0.5) 1;
            focus := "Taper & recovery";
            key_workout := "Easy pace runs only" |}.
  split; [right; right; right; left; reflexivity|].
  apply (last_two_weeks_are_easy 4 20 24 "Beginner"
           {| week := 4; total_miles := round (20 * 0.5) 1;
              focus := "Taper & recovery";
              key_workout := "Easy pace runs only" |}).
  right; right; right; left; reflexivity.
Defined.

(** ** The build-up of a long timeline *)

Lemma inject_Z_nonneg z : (0 <= z)%Z -> 0 <= inject_Z z.
Proof. intros H. change 0 with (inject_Z 0). now rewrite <- Zle_Qle. Qed.

Lemma build_week_value_monotone base peak n k k' :
  base <= peak -> (0 < n)%Z -> (0 <= k <= k')%Z ->
  base + (peak - base) / inject_Z n * inject_Z k
  <= base + (peak - base) / inject_Z n * inject_Z k'.
Proof.
  intros Hbp Hn Hk.
  assert (Hinc : 0 <= (peak - base) / inject_Z n).
  { apply Qdiv_nonneg; [lra|].
    change 0 with (inject_Z 0). now rewrite <- Zlt_Qlt. }
  assert (Hkk : inject_Z k <= inject_Z k') by (rewrite <- Zle_Qle; lia).
  set (inc := (peak - base) / inject_Z n) in *.
  assert (inc * inject_Z k <= inc * inject_Z k').
  { rewrite !(Qmult_comm inc). now apply Qmult_le_compat_r. }
  lra.
Qed.

Lemma build_week_value_at_end base peak n :
  (0 < n)%Z ->
  base + (peak - base) / inject_Z n * inject_Z n == peak.
Proof.
  intros Hn.
  assert (HN : 0 < inject_Z n)
    by (change 0 with (inject_Z 0); now rewrite <- Zlt_Qlt).
  unfold Qdiv. rewrite <- Qmult_assoc, (Qmult_comm (/ inject_Z n)).
  rewrite Qmult_inv_r by lra. ring.
Qed.

Lemma build_week_value_before_end base peak n k :
  (0 < n)%Z -> (k <= n - 1)%Z -> base <= peak ->
  base + (peak - base) / inject_Z n * inject_Z k
  <= peak - (peak - base) / inject_Z n.
Proof.
  intros Hn Hk Hbp.
  assert (Hinc : 0 <= (peak - base) / inject_Z n).
  { apply Qdiv_nonneg; [lra|].
    change 0 with (inject_Z 0). now rewrite <- Zlt_Qlt. }
  pose proof (build_week_value_at_end base peak n Hn) as He.
  assert (Hkk : inject_Z k <= inject_Z n - 1).
  { assert (inject_Z k + 1 <= inject_Z n); [|lra].
    change 1 with (inject_Z 1). rewrite <- inject_Z_plus, <- Zle_Qle. lia. }
  set (inc := (peak - base) / inject_Z n) in *.
  assert (inc * inject_Z k <= inc * (inject_Z n - 1)).
  { rewrite !(Qmult_comm inc). now apply Qmult_le_compat_r. }
  lra.
Qed.

Lemma miles_of_long_taper_week weeks base peak j :
  (12 <= weeks)%Z -> (j < 4)%nat ->
  miles_of_week weeks base peak (weeks - 3 + Z.of_nat j) =
  nth j [ round (peak * 0.8) 1; round (peak * 0.6) 1;
          round (peak * 0.4) 1; round (peak * 0.3) 1 ] base.
Proof.
  intros Hw Hj. unfold miles_of_week.
  rewrite progression_length by lia.
  destruct (Z.leb_spec (weeks - 3 + Z.of_nat j) (Z.of_nat (Z.to_nat weeks)));
    [|lia].
  unfold mileage_progression_of.
  destruct (Z.leb_spec 12 weeks); [|lia].
  rewrite app_nth2 by (rewrite length_map, length_range; lia).
  rewrite length_map, length_range.
  replace (Z.to_nat (weeks - 3 + Z.of_nat j - 1) - Z.to_nat (weeks - 4))%nat
    with j by lia.
  reflexivity.
Qed.

(** X16: on a timeline of 12 weeks or more whose peak is not below the
    current mileage, the mileage does not decrease from week to week over
    the build-up, no week of the plan exceeds the peak weekly mileage the
    plan reports, and when the weekly increment is more than a tenth of a
    mile every week stays strictly below that peak: the build-up stops one
    increment short of it. *)
Theorem build_up_rises_below_the_peak
        (weeks : Z) (fd : fitness_data) (goal : option string)
        (plan : training_plan) :
  generate_training_plan weeks fd goal = Returned plan ->
  (12 <= weeks)%Z ->
  let base := current_weekly_mileage plan in
  let peak := max_safe_mileage weeks base (plan_fitness_level plan) in
  0 <= base -> base <= peak ->
  (forall e e', In e (weekly_schedule plan) -> In e' (weekly_schedule plan) ->
                (week e <= week e' <= weeks - 4)%Z ->
                total_miles e <= total_miles e')
  /\ (forall e, In e (weekly_schedule plan) ->
                total_miles e <= peak_weekly_mileage plan)
  /\ ((1 # 10) < (peak - base) / inject_Z (weeks - 4) ->
      forall e, In e (weekly_schedule plan) ->
                total_miles e < peak_weekly_mileage plan).
Proof.
  intros Hplan Hw base peak Hb Hbp.
  destruct (generate_fields weeks fd goal plan Hplan) as (_ & _ & Hs & _).
  destruct (generate_peak weeks fd goal plan Hplan) as (Hp & _).
  fold base in Hs, Hp. fold peak in Hs, Hp. rewrite Hs, Hp.
  assert (Hpk : 0 <= peak) by lra.
  assert (Hbuild : forall w, (1 <= w <= weeks - 4)%Z ->
            base + (peak - base) / inject_Z (weeks - 4) * inject_Z (w - 1)
            <= peak - (peak - base) / inject_Z (weeks - 4))
    by (intros w Hwk; apply build_week_value_before_end; [lia|lia|exact Hbp]).
  assert (Hinc : 0 <= (peak - base) / inject_Z (weeks - 4)).
  { apply Qdiv_nonneg; [lra|].
    change 0 with (inject_Z 0). rewrite <- Zlt_Qlt. lia. }
  assert (Hall : forall e,
            In e (_generate_weekly_schedule weeks base peak
                    (plan_fitness_level plan)) ->
            total_miles e
            <= round (peak - (peak - base) / inject_Z (weeks - 4)) 1
            \/ total_miles e <= round (peak * 0.8) 1).
  { intros e He. apply in_schedule in He. destruct He as [Hwk ->].
    destruct (Z.le_gt_cases (week e) (weeks - 4)) as [Hin|Hout].
    - left. rewrite miles_of_build_week by lia.
      apply round1_monotone. apply Hbuild. lia.
    - right. apply miles_of_taper_week_long; [lia|lia|exact Hpk]. }
  split; [|split].
  - intros e e' He He' Hwk.
    apply in_schedule in He, He'.
    destruct He as [Hwe ->], He' as [Hwe' ->].
    rewrite !miles_of_build_week by lia.
    apply round1_monotone. apply build_week_value_monotone; [exact Hbp|lia|lia].
  - intros e He. destruct (Hall e He) as [H|H].
    + apply Qle_trans with (1 := H). apply round1_monotone. lra.
    + apply Qle_trans with (1 := H). apply round1_monotone. lra.
  - intros Hgap e He.
    assert (Hpos : (1 # 2) < peak).
    { assert (8 <= inject_Z (weeks - 4))
        by (change 8 with (inject_Z 8); rewrite <- Zle_Qle; lia).
      pose proof (build_week_value_at_end base peak (weeks - 4) ltac:(lia)) as E.
      set (inc := (peak - base) / inject_Z (weeks - 4)) in *.
      assert (inc * 8 <= inc * inject_Z (weeks - 4))
        by (rewrite !(Qmult_comm inc); apply Qmult_le_compat_r; lra).
      lra. }
    destruct (Hall e He) as [H|H].
    + apply Qle_lt_trans with (1 := H). apply round1_separates. lra.
    + apply Qle_lt_trans with (1 := H). apply round1_separates. lra.
Qed.

Lemma build_up_rises_below_the_peak_witness :
  exists plan,
    generate_training_plan 16 sample_data None = Returned plan
    /\ (forall e, In e (weekly_schedule plan) ->
                  total_miles e < peak_weekly_mileage plan).
Proof.
  eexists. split; [reflexivity|].
  destruct (build_up_rises_below_the_peak 16 sample_data None _ eq_refl)
    as (_ & _ & H); try (vm_compute; discriminate).
  apply H. reflexivity.
Defined.

(** X17: on a timeline of 12 weeks or more the mileage is cut two weeks
    before the focus says so: weeks [weeks - 3] and [weeks - 2] have the
    focus "Race pace" at 0.8 and 0.6 of the peak (rounded to a decimal),
    and the two weeks after them "Taper & recovery" at 0.4 and 0.3. *)
Theorem race_pace_weeks_have_taper_mileage
        (weeks : Z) (base peak : Q) (level : string) (e : week_entry) :
  (12 <= weeks)%Z ->
  In e (_generate_weekly_schedule weeks base peak level) ->
  (week e = weeks - 3 ->
   focus e = "Race pace" /\ total_miles e = round (peak * 0.8) 1)%Z
  /\ (week e = weeks - 2 ->
      focus e = "Race pace" /\ total_miles e = round (peak * 0.6) 1)%Z
  /\ (week e = weeks - 1 ->
      focus e = "Taper & recovery" /\ total_miles e = round (peak * 0.4) 1)%Z
  /\ (week e = weeks ->
      focus e = "Taper & recovery" /\ total_miles e = round (peak * 0.3) 1)%Z.
Proof.
  intros Hw He.
  destruct (in_schedule_labels _ _ _ _ _ He) as [Hf _].
  apply in_schedule in He. destruct He as [_ Hm].
  rewrite Hf, Hm. unfold _get_week_focus.
  destruct (Z.leb_spec 12 weeks); [|lia].
  repeat split.
  - rewrite H0. destruct (Z.leb_spec (weeks - 3) 6); [lia|].
    destruct (Z.leb_spec (weeks - 3) (weeks - 4)); [lia|].
    destruct (Z.leb_spec (weeks - 3) (weeks - 2)); [reflexivity|lia].
  - rewrite H0.
    pose proof (miles_of_long_taper_week weeks base peak 0 Hw ltac:(lia)) as E.
    replace (weeks - 3 + Z.of_nat 0)%Z with (weeks - 3)%Z in E by lia. exact E.
  - rewrite H0. destruct (Z.leb_spec (weeks - 2) 6); [lia|].
    destruct (Z.leb_spec (weeks - 2) (weeks - 4)); [lia|].
    destruct (Z.leb_spec (weeks - 2) (weeks - 2)); [reflexivity|lia].
  - rewrite H0.
    pose proof (miles_of_long_taper_week weeks base peak 1 Hw ltac:(lia)) as E.
    replace (weeks - 3 + Z.of_nat 1)%Z with (weeks - 2)%Z in E by lia. exact E.
  - rewrite H0. destruct (Z.leb_spec (weeks - 1) 6); [lia|].
    destruct (Z.leb_spec (weeks - 1) (weeks - 4)); [lia|].
    destruct (Z.leb_spec (weeks - 1) (weeks - 2)); [lia|reflexivity].
  - rewrite H0.
    pose proof (miles_of_long_taper_week weeks base peak 2 Hw ltac:(lia)) as E.
    replace (weeks - 3 + Z.of_nat 2)%Z with (weeks - 1)%Z in E by lia. exact E.
  - rewrite H0. destruct (Z.leb_spec weeks 6); [lia|].
    destruct (Z.leb_spec weeks (weeks - 4)); [lia|].
    destruct (Z.leb_spec weeks (weeks - 2)); [lia|reflexivity].
  - rewrite H0.
    pose proof (miles_of_long_taper_week weeks base peak 3 Hw ltac:(lia)) as E.
    replace (weeks - 3 + Z.of_nat 3)%Z with weeks in E by lia. exact E.
Qed.

Lemma race_pace_weeks_have_taper_mileage_witness :
  exists e,
    In e (_generate_weekly_schedule 12 30 48 "Intermediate")
    /\ week e = 9%Z
    /\ focus e = "Race pace" /\ total_miles e = round (48 * 0.8) 1.
Proof.
  exists {| week := 9; total_miles := round (48 * 0.8) 1;
            focus := "Race pace"; key_workout := "Long run with pickups" |}.
  assert (Hin : In {| week := 9; total_miles := round (48 * 0.8) 1;
                      focus := "Race pace";
                      key_workout := "Long run with pickups" |}
                  (_generate_weekly_schedule 12 30 48 "Intermediate"))
    by (do 8 right; left; reflexivity).
  split; [exact Hin|]. split; [reflexivity|].
  apply (race_pace_weeks_have_taper_mileage 12 30 48 "Intermediate" _
           ltac:(discriminate) Hin).
  reflexivity.
Defined.

(** ** The weekly template *)

(** X18: whatever the fitness level, known or not, the weekly template
    has seven sessions and ends with the long run; the number of runs per
    week it announces is the number of its sessions that are not rest for
    Beginner, Beginner+ and the labels that name no tier, and one less
    than that for Intermediate, Intermediate+ and Advanced. *)
Theorem weekly_structure_has_seven_sessions (level : string) :
  let ws := _create_weekly_structure level in
  List.length (structure ws) = 7%nat
  /\ last (structure ws) "" = "Long Run"
  /\ Z.of_nat (run_slots ws) =
       (if existsb (String.eqb level)
             ["Intermediate"; "Intermediate+"; "Advanced"]
        then runs_per_week ws + 1
        else runs_per_week ws)%Z.
Proof.
  unfold _create_weekly_structure, structures, run_slots.
  cbn [dict_get existsb].
  destruct (String.eqb_spec level "Beginner") as [->|H1]; [repeat split|].
  destruct (String.eqb_spec level "Beginner+") as [->|H2]; [repeat split|].
  destruct (String.eqb_spec level "Intermediate") as [->|H3]; [repeat split|].
  destruct (String.eqb_spec level "Intermediate+") as [->|H4]; [repeat split|].
  destruct (String.eqb_spec level "Advanced") as [->|H5]; [repeat split|].
  repeat split.
Qed.

(** ** The long runs *)

Lemma long_run_level_from_start start i :
  start <= long_run_level start i
  /\ long_run_level start i <= long_run_level start (S i).
Proof.
  induction i as [|i [IH1 IH2]].
  - split.
    + cbn [long_run_level]. destruct (ltb start 20); lra.
    + cbn [long_run_level Nat.even andb].
      destruct (ltb start 20); lra.
  - split; [lra|].
    change (long_run_level start (S (S i)))
      with (if Nat.even (S (S i)) && ltb (long_run_level start (S i)) 20
            then long_run_level start (S i) + 2
            else long_run_level start (S i)).
    destruct (Nat.even (S (S i)) && ltb (long_run_level start (S i)) 20)%bool;
      lra.
Qed.

Lemma long_run_level_monotone start i j :
  (i <= j)%nat -> long_run_level start i <= long_run_level start j.
Proof.
  induction 1 as [|j _ IH]; [lra|].
  destruct (long_run_level_from_start start j). lra.
Qed.

Lemma min_monotone a b c : a <= b -> min a c <= min b c.
Proof. intros H. unfold min. cmp_cases. Qed.

(** X19: on a timeline of 12 weeks or more every long run of the plan is
    between 6 and 22 miles, the long runs before the taper are at least
    the larger of the longest run and 8, capped at 22, and they do not
    decrease from week to week. *)
Theorem long_runs_stay_between_6_and_22
        (weeks : Z) (fitness_level : string) (longest : Q) :
  (12 <= weeks)%Z ->
  let progression :=
    match _generate_key_workouts weeks fitness_level longest with
    | WithProgression _ progression _ :: _ => progression
    | _ => []
    end in
  Z.of_nat (List.length progression) = weeks
  /\ Forall (fun x => 6 <= x /\ x <= 22) progression
  /\ (forall i j : nat,
        (i <= j)%nat -> (Z.of_nat j < weeks - 4)%Z ->
        min (max longest 8) 22 <= nth i progression 0
        /\ nth i progression 0 <= nth j progression 0).
Proof.
  intros Hw. unfold _generate_key_workouts. cbn [app].
  rewrite long_runs_of_long_timeline by exact Hw.
  rewrite slice_to_all
    by (try apply long_timeline_progression_length; lia).
  cbn zeta. split; [|split].
  - rewrite long_timeline_progression_length by exact Hw. lia.
  - unfold long_timeline_progression. apply Forall_app. split.
    + apply Forall_forall. intros x Hx. apply in_map_iff in Hx.
      destruct Hx as (i & <- & _).
      pose proof (proj1 (long_run_level_from_start (max longest 8) i)).
      pose proof (max_ge_r longest 8).
      pose proof (min_le_r (long_run_level (max longest 8) i) 22).
      split; [|lra]. apply Qle_trans with (min 8 22); [vm_compute; discriminate|].
      apply min_monotone. lra.
    + repeat constructor; vm_compute; discriminate.
  - intros i j Hij Hj. unfold long_timeline_progression.
    assert (Hn : forall k, (k < Z.to_nat (weeks - 4))%nat ->
              nth k (map (fun i => min (long_run_level (max longest 8) i) 22)
                       (seq 0 (Z.to_nat (weeks - 4))) ++ [18; 12; 8; 6]) 0
              = min (long_run_level (max longest 8) k) 22).
    { intros k Hk. rewrite app_nth1 by (now rewrite length_map, length_seq).
      rewrite (nth_indep _ 0 (min (long_run_level (max longest 8) 0) 22))
        by (now rewrite length_map, length_seq).
      rewrite (map_nth (fun i => min (long_run_level (max longest 8) i) 22)).
      now rewrite seq_nth. }
    rewrite !Hn by lia. split.
    + apply min_monotone. apply long_run_level_from_start.
    + apply min_monotone. now apply long_run_level_monotone.
Qed.

Lemma long_runs_stay_between_6_and_22_witness :
  Forall (fun x => 6 <= x /\ x <= 22)
    match _generate_key_workouts 16 "Intermediate" 14 with
    | WithProgression _ progression _ :: _ => progression
    | _ => []
    end.
Proof.
  apply (long_runs_stay_between_6_and_22 16 "Intermediate" 14).
  discriminate.
Defined.

Lemma short_weeks_cases weeks :
  (4 <= weeks < 12)%Z ->
  weeks = 4%Z \/ weeks = 5%Z \/ weeks = 6%Z \/ weeks = 7%Z \/ weeks = 8%Z
  \/ weeks = 9%Z \/ weeks = 10%Z \/ weeks = 11%Z.
Proof. lia. Qed.

(** X20: on a timeline of 4 to 11 weeks the long-run progression is
    shorter than the plan: it starts at the larger of the longest run and
    8, goes up by 2 for at most three entries without any cap, and ends
    with 12 and 8, five entries at most. *)
Theorem short_timeline_long_runs_are_fewer_than_weeks
        (weeks : Z) (fitness_level : string) (longest : Q) :
  (4 <= weeks < 12)%Z ->
  let progression :=
    match _generate_key_workouts weeks fitness_level longest with
    | WithProgression _ progression _ :: _ => progression
    | _ => []
    end in
  let start := max longest 8 in
  (Z.of_nat (List.length progression) < weeks)%Z
  /\ (exists n : nat,
        (1 <= n <= 3)%nat
        /\ progression =
             map (fun i => start + inject_Z (2 * Z.of_nat i)) (seq 0 n)
             ++ [12; 8]).
Proof.
  intros Hw. apply short_weeks_cases in Hw.
  unfold _generate_key_workouts, long_runs_of. cbn [app].
  repeat (destruct Hw as [Hw|Hw]); subst weeks; cbn zeta.
  - split; [vm_compute; reflexivity|]. exists 1%nat. split; [lia|reflexivity].
  - split; [vm_compute; reflexivity|]. exists 2%nat. split; [lia|reflexivity].
  - split; [vm_compute; reflexivity|]. exists 2%nat. split; [lia|reflexivity].
  - split; [vm_compute; reflexivity|]. exists 3%nat. split; [lia|reflexivity].
  - split; [vm_compute; reflexivity|]. exists 3%nat. split; [lia|reflexivity].
  - split; [vm_compute; reflexivity|]. exists 3%nat. split; [lia|reflexivity].
  - split; [vm_compute; reflexivity|]. exists 3%nat. split; [lia|reflexivity].
  - split; [vm_compute; reflexivity|]. exists 3%nat. split; [lia|reflexivity].
Qed.

Lemma short_timeline_long_runs_are_fewer_than_weeks_witness :
  (Z.of_nat
     (List.length
        match _generate_key_workouts 8 "Intermediate" 14 with
        | WithProgression _ progression _ :: _ => progression
        | _ => []
        end) < 8)%Z.
Proof.
  apply (short_timeline_long_runs_are_fewer_than_weeks 8 "Intermediate" 14).
  lia.
Defined.

(** ** Analysis, then the plan *)

(** X21: planning from an analysis that found no data does not fail:
    the error dictionary has none of the keys the plan reads, so that with
    a readable goal time the plan is the one of a Beginner at 20 miles a
    week with a longest run of 8, as for a profile with no field at all. *)
Theorem plan_from_no_data_is_the_default_plan
        (weeks : Z) (input : runs_input) (goal : option string) :
  input = Runs [] \/ (exists msg, input = FetchError msg) ->
  goal_time_ok goal = true ->
  exists plan,
    plan_from_runs weeks input goal = Returned plan
    /\ generate_training_plan weeks empty_data goal = Returned plan
    /\ plan_fitness_level plan = "Beginner"
    /\ current_weekly_mileage plan = 20
    /\ key_workouts plan = _generate_key_workouts weeks "Beginner" 8.
Proof.
  intros Hin G.
  assert (Ha : analyze_strava_fitness input = Returned no_data)
    by (destruct Hin as [->|[msg ->]]; reflexivity).
  unfold plan_from_runs. rewrite Ha. cbn [bind].
  change (as_fitness_data no_data) with empty_data.
  destruct (goal_time_ok_pace_targets empty_data goal G) as (pt & Hpt).
  destruct (generate_of_pace_targets weeks empty_data goal pt Hpt)
    as (plan & Hplan & _).
  exists plan. split; [exact Hplan|]. split; [exact Hplan|].
  destruct (generate_fields weeks empty_data goal plan Hplan)
    as (Hm & Hl & _ & Hk & _).
  cbn in Hm, Hl. rewrite Hl in Hk. cbn in Hk.
  repeat split; assumption.
Qed.

Lemma plan_from_no_data_is_the_default_plan_witness :
  exists plan,
    plan_from_runs 12 (Runs []) None = Returned plan
    /\ plan_fitness_level plan = "Beginner"
    /\ current_weekly_mileage plan = 20.
Proof.
  destruct (plan_from_no_data_is_the_default_plan 12 (Runs []) None
              (or_introl eq_refl) eq_refl)
    as (plan & H1 & _ & H3 & H4 & _).
  exists plan. split; [exact H1|]. split; [exact H3|exact H4].
Defined.

(** X22: planning from the analysis of a non-empty list of runs returns
    a plan exactly when every date and the goal time are read; the plan
    then carries the fitness level of the profile, one of the five tiers,
    and its weekly mileage as the profile reports it; otherwise the
    exception is [ValueError] or [IndexError], and it is the [ValueError]
    of the date when a date is not read. *)
Theorem plan_from_runs_outcome
        (weeks : Z) (r : run) (rs : list run) (goal : option string) :
  match plan_from_runs weeks (Runs (r :: rs)) goal with
  | Returned plan =>
      Forall well_dated (r :: rs)
      /\ goal_time_ok goal = true
      /\ exists p t,
           profile_of (r :: rs) = Some p
           /\ plan_fitness_level plan = fitness_level p
           /\ tier_of_label (plan_fitness_level plan) = Some t
           /\ current_weekly_mileage plan = weekly_mileage p
  | Raised e =>
      (e = "ValueError" \/ e = "IndexError")
      /\ (~ Forall well_dated (r :: rs) -> e = "ValueError")
      /\ (Forall well_dated (r :: rs) -> goal_time_ok goal = false)
  end.
Proof.
  unfold plan_from_runs.
  destruct (mapM (fun x => strptime (date x)) (r :: rs)) as [ds|e] eqn:E.
  - pose proof (mapM_returned_all _ _ _ E) as Hd.
    destruct (analyze_profile r rs ds E)
      as (p & Hp & _ & _ & _ & _ & _ & _ & Hf).
    rewrite Hp. cbn [bind as_fitness_data].
    destruct (goal_time_ok goal) eqn:G.
    + destruct (goal_time_ok_pace_targets
                  (as_fitness_data (Profile p)) goal G) as (pt & Hpt).
      destruct (generate_of_pace_targets weeks _ goal pt Hpt)
        as (plan & Hplan & _).
      cbn [as_fitness_data] in Hplan. rewrite Hplan.
      destruct (generate_fields weeks _ goal plan Hplan) as (Hm & Hl & _).
      cbn in Hm, Hl.
      split; [exact Hd|]. split; [reflexivity|].
      exists p, (two_stage_tier (raw_weekly_mileage (r :: rs))
                   (distance (max_by_distance r rs))
                   (raw_average_pace (r :: rs))).
      unfold profile_of. rewrite Hp.
      split; [reflexivity|]. split; [exact Hl|]. split; [|exact Hm].
      rewrite Hl, Hf, determine_fitness_level_two_stage.
      apply tier_of_label_label.
    + destruct (goal_time_bad_pace_targets
                  (as_fitness_data (Profile p)) goal G) as [H|H];
        cbn [as_fitness_data] in H;
        rewrite (generate_raises weeks _ goal _ H);
        (split; [auto|]); (split; [intros Hn; now destruct Hn|reflexivity]).
  - rewrite (analyze_raises r rs e E). cbn [bind].
    destruct (mapM_raised _ _ _ E) as (x & Hin & Hx).
    pose proof (strptime_raises _ _ Hx) as ->.
    split; [now left|]. split; [reflexivity|].
    intros Hd. rewrite Forall_forall in Hd. specialize (Hd x Hin).
    unfold well_dated in Hd. rewrite Hx in Hd. discriminate.
Qed.

(** ** The consistency score from the period and the count *)

Lemma length_gaps_of ds :
  List.length (gaps_of ds) = (List.length ds - 1)%nat.
Proof.
  induction ds as [|d ds IH]; [reflexivity|].
  destruct ds as [|e ds]; [reflexivity|].
  change (gaps_of (d :: e :: ds)) with (days_between e d :: gaps_of (e :: ds)).
  cbn [List.length] in *. lia.
Qed.

Lemma mapM_length {A B} (f : A -> outcome B) l ys :
  mapM f l = Returned ys -> List.length ys = List.length l.
Proof.
  revert ys. induction l as [|x l IH]; intros ys; cbn [mapM].
  - now intros [= <-].
  - destruct (f x); cbn [bind]; [|discriminate].
    destruct (mapM f l); cbn [bind]; [|discriminate].
    intros [= <-]. cbn [List.length]. now rewrite (IH _ eq_refl).
Qed.

Lemma average_gap_from_sum gaps :
  average_gap gaps =
  match gaps with
  | [] => 0
  | _ => inject_Z (sumZ gaps) / inject_Z (Z.of_nat (List.length gaps))
  end.
Proof. reflexivity. Qed.

Lemma consistency_from_period_and_count runs p :
  profile_of runs = Some p ->
  consistency_score p =
  _calculate_consistency_score
    (if (total_runs p <=? 1)%Z then 0
     else inject_Z (data_period_days p) / inject_Z (total_runs p - 1)).
Proof.
  intros H. destruct (profile_of_inv runs p H) as (r & rs & ds & -> & Hds & Hp).
  destruct (analyze_nonempty r rs ds Hds) as (q & Hq & _ & Hc).
  rewrite Hp in Hq. injection Hq as <-.
  destruct (analyze_profile r rs ds Hds) as (q & Hq & Hn & _).
  rewrite Hp in Hq. injection Hq as <-.
  destruct (data_period_sum (r :: rs) p H) as (ds' & Hs & Hd).
  unfold sorted_dates in Hs. rewrite Hds in Hs. cbn [bind] in Hs.
  injection Hs as <-.
  rewrite Hc, Hd, Hn. f_equal.
  pose proof (length_gaps_of (sort Datetime.le ds)) as Hl.
  rewrite (Permutation_length (sort_permutation Datetime.le ds)) in Hl.
  rewrite (mapM_length _ _ _ Hds) in Hl.
  unfold average_gap.
  change (List.length (r :: rs)) with (S (List.length rs)) in *.
  destruct (gaps_of (sort Datetime.le ds)) as [|g gs] eqn:E;
    change (List.length (g :: gs)) with (S (List.length gs)) in * || idtac;
    destruct (Z.leb_spec (Z.of_nat (S (List.length rs))) 1);
    try reflexivity; try (cbn [List.length] in Hl; lia).
  do 2 f_equal. lia.
Qed.

(** X23: the consistency score is decided by the number of runs and the
    days from the first to the last of them, whatever the spread of the
    runs in between: the average gap is the data period over the number
    of runs less one, and two histories that agree on the two numbers get
    the same score. *)
Theorem consistency_depends_on_period_and_count
        (runs runs' : list run) (p p' : profile) :
  profile_of runs = Some p ->
  profile_of runs' = Some p' ->
  total_runs p = total_runs p' ->
  data_period_days p = data_period_days p' ->
  consistency_score p = consistency_score p'
  /\ consistency_score p =
       _calculate_consistency_score
         (if (total_runs p <=? 1)%Z then 0
          else inject_Z (data_period_days p) / inject_Z (total_runs p - 1)).
Proof.
  intros H H' Hn Hd.
  rewrite (consistency_from_period_and_count runs p H).
  rewrite (consistency_from_period_and_count runs' p' H').
  rewrite Hn, Hd. split; reflexivity.
Qed.

Lemma consistency_depends_on_period_and_count_witness :
  exists p p',
    profile_of bunched_runs = Some p
    /\ profile_of spread_runs = Some p'
    /\ consistency_score p = consistency_score p'.
Proof.
  do 2 eexists. split; [reflexivity|]. split; [reflexivity|].
  apply (consistency_depends_on_period_and_count bunched_runs spread_runs
           _ _ eq_refl eq_refl);
    reflexivity.
Defined.

(** ** The focus of the weeks *)

(** X24: along a schedule the focus never goes back: Base building,
    Speed & strength, Race pace, Taper & recovery on a timeline of 12
    weeks or more, Maintain fitness then Taper & recovery on a shorter
    one; on a long timeline Base building covers weeks 1 to 6 whatever
    the number of weeks. *)
Theorem focus_follows_the_phases (weeks w w' : Z) :
  (w <= w')%Z ->
  exists n n',
    focus_rank (_get_week_focus w weeks) = Some n
    /\ focus_rank (_get_week_focus w' weeks) = Some n'
    /\ (n <= n')%nat
    /\ ((12 <= weeks)%Z ->
        (_get_week_focus w weeks = "Base building" <-> (w <= 6)%Z)).
Proof.
  intros H. unfold _get_week_focus.
  destruct (Z.leb_spec 12 weeks).
  - destruct (Z.leb_spec w 6), (Z.leb_spec w (weeks - 4)),
      (Z.leb_spec w (weeks - 2)), (Z.leb_spec w' 6),
      (Z.leb_spec w' (weeks - 4)), (Z.leb_spec w' (weeks - 2));
      try lia;
      do 2 eexists; (split; [reflexivity|]); (split; [reflexivity|]);
      (split; [lia|]); intros _; split; intros; try lia; try reflexivity;
      discriminate.
  - destruct (Z.leb_spec w (weeks - 2)), (Z.leb_spec w' (weeks - 2));
      try lia;
      do 2 eexists; (split; [reflexivity|]); (split; [reflexivity|]);
      (split; [lia|]); intros; lia.
Qed.

Lemma focus_follows_the_phases_witness :
  exists n n',
    focus_rank (_get_week_focus 5 16) = Some n
    /\ focus_rank (_get_week_focus 13 16) = Some n'
    /\ (n <= n')%nat.
Proof.
  destruct (focus_follows_the_phases 16 5 13 ltac:(discriminate))
    as (n & n' & H1 & H2 & H3 & _).
  exists n, n'. split; [exact H1|]. split; [exact H2|exact H3].
Defined.

(** ** The taper and the short timeline *)

Lemma miles_of_short_taper_week weeks base peak j :
  (2 <= weeks < 12)%Z -> (j < 2)%nat ->
  miles_of_week weeks base peak (weeks - 1 + Z.of_nat j) =
  nth j [ round (base * 0.7) 1; round (base * 0.5) 1 ] base.
Proof.
  intros Hw Hj. unfold miles_of_week.
  rewrite progression_length by lia.
  destruct (Z.leb_spec (weeks - 1 + Z.of_nat j) (Z.of_nat (Z.to_nat weeks)));
    [|lia].
  unfold mileage_progression_of.
  destruct (Z.leb_spec 12 weeks); [lia|].
  rewrite app_nth2 by (rewrite length_map, length_range; lia).
  rewrite length_map, length_range.
  replace (Z.to_nat (weeks - 1 + Z.of_nat j - 1) - Z.to_nat (weeks - 2))%nat
    with j by lia.
  reflexivity.
Qed.

(** X25: over the taper the mileage never goes up from a week to a later
    one, when the current mileage is not negative: the last four weeks of
    a timeline of 12 weeks or more, the last two of a shorter one of at
    least 2 weeks. *)
Theorem taper_never_goes_up
        (weeks : Z) (fd : fitness_data) (goal : option string)
        (plan : training_plan) (e e' : week_entry) :
  generate_training_plan weeks fd goal = Returned plan ->
  0 <= current_weekly_mileage plan ->
  (2 <= weeks)%Z ->
  In e (weekly_schedule plan) -> In e' (weekly_schedule plan) ->
  is_taper_week weeks e = true ->
  (week e <= week e')%Z ->
  total_miles e' <= total_miles e.
Proof.
  intros Hplan Hb Hw He He' Ht Hle.
  destruct (generate_fields weeks fd goal plan Hplan) as (_ & _ & Hs & _).
  set (base := current_weekly_mileage plan) in *.
  set (level := plan_fitness_level plan) in *.
  pose proof (max_safe_mileage_nonneg weeks base level Hb) as Hp.
  set (peak := max_safe_mileage weeks base level) in *.
  rewrite Hs in He, He'.
  apply in_schedule in He, He'.
  destruct He as [Hwe ->], He' as [Hwe' ->].
  unfold is_taper_week, taper_start in Ht. apply Z.ltb_lt in Ht.
  destruct (Z.leb_spec 12 weeks) as [H12|H12].
  - replace (week e) with (weeks - 3 + Z.of_nat (Z.to_nat (week e - (weeks - 3))))%Z
      by lia.
    replace (week e') with (weeks - 3 + Z.of_nat (Z.to_nat (week e' - (weeks - 3))))%Z
      by lia.
    assert (Hj : (Z.to_nat (week e - (weeks - 3))
                  <= Z.to_nat (week e' - (weeks - 3)) < 4)%nat) by lia.
    rewrite !miles_of_long_taper_week by lia.
    destruct (Z.to_nat (week e - (weeks - 3))) as [|[|[|[|j]]]];
      destruct (Z.to_nat (week e' - (weeks - 3))) as [|[|[|[|j']]]];
      try lia; cbn [nth]; apply round1_monotone; lra.
  - replace (week e) with (weeks - 1 + Z.of_nat (Z.to_nat (week e - (weeks - 1))))%Z
      by lia.
    replace (week e') with (weeks - 1 + Z.of_nat (Z.to_nat (week e' - (weeks - 1))))%Z
      by lia.
    assert (Hj : (Z.to_nat (week e - (weeks - 1))
                  <= Z.to_nat (week e' - (weeks - 1)) < 2)%nat) by lia.
    rewrite !miles_of_short_taper_week by lia.
    destruct (Z.to_nat (week e - (weeks - 1))) as [|[|j]];
      destruct (Z.to_nat (week e' - (weeks - 1))) as [|[|j']];
      try lia; cbn [nth]; apply round1_monotone; lra.
Qed.

Lemma taper_never_goes_up_witness :
  exists plan e e',
    generate_training_plan 4 sample_data None = Returned plan
    /\ week e = 3%Z /\ week e' = 4%Z
    /\ total_miles e' <= total_miles e.
Proof.
  eexists.
  exists {| week := 3; total_miles := round (35 * 0.7) 1;
            focus := "Taper & recovery";
            key_workout := "Easy pace runs only" |},
         {| week := 4; total_miles := round (35 * 0.5) 1;
            focus := "Taper & recovery";
            key_workout := "Easy pace runs only" |}.
  split; [reflexivity|]. split; [reflexivity|]. split; [reflexivity|].
  eapply (taper_never_goes_up 4 sample_data None _ _ _ eq_refl).
  - vm_compute. discriminate.
  - lia.
  - right; right; left; reflexivity.
  - right; right; right; left; reflexivity.
  - reflexivity.
  - cbn. lia.
Defined.

(** X26: on a timeline of 2 to 11 weeks the schedule has no build-up:
    every week before the last two is at the current mileage as it is,
    and the whole schedule is the same whatever the peak mileage. *)
Theorem short_timeline_ignores_the_peak
        (weeks : Z) (base peak peak' : Q) (level : string) :
  (2 <= weeks < 12)%Z ->
  _generate_weekly_schedule weeks base peak level =
  _generate_weekly_schedule weeks base peak' level
  /\ (forall e, In e (_generate_weekly_schedule weeks base peak level) ->
                (week e <= weeks - 2)%Z -> total_miles e = base).
Proof.
  intros Hw. split.
  - unfold _generate_weekly_schedule, mileage_progression_of.
    destruct (Z.leb_spec 12 weeks); [lia|reflexivity].
  - intros e He Hwk. apply in_schedule in He. destruct He as [Hwe ->].
    apply miles_of_flat_week; lia.
Qed.

Lemma short_timeline_ignores_the_peak_witness :
  _generate_weekly_schedule 8 35 49 "Intermediate" =
  _generate_weekly_schedule 8 35 70 "Intermediate".
Proof.
  apply (short_timeline_ignores_the_peak 8 35 49 70 "Intermediate"). lia.
Defined.

(** ** The average heart rate *)

Lemma analyze_heartrate r rs ds :
  mapM (fun x => strptime (date x)) (r :: rs) = Returned ds ->
  exists p,
    analyze_strava_fitness (Runs (r :: rs)) = Returned (Profile p)
    /\ profile_average_heartrate p =
         match filter (fun x => truthy (average_heartrate x)) (r :: rs) with
         | [] => None
         | hr_runs =>
             let h :=
               sum (map (fun x => heartrate_or_zero (average_heartrate x))
                      hr_runs)
               / inject_Z (Z.of_nat (List.length hr_runs)) in
             if truthy (Some h) then Some (round h 0) else None
         end.
Proof.
  intros Hds. unfold analyze_strava_fitness. rewrite Hds. cbn [bind].
  eexists. split; [reflexivity|].
  cbn [profile_average_heartrate].
  destruct (filter (fun x => truthy (average_heartrate x)) (r :: rs));
    reflexivity.
Qed.

Lemma sum_positive l :
  l <> [] -> Forall (fun x => 0 < x) l -> 0 < sum l.
Proof.
  intros Hne H. destruct H as [|x l Hx Hl]; [congruence|].
  unfold sum. cbn [fold_left]. rewrite sum_from.
  assert (0 <= sum l).
  { apply sum_nonneg. eapply Forall_impl; [|exact Hl].
    intros a Ha. now apply Qlt_le_weak. }
  lra.
Qed.

Lemma truthy_positive h :
  truthy (Some h) = true -> 0 <= h -> 0 < h.
Proof.
  unfold truthy. rewrite negb_true_iff. intros E H.
  destruct (Qle_lt_or_eq _ _ H) as [Hlt|Heq]; [exact Hlt|].
  assert (Qeq_bool h 0 = true) by (apply Qeq_bool_iff; now symmetry).
  congruence.
Qed.

(** X27: when no run has a negative heart rate, the profile has an
    average heart rate exactly when some run reports a heart rate other
    than zero; the runs without one, or with zero, are left out of the
    average. *)
Theorem average_heartrate_when_reported (runs : list run) (p : profile) :
  profile_of runs = Some p ->
  Forall (fun r => 0 <= heartrate_or_zero (average_heartrate r)) runs ->
  (profile_average_heartrate p = None
   <-> Forall (fun r => truthy (average_heartrate r) = false) runs)
  /\ (forall h, profile_average_heartrate p = Some h ->
        h = round
              (sum (map (fun x => heartrate_or_zero (average_heartrate x))
                      (filter (fun x => truthy (average_heartrate x)) runs))
               / inject_Z
                   (Z.of_nat
                      (List.length
                         (filter (fun x => truthy (average_heartrate x))
                            runs)))) 0).
Proof.
  intros H Hnn.
  destruct (profile_of_inv runs p H) as (r & rs & ds & -> & Hds & Hp).
  destruct (analyze_heartrate r rs ds Hds) as (q & Hq & Hh).
  rewrite Hp in Hq. injection Hq as <-. rewrite Hh. clear Hh.
  set (hr := filter (fun x => truthy (average_heartrate x)) (r :: rs)).
  assert (Hall : hr = [] <->
                 Forall (fun x => truthy (average_heartrate x) = false)
                   (r :: rs)).
  { unfold hr. clear. induction (r :: rs) as [|x l IH]; cbn [filter].
    - split; [constructor|reflexivity].
    - destruct (truthy (average_heartrate x)) eqn:E.
      + split; [discriminate|]. intros F. inversion F. congruence.
      + rewrite IH. split; [now constructor|]. intros F. now inversion F. }
  destruct hr as [|x l] eqn:E.
  - split; [|discriminate]. split; [intros _; now apply Hall|reflexivity].
  - cbn zeta.
    assert (Hpos : 0 < sum (map (fun x => heartrate_or_zero (average_heartrate x))
                              (x :: l))).
    { apply sum_positive; [discriminate|].
      apply Forall_forall. intros v Hv. apply in_map_iff in Hv.
      destruct Hv as (y & <- & Hy). rewrite <- E in Hy. unfold hr in Hy.
      apply filter_In in Hy. destruct Hy as [Hin Ht].
      rewrite Forall_forall in Hnn. specialize (Hnn y Hin).
      destruct (average_heartrate y) as [v|]; [|discriminate].
      now apply truthy_positive. }
    set (h := sum _ / _) in *.
    assert (Hh : 0 < h).
    { unfold h, Qdiv. apply Qmult_lt_0_compat; [exact Hpos|].
      apply Qinv_lt_0_compat. change 0 with (inject_Z 0).
      rewrite <- Zlt_Qlt. cbn [List.length]. lia. }
    assert (Ht : truthy (Some h) = true).
    { unfold truthy. rewrite negb_true_iff.
      destruct (Qeq_bool h 0) eqn:Eq; [|reflexivity].
      apply Qeq_bool_iff in Eq. lra. }
    rewrite Ht. split.
    + split; [discriminate|]. intros F. apply Hall in F. discriminate.
    + intros v [= <-]. reflexivity.
Qed.

Lemma average_heartrate_when_reported_witness :
  exists p h,
    profile_of sample_runs = Some p
    /\ profile_average_heartrate p = Some h
    /\ h = round (150 / 1) 0.
Proof.
  do 2 eexists. split; [reflexivity|]. split; [reflexivity|].
  apply (average_heartrate_when_reported sample_runs _ eq_refl);
    [repeat constructor; vm_compute; discriminate|reflexivity].
Defined.

End MoreFacts.
